(** * Plagiarism detection service: text similarity, pairwise comparison,
      match store and report

    Shallow embedding of
      services/plagiarism-service/app/services/plagiarism_service.py
      services/plagiarism-service/app/api/plagiarism.py
      services/plagiarism-service/app/models/plagiarism.py
    together with the properties claimed for them.

    Conventions of the embedding.
    - A Python [str] is a [string]; its characters are code points below 256
      (the Latin-1 range), on which [str.lower], [str.isspace] and the regular
      expression class [\s] are written out below.
    - A [Decimal] score with two decimals is the integer number of hundredths
      (a [Z]): [Decimal("0.00")] is [0], [Decimal("100.0")] is [10000].
    - Code that can raise returns a [result]; [try ... except Exception] is
      [try_except].  The exceptions are those of class [Exception].  [print]
      is logging only and is not modelled.
    - The file system and the document libraries are a [World], read by the
      code and constant during a call.
    - The binary64 arithmetic of [calculate_cosine_similarity]
      ([math.sqrt], [*], [/], [round(_, 2)]) is idealised: the quotient is
      taken over the reals and rounded to the nearest hundredth (see
      [round_cosine] and [round_cosine_nearest]).
    - A finite [float] is the fraction that is its exact value; the float
      of a decimal is the nearest binary64 number (see [binary64]).
    - The database is the list of rows of each table.  A query returns the
      rows in table order; a commit does not fail.  Key constraints are
      hypotheses of the theorems that need them. *)

From Stdlib Require Import ZArith List String Ascii Bool Lia Permutation QArith.
Import ListNotations.

Local Open Scope string_scope.
Local Open Scope Z_scope.

(* ================================================================= *)
(** ** Exceptions *)

Inductive exn : Type :=
| Exception (msg : string).

Inductive result (A : Type) : Type :=
| Ok (a : A)
| Raise (e : exn).

Arguments Ok {A} a.
Arguments Raise {A} e.

Definition bind {A B : Type} (m : result A) (k : A -> result B) : result B :=
  match m with
  | Ok a => k a
  | Raise e => Raise e
  end.

Notation "x <- m ;; k" := (bind m (fun x => k))
  (at level 61, m at next level, right associativity).

(** [try: body except Exception as e: handler e] *)
Definition try_except {A : Type} (body : result A) (handler : exn -> result A)
  : result A :=
  match body with
  | Ok a => Ok a
  | Raise e => handler e
  end.

(** A [for] loop whose body may raise, threading the loop state. *)
Fixpoint for_each {A S : Type} (l : list A) (body : A -> S -> result S) (s : S)
  : result S :=
  match l with
  | [] => Ok s
  | x :: l' => s' <- body x s ;; for_each l' body s'
  end.

(* ================================================================= *)
(** ** Characters and strings *)

Definition code (c : ascii) : N := N_of_ascii c.

Definition in_range (lo hi : N) (c : ascii) : bool :=
  (N.leb lo (code c) && N.leb (code c) hi)%bool.

(** [str.isspace] (and the class [\s]) on code points below 256:
    TAB..CR, FS..US, space, NEL and NBSP. *)
Definition isspace (c : ascii) : bool :=
  (in_range 9 13 c || in_range 28 32 c
   || N.eqb (code c) 133 || N.eqb (code c) 160)%bool.

(** [str.lower] on one code point below 256. *)
Definition lower_char (c : ascii) : ascii :=
  if (in_range 65 90 c
      || (in_range 192 222 c && negb (N.eqb (code c) 215)))%bool
  then ascii_of_N (code c + 32)
  else c.

Fixpoint smap (f : ascii -> ascii) (s : string) : string :=
  match s with
  | EmptyString => EmptyString
  | String c s' => String (f c) (smap f s')
  end.

Fixpoint sfilter (f : ascii -> bool) (s : string) : string :=
  match s with
  | EmptyString => EmptyString
  | String c s' => if f c then String c (sfilter f s') else sfilter f s'
  end.

Definition lower (s : string) : string := smap lower_char s.

Definition is_empty (s : string) : bool :=
  match s with
  | EmptyString => true
  | String _ _ => false
  end.

(** [re.sub(r'\s+', ' ', s)]: every maximal run of whitespace becomes one
    space; [in_run] tells that the previous character was whitespace. *)
Fixpoint sub_ws_runs (in_run : bool) (s : string) : string :=
  match s with
  | EmptyString => EmptyString
  | String c s' =>
      if isspace c
      then if in_run then sub_ws_runs true s'
           else String " "%char (sub_ws_runs true s')
      else String c (sub_ws_runs false s')
  end.

(** The class [[a-z0-9\s]]. *)
Definition alnum_or_space (c : ascii) : bool :=
  (in_range 97 122 c || in_range 48 57 c || isspace c)%bool.

Fixpoint lstrip (s : string) : string :=
  match s with
  | EmptyString => EmptyString
  | String c s' => if isspace c then lstrip s' else s
  end.

Fixpoint rstrip (s : string) : string :=
  match s with
  | EmptyString => EmptyString
  | String c s' =>
      let r := rstrip s' in
      if (isspace c && is_empty r)%bool then EmptyString else String c r
  end.

Definition strip (s : string) : string := rstrip (lstrip s).

Definition len (s : string) : Z := Z.of_nat (String.length s).

(** [sep.join(parts)] *)
Fixpoint join (sep : string) (parts : list string) : string :=
  match parts with
  | [] => ""
  | [p] => p
  | p :: rest => p ++ sep ++ join sep rest
  end.

(* ================================================================= *)
(** ** preprocess_text and tokenize *)

Definition preprocess_text (text : string) : string :=
  let text := lower text in
  let text := sub_ws_runs false text in
  let text := sfilter alnum_or_space text in
  strip text.

Definition push_token (w : string) (ws : list string) : list string :=
  if is_empty w then ws else w :: ws.

(** [(w, ws)]: the characters of the token that starts the text (empty when
    the text starts with whitespace) and the tokens after it. *)
Fixpoint split_aux (s : string) : string * list string :=
  match s with
  | EmptyString => (EmptyString, [])
  | String c s' =>
      let '(w, ws) := split_aux s' in
      if isspace c then (EmptyString, push_token w ws) else (String c w, ws)
  end.

(** [text.split()] *)
Definition tokenize (text : string) : list string :=
  let '(w, ws) := split_aux text in push_token w ws.

(* ================================================================= *)
(** ** calculate_cosine_similarity *)

(** [Counter(tokens).get(word, 0)] *)
Definition Counter (tokens : list string) (word : string) : Z :=
  Z.of_nat (count_occ string_dec tokens word).

(** [Counter(tokens).keys()] *)
Definition keys (tokens : list string) : list string :=
  nodup string_dec tokens.

(** [set(a).union(set(b))], listed without repetition. *)
Definition set_union (a b : list string) : list string :=
  nodup string_dec (a ++ b).

Definition zsum (l : list Z) : Z := fold_right Z.add 0 l.

Definition dot (v1 v2 : list Z) : Z :=
  zsum (map (fun ab : Z * Z => fst ab * snd ab) (combine v1 v2)).

Definition sumsq (v : list Z) : Z := zsum (map (fun a => a * a) v).

(** [round(dot_product / (sqrt(sq1) * sqrt(sq2)) * 100, 2)] in hundredths,
    the quotient taken exactly: the integer nearest to
    [10000 * d / sqrt (sq1 * sq2)]. *)
Definition round_cosine (d sq1 sq2 : Z) : Z :=
  (Z.sqrt (4 * (10000 * d) ^ 2 / (sq1 * sq2)) + 1) / 2.

Definition is_nil {A : Type} (l : list A) : bool :=
  match l with
  | [] => true
  | _ :: _ => false
  end.

Definition calculate_cosine_similarity (text1 text2 : string) : Z :=
  let text1 := preprocess_text text1 in
  let text2 := preprocess_text text2 in
  let tokens1 := tokenize text1 in
  let tokens2 := tokenize text2 in
  if (is_nil tokens1 || is_nil tokens2)%bool then 0
  else
    let counter1 := Counter tokens1 in
    let counter2 := Counter tokens2 in
    let all_words := set_union (keys tokens1) (keys tokens2) in
    let vec1 := map counter1 all_words in
    let vec2 := map counter2 all_words in
    let dot_product := dot vec1 vec2 in
    let sq1 := sumsq vec1 in
    let sq2 := sumsq vec2 in
    if ((sq1 =? 0) || (sq2 =? 0))%bool then 0
    else round_cosine dot_product sq1 sq2.

(* ================================================================= *)
(** ** The file system and the document libraries *)

(** What the extraction code observes of its environment.
    - [path_exists]: [os.path.exists] and [Path.exists];
    - [read_text]: [open(p, 'r', encoding='utf-8', errors='ignore').read()];
    - [pdf_pages]: [open(p, 'rb')] and [PyPDF2.PdfReader(f).pages]; each
      page is the outcome of its [extract_text()];
    - [docx_paragraphs]: the [text] of each paragraph of [Document(p)];
    - [xlsx_rows]: for each worksheet of [load_workbook(p)] its rows of
      cells, a cell being [None] or the [str] of its value;
    - [has_PyPDF2], [has_docx], [has_openpyxl]: whether the import succeeds. *)
Record World : Type := {
  path_exists : string -> bool;
  read_text : string -> result string;
  has_PyPDF2 : bool;
  pdf_pages : string -> result (list (result string));
  has_docx : bool;
  docx_paragraphs : string -> result (list string);
  has_openpyxl : bool;
  xlsx_rows : string -> result (list (list (list (option string))))
}.

Definition newline : string := String (ascii_of_N 10) EmptyString.

(** The [try] block of [extract_text_from_pdf]. *)
Definition pdf_body (w : World) (file_path : string) : result string :=
  if negb (has_PyPDF2 w) then Ok ""
  else
    pages <- pdf_pages w file_path ;;
    for_each pages
      (fun page text => t <- page ;; Ok (text ++ (t ++ newline))) "".

Definition extract_text_from_pdf (w : World) (file_path : string)
  : result string :=
  try_except (pdf_body w file_path) (fun _ => Ok "").

Definition docx_body (w : World) (file_path : string) : result string :=
  if negb (has_docx w) then Ok ""
  else
    paragraphs <- docx_paragraphs w file_path ;;
    Ok (join newline paragraphs).

Definition extract_text_from_docx (w : World) (file_path : string)
  : result string :=
  try_except (docx_body w file_path) (fun _ => Ok "").

Definition cell_text (cell : option string) : string :=
  match cell with
  | Some s => s
  | None => ""
  end.

Definition xlsx_body (w : World) (file_path : string) : result string :=
  if negb (has_openpyxl w) then Ok ""
  else
    wb <- xlsx_rows w file_path ;;
    for_each wb
      (fun sheet text =>
         for_each sheet
           (fun row text =>
              let row_text := join " " (map cell_text row) in
              if negb (is_empty (strip row_text))
              then Ok (text ++ (row_text ++ newline))
              else Ok text)
           text)
      "".

Definition extract_text_from_xlsx (w : World) (file_path : string)
  : result string :=
  try_except (xlsx_body w file_path) (fun _ => Ok "").

(** *** [Path(file_path).suffix] *)

Fixpoint has_char (c : ascii) (s : string) : bool :=
  match s with
  | EmptyString => false
  | String c' s' => (Ascii.eqb c c' || has_char c s')%bool
  end.

(** [Path(p).name]: what follows the last separator. *)
Fixpoint path_name (p : string) : string :=
  match p with
  | EmptyString => EmptyString
  | String c p' =>
      if (Ascii.eqb c "/" || has_char "/" p')%bool then path_name p'
      else p
  end.

(** The part of [s] from its last dot on, if it has a dot. *)
Fixpoint from_last_dot (s : string) : option string :=
  match s with
  | EmptyString => None
  | String c s' =>
      match from_last_dot s' with
      | Some t => Some t
      | None => if Ascii.eqb c "." then Some s else None
      end
  end.

(** [i = name.rfind('.')]; the suffix is [name[i:]] when
    [0 < i < len(name) - 1] and empty otherwise. *)
Definition suffix (p : string) : string :=
  match path_name p with
  | EmptyString => ""
  | String _ rest =>
      match from_last_dot rest with
      | Some t => if (String.length t =? 1)%nat then "" else t
      | None => ""
      end
  end.

Definition str_in (s : string) (l : list string) : bool :=
  existsb (String.eqb s) l.

(** The [try] block of [extract_text_from_file]. *)
Definition file_body (w : World) (file_path file_ext : string)
  : result string :=
  if String.eqb file_ext ".pdf" then extract_text_from_pdf w file_path
  else if str_in file_ext [".docx"; ".doc"]
  then extract_text_from_docx w file_path
  else if str_in file_ext [".xlsx"; ".xls"]
  then extract_text_from_xlsx w file_path
  else if (String.eqb file_ext ".txt" || String.eqb file_ext "")%bool
  then read_text w file_path
  else read_text w file_path.

Definition extract_text_from_file (w : World) (file_path : string)
  : result string :=
  if negb (path_exists w file_path) then Ok ""
  else
    let file_ext := lower (suffix file_path) in
    try_except (file_body w file_path file_ext) (fun _ => Ok "").

(* ================================================================= *)
(** ** compare_submissions, compare_all_files_in_submissions *)

Definition compare_submissions (w : World) (file_path1 file_path2 : string)
  : result Z :=
  text1 <- extract_text_from_file w file_path1 ;;
  text2 <- extract_text_from_file w file_path2 ;;
  if ((len text1 <? 50) || (len text2 <? 50))%bool then Ok 0
  else
    let similarity := calculate_cosine_similarity text1 text2 in
    Ok similarity.

(** A file of a submission: [(file_id, file_path)]. *)
Definition file_ref : Type := string * string.

Definition compare_all_files_in_submissions
  (w : World) (submission1_files submission2_files : list file_ref)
  : result Z :=
  for_each submission1_files
    (fun f1 max_similarity =>
       for_each submission2_files
         (fun f2 max_similarity =>
            similarity <- compare_submissions w (snd f1) (snd f2) ;;
            if similarity >? max_similarity then Ok similarity
            else Ok max_similarity)
         max_similarity)
    0.

(* ================================================================= *)
(** ** compare_all_submissions *)

(** [(submission_id, student_id, files)] *)
Definition submission_tuple : Type := string * string * list file_ref.

(** [(submission1_id, submission2_id, similarity_score)] *)
Definition result_tuple : Type := string * string * Z.

(** [l[i]] *)
Definition get_item {A : Type} (l : list A) (i : nat) : result A :=
  match nth_error l i with
  | Some x => Ok x
  | None => Raise (Exception "IndexError")
  end.

(** [range(lo, hi)] *)
Definition range (lo hi : nat) : list nat := seq lo (hi - lo).

(** The body of the inner loop; [continue] leaves [results] as it is. *)
Definition compare_pair (w : World) (submission_data : list submission_tuple)
  (i j : nat) (results : list result_tuple) : result (list result_tuple) :=
  s1 <- get_item submission_data i ;;
  s2 <- get_item submission_data j ;;
  let '(sub1_id, student1_id, files1) := s1 in
  let '(sub2_id, student2_id, files2) := s2 in
  if String.eqb student1_id student2_id then Ok results
  else if (is_nil files1 || is_nil files2)%bool then Ok results
  else
    similarity <- compare_all_files_in_submissions w files1 files2 ;;
    if similarity >? 0
    then Ok (results ++ [(sub1_id, sub2_id, similarity)])%list
    else Ok results.

(** [for i in range(n): for j in range(i + 1, n): body] *)
Definition all_pairs_loop {S : Type} (n : nat)
  (body : nat -> nat -> S -> result S) (init : S) : result S :=
  for_each (range 0 n)
    (fun i s => for_each (range (i + 1) n) (fun j s => body i j s) s)
    init.

Definition compare_all_submissions
  (w : World) (submission_data : list submission_tuple)
  : result (list result_tuple) :=
  all_pairs_loop (List.length submission_data)
    (compare_pair w submission_data) [].

(* ================================================================= *)
(** ** The database *)

(** A UUID is its canonical text ([str(uuid)]: 32 lower-case hexadecimal
    digits in five groups), so that [str] and [UUID(_)] are the identity and
    the order of UUIDs is the order of their texts. *)
Definition uuid : Type := string.

Record SubmissionFile : Type := {
  file_id : uuid;
  file_path : string
}.

Record Submission : Type := {
  submission_id : uuid;
  submission_assignment_id : uuid;
  student_id : uuid;
  files : list SubmissionFile
}.

Inductive UserRole : Type := STUDENT | TEACHER | MANAGER | ADMIN.

Record User : Type := {
  user_id : uuid;
  full_name : string;
  role : UserRole
}.

Record Assignment : Type := {
  assignment_pk : uuid;
  course_id : uuid
}.

Record CourseEnrollment : Type := {
  enrollment_course_id : uuid;
  enrollment_user_id : uuid;
  role_in_course : string
}.

(** A row of [plagiarism_matches]; the generated columns [id] and
    [checked_at] are left out. *)
Record PlagiarismMatch : Type := {
  assignment_id : uuid;
  submission1_id : uuid;
  submission2_id : uuid;
  similarity_score : Z
}.

Record Database : Type := {
  assignments : list Assignment;
  enrollments : list CourseEnrollment;
  users : list User;
  submissions : list Submission;
  plagiarism_matches : list PlagiarismMatch
}.

(** [db.query(PlagiarismMatch).filter(assignment_id == a)] *)
Definition matches_of (a : uuid) (rows : list PlagiarismMatch)
  : list PlagiarismMatch :=
  filter (fun m => String.eqb (assignment_id m) a) rows.

(** [db.query(Submission).filter(Submission.assignment_id == a).all()] *)
Definition submissions_of (a : uuid) (db : Database) : list Submission :=
  filter (fun s => String.eqb (submission_assignment_id s) a) (submissions db).

(* ================================================================= *)
(** ** run_plagiarism_check *)

(** [str(Path(base) / rel)]: an absolute [rel] replaces [base], an empty one
    adds nothing; [rel] is taken in normal form (no doubled or trailing
    separator). *)
Definition path_join (base rel : string) : string :=
  match rel with
  | EmptyString => base
  | String "/"%char _ => rel
  | _ => base ++ "/" ++ rel
  end.

Section Run.

(** [str(Path(settings.UPLOAD_DIR))] *)
Variable UPLOAD_DIR : string.
Variable w : World.

(** The files of a submission that exist on disk, as
    [(str(file.id), str(file_path))]. *)
Definition valid_files (submission : Submission) : list file_ref :=
  flat_map
    (fun file =>
       let p := path_join UPLOAD_DIR (file_path file) in
       if path_exists w p then [(file_id file, p)] else [])
    (files submission).

(** The loop that prepares [submission_data]. *)
Definition prepare_submission_data (subs : list Submission)
  : list submission_tuple :=
  flat_map
    (fun submission =>
       if negb (is_nil (files submission))
       then
         let fs := valid_files submission in
         if negb (is_nil fs)
         then [(submission_id submission, student_id submission, fs)]
         else []
       else [])
    subs.

(** The row added for one result, the smaller id first. *)
Definition match_row (a : uuid) (r : result_tuple) : PlagiarismMatch :=
  let '(sub1_id, sub2_id, similarity) := r in
  let '(sub1_id, sub2_id) :=
    if String.ltb sub2_id sub1_id then (sub2_id, sub1_id)
    else (sub1_id, sub2_id) in
  {| assignment_id := a;
     submission1_id := sub1_id;
     submission2_id := sub2_id;
     similarity_score := similarity |}.

Definition set_matches (db : Database) (rows : list PlagiarismMatch)
  : Database :=
  {| assignments := assignments db;
     enrollments := enrollments db;
     users := users db;
     submissions := submissions db;
     plagiarism_matches := rows |}.

(** The database after the task has run. *)
Definition run_plagiarism_check (a : uuid) (db : Database)
  : result Database :=
  let subs := submissions_of a db in
  if (Z.of_nat (List.length subs) <? 2) then Ok db
  else
    let submission_data := prepare_submission_data subs in
    if (Z.of_nat (List.length submission_data) <? 2) then Ok db
    else
      results <- compare_all_submissions w submission_data ;;
      (* delete old matches for this assignment *)
      let kept :=
        filter (fun m => negb (String.eqb (assignment_id m) a))
               (plagiarism_matches db) in
      (* store results *)
      let added := map (match_row a) results in
      Ok (set_matches db (kept ++ added)%list).

End Run.

(* ================================================================= *)
(** ** get_plagiarism_report *)

Inductive http_error : Type :=
| HTTP_404_NOT_FOUND (detail : string)
| HTTP_403_FORBIDDEN (detail : string).

Record StudentInfo : Type := {
  info_id : uuid;
  info_full_name : string
}.

(** One entry of the report's [matches]: the match and both students. *)
Record MatchResponse : Type := {
  response_match : PlagiarismMatch;
  student1 : StudentInfo;
  student2 : StudentInfo
}.

Record PlagiarismReportResponse : Type := {
  report_assignment_id : uuid;
  total_submissions : Z;
  total_comparisons : Z;
  matches : list MatchResponse;
  high_similarity_count : Z;
  medium_similarity_count : Z
}.

(** *** Binary64 numbers

    A finite [float] is given by its exact value, a fraction; comparing two
    floats is comparing their values. *)

(** The integer nearest to [n / d], ties to even, for [0 <= n] and [0 < d]. *)
Definition round_half_even (n d : Z) : Z :=
  let q := n / d in
  match 2 * (n mod d) ?= d with
  | Lt => q
  | Gt => q + 1
  | Eq => if Z.even q then q else q + 1
  end.

(** [2 ^ e <= a / b], for positive [a] and [b]. *)
Definition pow2_le (e a b : Z) : bool :=
  if 0 <=? e then b * 2 ^ e <=? a else b <=? a * 2 ^ (- e).

(** The binary64 number nearest to [a / b] (ties to even), for positive [a]
    and [b] with [a / b] below [2 ^ 1024]: a significand of 53 bits at the
    exponent of [a / b], or at the least exponent for a subnormal. *)
Definition binary64_pos (a b : Z) : Q :=
  let e0 := Z.log2 a - Z.log2 b in
  let e := if pow2_le e0 a b then e0 else e0 - 1 in
  let q := Z.max e (-1022) - 52 in
  if 0 <=? q
  then inject_Z (round_half_even a (b * 2 ^ q) * 2 ^ q)
  else Qmake (round_half_even (a * 2 ^ (- q)) b) (Z.to_pos (2 ^ (- q))).

(** [float(x)] for a decimal or a literal [x]. *)
Definition binary64 (x : Q) : Q :=
  match Qnum x with
  | Z0 => 0%Q
  | Zpos a => binary64_pos (Zpos a) (Zpos (Qden x))
  | Zneg a => Qopp (binary64_pos (Zpos a) (Zpos (Qden x)))
  end.

(** [float(m.similarity_score)]: the binary64 number nearest to the decimal
    of two places. *)
Definition score_value (m : PlagiarismMatch) : Q :=
  binary64 (Qmake (similarity_score m) 100).

(** [order_by(similarity_score.desc())].  Rows of equal score keep their
    table order here; [ORDER BY] leaves their order open, and no property
    below depends on it. *)
Fixpoint insert_desc (m : PlagiarismMatch) (l : list PlagiarismMatch)
  : list PlagiarismMatch :=
  match l with
  | [] => [m]
  | x :: l' =>
      if similarity_score x <=? similarity_score m then m :: l
      else x :: insert_desc m l'
  end.

Definition order_by_score_desc (l : list PlagiarismMatch)
  : list PlagiarismMatch :=
  fold_right insert_desc [] l.

(** [db.query(Submission).filter(Submission.id == sid).first()] *)
Definition find_submission (db : Database) (sid : uuid) : option Submission :=
  find (fun s => String.eqb (submission_id s) sid) (submissions db).

(** [db.query(User).filter(User.id == uid).first()] *)
Definition find_user (db : Database) (uid : uuid) : option User :=
  find (fun u => String.eqb (user_id u) uid) (users db).

Definition info_of (u : User) : StudentInfo :=
  {| info_id := user_id u; info_full_name := full_name u |}.

(** The body of the loop that builds the response: [None] is [continue]. *)
Definition match_response (db : Database) (m : PlagiarismMatch)
  : option MatchResponse :=
  match find_submission db (submission1_id m),
        find_submission db (submission2_id m) with
  | Some sub1, Some sub2 =>
      match find_user db (student_id sub1), find_user db (student_id sub2) with
      | Some s1, Some s2 =>
          Some {| response_match := m;
                  student1 := info_of s1;
                  student2 := info_of s2 |}
      | _, _ => None
      end
  | _, _ => None
  end.

Definition option_list {A : Type} (o : option A) : list A :=
  match o with
  | Some a => [a]
  | None => []
  end.

Definition count {A : Type} (f : A -> bool) (l : list A) : Z :=
  Z.of_nat (List.length (filter f l)).

(** Lines 184-245: the report once the caller is known to be allowed.
    [threshold] is the value of the float of the request;
    [float(m.similarity_score) >= threshold] compares two binary64
    numbers, and the cutoffs 50 and 70 are themselves binary64 numbers, so
    that the tests on them are tests on the hundredths. *)
Definition build_report (db : Database) (a : uuid) (threshold : Q)
  : PlagiarismReportResponse :=
  let all_matches := order_by_score_desc (matches_of a (plagiarism_matches db)) in
  let selected :=
    filter (fun m => Qle_bool threshold (score_value m)) all_matches in
  let match_responses :=
    flat_map (fun m => option_list (match_response db m)) selected in
  let high_similarity :=
    count (fun m => 7000 <? similarity_score m) all_matches in
  let medium_similarity :=
    count (fun m => (5000 <=? similarity_score m)
                    && (similarity_score m <=? 7000))%bool all_matches in
  let total := Z.of_nat (List.length (submissions_of a db)) in
  {| report_assignment_id := a;
     total_submissions := total;
     total_comparisons := Z.of_nat (List.length all_matches);
     matches := match_responses;
     high_similarity_count := high_similarity;
     medium_similarity_count := medium_similarity |}.

Definition is_admin (u : User) : bool :=
  match role u with
  | ADMIN => true
  | _ => false
  end.

(** The handler, called with the user that the dependency
    [require_teacher] has let through. *)
Definition get_plagiarism_report
  (db : Database) (current_user : User) (a : uuid) (threshold : Q)
  : http_error + PlagiarismReportResponse :=
  match find (fun x => String.eqb (assignment_pk x) a) (assignments db) with
  | None => inl (HTTP_404_NOT_FOUND "Assignment not found")
  | Some assignment =>
      let enrollment :=
        find (fun e => String.eqb (enrollment_course_id e) (course_id assignment)
                       && String.eqb (enrollment_user_id e) (user_id current_user)
                       && String.eqb (role_in_course e) "teacher")%bool
             (enrollments db) in
      match is_admin current_user, enrollment with
      | false, None =>
          inl (HTTP_403_FORBIDDEN
                 "You don't have permission to view plagiarism report")
      | _, _ => inr (build_report db a threshold)
      end
  end.

(* ================================================================= *)
(** ** An instrumented copy of compare_all_submissions *)

(** [compare_pair] with a ghost log of the index pairs that reach
    [compare_all_files_in_submissions]. *)
Definition compare_pair_logged (w : World)
  (submission_data : list submission_tuple) (i j : nat)
  (st : list result_tuple * list (nat * nat))
  : result (list result_tuple * list (nat * nat)) :=
  let '(results, log) := st in
  s1 <- get_item submission_data i ;;
  s2 <- get_item submission_data j ;;
  let '(sub1_id, student1_id, files1) := s1 in
  let '(sub2_id, student2_id, files2) := s2 in
  if String.eqb student1_id student2_id then Ok (results, log)
  else if (is_nil files1 || is_nil files2)%bool then Ok (results, log)
  else
    similarity <- compare_all_files_in_submissions w files1 files2 ;;
    let log := (log ++ [(i, j)])%list in
    if similarity >? 0
    then Ok ((results ++ [(sub1_id, sub2_id, similarity)])%list, log)
    else Ok (results, log).

Definition compare_all_submissions_logged
  (w : World) (submission_data : list submission_tuple)
  : result (list result_tuple * list (nat * nat)) :=
  all_pairs_loop (List.length submission_data)
    (compare_pair_logged w submission_data) ([], []).

(* ================================================================= *)
(** ** Functions used to state the properties *)

(** The text that extraction yields for a path. *)
Definition text_of (w : World) (p : string) : string :=
  match extract_text_from_file w p with
  | Ok s => s
  | Raise _ => ""
  end.

(** The reader that the extension selects, without the [try] blocks. *)
Definition selected_body (w : World) (p : string) : result string :=
  let file_ext := lower (suffix p) in
  if String.eqb file_ext ".pdf" then pdf_body w p
  else if str_in file_ext [".docx"; ".doc"] then docx_body w p
  else if str_in file_ext [".xlsx"; ".xls"] then xlsx_body w p
  else read_text w p.

(** The score of one pair of files. *)
Definition pair_score (w : World) (p1 p2 : string) : Z :=
  if ((len (text_of w p1) <? 50) || (len (text_of w p2) <? 50))%bool then 0
  else calculate_cosine_similarity (text_of w p1) (text_of w p2).

(** The largest of [m] and the scores of the pairs of [fs1] x [fs2]. *)
Definition max_score_from (w : World) (fs1 fs2 : list file_ref) (m : Z) : Z :=
  fold_left
    (fun m f1 =>
       fold_left (fun m f2 => Z.max m (pair_score w (snd f1) (snd f2))) fs2 m)
    fs1 m.

Definition files_score (w : World) (fs1 fs2 : list file_ref) : Z :=
  max_score_from w fs1 fs2 0.

(** The index pairs [(i, j)], [i < j < n], in the order of the loops. *)
Definition index_pairs (n : nat) : list (nat * nat) :=
  flat_map (fun i => map (pair i) (range (i + 1) n)) (range 0 n).

Definition sub_id (s : submission_tuple) : string := fst (fst s).
Definition sub_student (s : submission_tuple) : string := snd (fst s).
Definition sub_files (s : submission_tuple) : list file_ref := snd s.

(** The pair is not skipped: different students, files on both sides. *)
Definition eligible (sd : list submission_tuple) (ij : nat * nat) : bool :=
  match nth_error sd (fst ij), nth_error sd (snd ij) with
  | Some s1, Some s2 =>
      (negb (String.eqb (sub_student s1) (sub_student s2))
       && negb (is_nil (sub_files s1) || is_nil (sub_files s2)))%bool
  | _, _ => false
  end.

(** The tuple that an index pair contributes when its score is positive. *)
Definition pair_tuple (w : World) (sd : list submission_tuple)
  (ij : nat * nat) : list result_tuple :=
  match nth_error sd (fst ij), nth_error sd (snd ij) with
  | Some s1, Some s2 =>
      let sc := files_score w (sub_files s1) (sub_files s2) in
      if sc >? 0 then [(sub_id s1, sub_id s2, sc)] else []
  | _, _ => []
  end.

(** The texts of the pages whose extraction succeeds. *)
Definition page_texts (pages : list (result string)) : list string :=
  flat_map (fun page => match page with Ok t => [t] | Raise _ => [] end) pages.

(** Each text followed by a newline, as the loop of [extract_text_from_pdf]
    appends them. *)
Fixpoint newline_terminated (texts : list string) : string :=
  match texts with
  | [] => ""
  | t :: rest => (t ++ newline) ++ newline_terminated rest
  end.

(** The per-page reading of PDF extraction: a page whose extraction fails
    is skipped, the texts of the other pages are kept. *)
Definition pdf_text_skipping_failed_pages (pages : list (result string))
  : string :=
  newline_terminated (page_texts pages).

(** The score of a pair of files taken from the cartesian product. *)
Definition score_of_pair (w : World) (fg : file_ref * file_ref) : Z :=
  pair_score w (snd (fst fg)) (snd (snd fg)).

(** The positive-score tuple that an index pair adds to [results]. *)
Definition contribution (w : World) (sd : list submission_tuple)
  (ij : nat * nat) : list result_tuple :=
  if eligible sd ij then pair_tuple w sd ij else [].

(** The extracted text of a path is shorter than 50 characters. *)
Definition short_text (w : World) (p : string) : Prop :=
  exists t, extract_text_from_file w p = Ok t /\ len t < 50.

Definition all_files_short (w : World) (fs : list file_ref) : Prop :=
  forall f, In f fs -> short_text w (snd f).

(** *** Concrete environments *)

Definition is_some {A : Type} (o : option A) : bool :=
  match o with
  | Some _ => true
  | None => false
  end.

(** A directory of plain text files, given by their contents; the document
    readers reject every file. *)
Definition text_world (content : string -> option string) : World :=
  {| path_exists := fun p => is_some (content p);
     read_text := fun p =>
       match content p with
       | Some t => Ok t
       | None => Raise (Exception "FileNotFoundError")
       end;
     has_PyPDF2 := true;
     pdf_pages := fun _ => Raise (Exception "PdfReadError");
     has_docx := true;
     docx_paragraphs := fun _ => Raise (Exception "PackageNotFoundError");
     has_openpyxl := true;
     xlsx_rows := fun _ => Raise (Exception "InvalidFileException") |}.

Fixpoint spaces (n : nat) : string :=
  match n with
  | O => ""
  | S n' => String " "%char (spaces n')
  end.

(** Sixty characters, of which eleven survive normalisation. *)
Definition padded_text : string := "hello" ++ spaces 50 ++ "world".

Definition padded_world : World :=
  text_world (fun p =>
    if (String.eqb p "up/s1/a.txt" || String.eqb p "up/s2/b.txt")%bool
    then Some padded_text else None).

(** A PDF of three pages, the second of which cannot be extracted. *)
Definition bad_page_world : World :=
  {| path_exists := fun _ => true;
     read_text := fun _ => Raise (Exception "UnicodeDecodeError");
     has_PyPDF2 := true;
     pdf_pages := fun _ =>
       Ok [Ok "first page"; Raise (Exception "cannot decode page"); Ok "last page"];
     has_docx := true;
     docx_paragraphs := fun _ => Raise (Exception "PackageNotFoundError");
     has_openpyxl := true;
     xlsx_rows := fun _ => Raise (Exception "InvalidFileException") |}.

(** A PDF of two pages that both extract. *)
Definition good_pdf_world : World :=
  {| path_exists := fun _ => true;
     read_text := fun _ => Raise (Exception "UnicodeDecodeError");
     has_PyPDF2 := true;
     pdf_pages := fun _ => Ok [Ok "first page"; Ok "last page"];
     has_docx := true;
     docx_paragraphs := fun _ => Raise (Exception "PackageNotFoundError");
     has_openpyxl := true;
     xlsx_rows := fun _ => Raise (Exception "InvalidFileException") |}.

(** A page whose extraction returns a text. *)
Definition page_ok (page : result string) : Prop := exists t, page = Ok t.

(** The pair of submission ids of a stored row. *)
Definition pair_key (m : PlagiarismMatch) : uuid * uuid :=
  (submission1_id m, submission2_id m).

(** Both submissions of a match and both their students are found. *)
Definition records_exist (db : Database) (m : PlagiarismMatch) : bool :=
  match find_submission db (submission1_id m),
        find_submission db (submission2_id m) with
  | Some sub1, Some sub2 =>
      (is_some (find_user db (student_id sub1))
       && is_some (find_user db (student_id sub2)))%bool
  | _, _ => false
  end.

(** *** A concrete database *)

Definition id_a1 : uuid := "0a000000-0000-4000-8000-000000000001".
Definition id_a2 : uuid := "0a000000-0000-4000-8000-000000000002".
Definition id_c1 : uuid := "0c000000-0000-4000-8000-000000000001".
Definition id_s1 : uuid := "5b000000-0000-4000-8000-000000000001".
Definition id_s2 : uuid := "5b000000-0000-4000-8000-000000000002".
Definition id_s9 : uuid := "5b000000-0000-4000-8000-000000000009".
Definition id_alice : uuid := "0e000000-0000-4000-8000-00000000000a".
Definition id_bob : uuid := "0e000000-0000-4000-8000-00000000000b".
Definition id_teacher : uuid := "0e000000-0000-4000-8000-00000000000c".

Definition alice : User :=
  {| user_id := id_alice; full_name := "Alice"; role := STUDENT |}.
Definition bob : User :=
  {| user_id := id_bob; full_name := "Bob"; role := STUDENT |}.
Definition teacher : User :=
  {| user_id := id_teacher; full_name := "Tess"; role := TEACHER |}.

Definition submission_s1 : Submission :=
  {| submission_id := id_s1; submission_assignment_id := id_a1;
     student_id := id_alice;
     files := [ {| file_id := "f1"; file_path := "s1/a.txt" |} ] |}.

(** Bob's submission has the larger id and is listed first. *)
Definition submission_s2 : Submission :=
  {| submission_id := id_s2; submission_assignment_id := id_a1;
     student_id := id_bob;
     files := [ {| file_id := "f2"; file_path := "s2/b.txt" |} ] |}.

Definition old_row : PlagiarismMatch :=
  {| assignment_id := id_a1; submission1_id := id_s1;
     submission2_id := id_s9; similarity_score := 6000 |}.

Definition other_row : PlagiarismMatch :=
  {| assignment_id := id_a2; submission1_id := id_s1;
     submission2_id := id_s2; similarity_score := 1234 |}.

Definition new_row : PlagiarismMatch :=
  {| assignment_id := id_a1; submission1_id := id_s1;
     submission2_id := id_s2; similarity_score := 10000 |}.

Definition demo_db : Database :=
  {| assignments := [ {| assignment_pk := id_a1; course_id := id_c1 |} ];
     enrollments := [ {| enrollment_course_id := id_c1;
                         enrollment_user_id := id_teacher;
                         role_in_course := "teacher" |} ];
     users := [alice; bob; teacher];
     submissions := [submission_s2; submission_s1];
     plagiarism_matches := [old_row; other_row] |}.

(** The same with Alice's submission only. *)
Definition single_db : Database :=
  {| assignments := assignments demo_db;
     enrollments := enrollments demo_db;
     users := users demo_db;
     submissions := [submission_s1];
     plagiarism_matches := [old_row; other_row] |}.

(** The database after a run on [demo_db]: [old_row] refers to a submission
    that is gone. *)
Definition report_db : Database :=
  {| assignments := assignments demo_db;
     enrollments := enrollments demo_db;
     users := users demo_db;
     submissions := [submission_s2; submission_s1];
     plagiarism_matches := [old_row; other_row; new_row] |}.

(** A directory in which no file exists. *)
Definition empty_world : World := text_world (fun _ => None).

(* ================================================================= *)
(** ** calculate_jaccard_similarity *)

(** [set(a).intersection(set(b))], for lists without repetition. *)
Definition set_inter (a b : list string) : list string :=
  filter (fun x => str_in x b) a.

(** [round(i / u * 100, 2)] in hundredths, the quotient taken exactly: the
    integer nearest to [10000 * i / u]. *)
Definition round_ratio (i u : Z) : Z := (2 * (10000 * i) + u) / (2 * u).

Definition calculate_jaccard_similarity (text1 text2 : string) : Z :=
  let text1 := preprocess_text text1 in
  let text2 := preprocess_text text2 in
  let tokens1 := keys (tokenize text1) in
  let tokens2 := keys (tokenize text2) in
  if (is_nil tokens1 || is_nil tokens2)%bool then 0
  else
    let intersection := set_inter tokens1 tokens2 in
    let union := set_union tokens1 tokens2 in
    if is_nil union then 0
    else
      round_ratio (Z.of_nat (List.length intersection))
                  (Z.of_nat (List.length union)).

(* ================================================================= *)
(** ** trigger_plagiarism_check, trigger_plagiarism_check_internal *)

(** The body of the 202 response. *)
Record TriggerResponse : Type := {
  message : string;
  triggered_assignment_id : string
}.

(** The teacher of the course of an assignment, if the user is one:
    the enrollment query of the three teacher endpoints. *)
Definition teacher_enrollment (db : Database) (current_user : User)
  (assignment : Assignment) : option CourseEnrollment :=
  find (fun e => String.eqb (enrollment_course_id e) (course_id assignment)
                 && String.eqb (enrollment_user_id e) (user_id current_user)
                 && String.eqb (role_in_course e) "teacher")%bool
       (enrollments db).

(** [background_tasks] is the list of the tasks of the request, each the
    assignment whose check is to run after the response; the handler returns
    it with the response. *)
Definition trigger_plagiarism_check
  (db : Database) (current_user : User) (a : uuid) (background_tasks : list uuid)
  : (http_error + TriggerResponse) * list uuid :=
  match find (fun x => String.eqb (assignment_pk x) a) (assignments db) with
  | None => (inl (HTTP_404_NOT_FOUND "Assignment not found"), background_tasks)
  | Some assignment =>
      match is_admin current_user,
            teacher_enrollment db current_user assignment with
      | false, None =>
          (inl (HTTP_403_FORBIDDEN
                  "You don't have permission to run plagiarism check"),
           background_tasks)
      | _, _ =>
          (inr {| message := "Plagiarism check started";
                  triggered_assignment_id := a |},
           (background_tasks ++ [a])%list)
      end
  end.

Definition trigger_plagiarism_check_internal
  (db : Database) (a : uuid) (background_tasks : list uuid)
  : (http_error + TriggerResponse) * list uuid :=
  match find (fun x => String.eqb (assignment_pk x) a) (assignments db) with
  | None => (inl (HTTP_404_NOT_FOUND "Assignment not found"), background_tasks)
  | Some assignment =>
      (inr {| message := "Plagiarism check started";
              triggered_assignment_id := a |},
       (background_tasks ++ [a])%list)
  end.

(* ================================================================= *)
(** ** get_submission_plagiarism_matches *)

(** One entry of [match_list]: the match, the other submission and its
    student. *)
Record SubmissionMatch : Type := {
  entry_match : PlagiarismMatch;
  other_submission_id : uuid;
  other_student : StudentInfo
}.

Record SubmissionMatchesResponse : Type := {
  response_submission_id : uuid;
  submission_matches : list SubmissionMatch
}.

(** The matches that involve a submission, on either side. *)
Definition matches_involving (sid : uuid) (rows : list PlagiarismMatch)
  : list PlagiarismMatch :=
  filter (fun m => String.eqb (submission1_id m) sid
                   || String.eqb (submission2_id m) sid)%bool rows.

(** [x.attr] where [x] is the result of [.first()]: [None] has no
    attribute. *)
Definition attr_of {A : Type} (o : option A) : result A :=
  match o with
  | Some a => Ok a
  | None => Raise (Exception "AttributeError")
  end.

(** The body of the loop that builds [match_list]. *)
Definition submission_match_entry (db : Database) (sid : uuid)
  (m : PlagiarismMatch) (match_list : list SubmissionMatch)
  : result (list SubmissionMatch) :=
  let other_sub_id :=
    if String.eqb (submission1_id m) sid then submission2_id m
    else submission1_id m in
  other_sub <- attr_of (find_submission db other_sub_id) ;;
  other_student <- attr_of (find_user db (student_id other_sub)) ;;
  Ok (match_list
        ++ [ {| entry_match := m;
                other_submission_id := other_sub_id;
                other_student := info_of other_student |} ])%list.

(** [Raise] is an exception that leaves the handler (a 500 response);
    [Ok (inl _)] is an [HTTPException]. *)
Definition get_submission_plagiarism_matches
  (db : Database) (current_user : User) (sid : uuid)
  : result (http_error + SubmissionMatchesResponse) :=
  match find_submission db sid with
  | None => Ok (inl (HTTP_404_NOT_FOUND "Submission not found"))
  | Some submission =>
      let assignment :=
        find (fun x => String.eqb (assignment_pk x)
                                  (submission_assignment_id submission))
             (assignments db) in
      allowed <-
        (if is_admin current_user then Ok true
         else
           assignment <- attr_of assignment ;;
           Ok (is_some (teacher_enrollment db current_user assignment))) ;;
      if negb allowed
      then Ok (inl (HTTP_403_FORBIDDEN
                      "You don't have permission to view plagiarism matches"))
      else
        let found :=
          order_by_score_desc
            (matches_involving sid (plagiarism_matches db)) in
        match_list <- for_each found (submission_match_entry db sid) [] ;;
        Ok (inr {| response_submission_id := sid;
                   submission_matches := match_list |})
  end.

(** The characters that normalisation keeps: [a-z], [0-9] and the space. *)
Definition normal_char (c : ascii) : bool :=
  (in_range 97 122 c || in_range 48 57 c || Ascii.eqb c " ")%bool.

(** Every character of the text satisfies [p]. *)
Fixpoint all_chars (p : ascii -> bool) (s : string) : bool :=
  match s with
  | EmptyString => true
  | String c s' => (p c && all_chars p s')%bool
  end.

(** The line that [extract_text_from_xlsx] builds for a row. *)
Definition row_text (row : list (option string)) : string :=
  join " " (map cell_text row).

(** The line has a character that is not whitespace. *)
Definition nonblank (line : string) : bool := negb (is_empty (strip line)).

(** A workbook of two sheets and a document of two paragraphs. *)
Definition office_world : World :=
  {| path_exists := fun _ => true;
     read_text := fun _ => Raise (Exception "UnicodeDecodeError");
     has_PyPDF2 := true;
     pdf_pages := fun _ => Raise (Exception "PdfReadError");
     has_docx := true;
     docx_paragraphs := fun _ => Ok ["Title"; "Body"];
     has_openpyxl := true;
     xlsx_rows := fun _ =>
       Ok [ [ [Some "name"; None; Some "mark"]; [None; None]; [Some "ann"] ];
            [ [Some "total"] ] ] |}.

(** The row stored for two submissions. *)
Definition row_of (w : World) (a : uuid) (s1 s2 : submission_tuple)
  : PlagiarismMatch :=
  match_row a (sub_id s1, sub_id s2,
               files_score w (sub_files s1) (sub_files s2)).

(** [demo_db] with the rows of [submissions] in the other order. *)
Definition demo_db_reordered : Database :=
  {| assignments := assignments demo_db;
     enrollments := enrollments demo_db;
     users := users demo_db;
     submissions := [submission_s1; submission_s2];
     plagiarism_matches := plagiarism_matches demo_db |}.

(** The rows that a run computes for an assignment from the table of
    submissions, or [None] when the run returns early. *)
Definition run_rows (UPLOAD_DIR : string) (w : World) (a : uuid)
  (table : list Submission) : option (list PlagiarismMatch) :=
  let subs := filter (fun s => String.eqb (submission_assignment_id s) a) table in
  let sd := prepare_submission_data UPLOAD_DIR w subs in
  if ((Z.of_nat (List.length subs) <? 2) || (Z.of_nat (List.length sd) <? 2))%bool
  then None
  else Some (map (match_row a)
                 (flat_map (contribution w sd) (index_pairs (List.length sd)))).

(** Every submission refers to a user: the foreign key of [student_id]. *)
Definition students_exist (db : Database) : Prop :=
  forall s, In s (submissions db) ->
    exists u, In u (users db) /\ user_id u = student_id s.

(** The scores do not increase along the list. *)
Fixpoint descending (scores : list Z) : Prop :=
  match scores with
  | [] => True
  | x :: rest => (forall y, In y rest -> y <= x) /\ descending rest
  end.

(** The submission on the other side of a match. *)
Definition other_side (sid : uuid) (m : PlagiarismMatch) : uuid :=
  if String.eqb (submission1_id m) sid then submission2_id m
  else submission1_id m.

(** The entry listed for a match, when the other submission and its student
    are found. *)
Definition entry_of (db : Database) (sid : uuid) (m : PlagiarismMatch)
  : option SubmissionMatch :=
  match find_submission db (other_side sid m) with
  | Some other_sub =>
      match find_user db (student_id other_sub) with
      | Some student =>
          Some {| entry_match := m;
                  other_submission_id := other_side sid m;
                  other_student := info_of student |}
      | None => None
      end
  | None => None
  end.

(** [report_db] with an administrator. *)
Definition admin : User :=
  {| user_id := "0e000000-0000-4000-8000-00000000000d";
     full_name := "Ada"; role := ADMIN |}.

(** The handler returned its response, not an [HTTPException]. *)
Definition accepted {E A : Type} (x : E + A) : bool :=
  match x with
  | inr _ => true
  | inl _ => false
  end.

(** Two short files with the same sentence. *)
Definition fox_world : World :=
  text_world (fun p =>
    if (String.eqb p "up/s1/fox.txt" || String.eqb p "up/s2/fox.txt")%bool
    then Some "the quick brown fox" else None).

(** The columns of a row that a run computes; [id] and [checked_at] are
    generated anew at every insert. *)
Definition computed_columns (m : PlagiarismMatch) : uuid * uuid * uuid * Z :=
  (assignment_id m, submission1_id m, submission2_id m, similarity_score m).

(** A token: not empty and without whitespace. *)
Definition is_token (tok : string) : Prop :=
  tok <> "" /\ all_chars (fun x => negb (isspace x)) tok = true.

(* ================================================================= *)
(** * Properties *)

(** ** Examples *)


Example preprocess_demo :
  preprocess_text "  Hello,   World!  42 " = "hello world 42".
Proof. reflexivity. Qed.

Example tokenize_demo :
  tokenize (preprocess_text "The quick  brown-fox") = ["the"; "quick"; "brownfox"].
Proof. reflexivity. Qed.

Example cosine_identical :
  calculate_cosine_similarity "the quick brown fox" "The quick brown fox!" = 10000.
Proof. vm_compute. reflexivity. Qed.

Example cosine_disjoint :
  calculate_cosine_similarity "the quick brown fox" "completely different content here" = 0.
Proof. vm_compute. reflexivity. Qed.

Example cosine_half :
  calculate_cosine_similarity "a b" "a c" = 5000.
Proof. vm_compute. reflexivity. Qed.

Example suffix_demo :
  map suffix ["up/a.PDF"; "a.b/c"; ".bashrc"; "x.tar.gz"; "trailing."; "d.x/.h.txt"]
  = [".PDF"; ""; ""; ".gz"; ""; ".txt"].
Proof. reflexivity. Qed.

(* ================================================================= *)
(** ** Loops whose body does not raise *)

Lemma for_each_pure {A S : Type} (l : list A) (body : A -> S -> result S)
  (step : A -> S -> S) :
  (forall x s, In x l -> body x s = Ok (step x s)) ->
  forall s, for_each l body s = Ok (fold_left (fun s x => step x s) l s).
Proof.
  induction l as [|x l IH]; intros Hb s; simpl.
  - reflexivity.
  - rewrite (Hb x s) by (left; reflexivity). simpl.
    apply IH. intros y t Hy. apply Hb. right. exact Hy.
Qed.

Lemma fold_left_flat_map {A B S : Type} (f : S -> B -> S) (g : A -> list B)
  (l : list A) :
  forall s,
    fold_left f (flat_map g l) s = fold_left (fun s x => fold_left f (g x) s) l s.
Proof.
  induction l as [|x l IH]; intros s; simpl.
  - reflexivity.
  - rewrite fold_left_app. apply IH.
Qed.

Lemma fold_left_map {A B S : Type} (f : S -> B -> S) (g : A -> B) (l : list A) :
  forall s, fold_left f (map g l) s = fold_left (fun s x => f s (g x)) l s.
Proof.
  induction l as [|x l IH]; intros s; simpl; [reflexivity | apply IH].
Qed.

Lemma fold_left_ext_in {A S : Type} (f g : S -> A -> S) (l : list A) :
  (forall s x, In x l -> f s x = g s x) ->
  forall s, fold_left f l s = fold_left g l s.
Proof.
  induction l as [|x l IH]; intros H s; simpl.
  - reflexivity.
  - rewrite H by (left; reflexivity). apply IH.
    intros t y Hy. apply H. right. exact Hy.
Qed.

Lemma in_range_iff (lo hi k : nat) : In k (range lo hi) <-> (lo <= k < hi)%nat.
Proof. unfold range. rewrite in_seq. lia. Qed.

Lemma in_index_pairs (n i j : nat) :
  In (i, j) (index_pairs n) <-> (i < j < n)%nat.
Proof.
  unfold index_pairs. rewrite in_flat_map. split.
  - intros (k & Hk & Hin). apply in_map_iff in Hin.
    destruct Hin as (j' & Heq & Hj). inversion Heq; subst.
    apply in_range_iff in Hk. apply in_range_iff in Hj. lia.
  - intros H. exists i. split.
    + apply in_range_iff. lia.
    + apply in_map_iff. exists j. split; [reflexivity|].
      apply in_range_iff. lia.
Qed.

Lemma all_pairs_loop_pure {S : Type} (n : nat)
  (body : nat -> nat -> S -> result S) (step : nat * nat -> S -> S) (init : S) :
  (forall i j s, (i < j < n)%nat -> body i j s = Ok (step (i, j) s)) ->
  all_pairs_loop n body init
  = Ok (fold_left (fun s ij => step ij s) (index_pairs n) init).
Proof.
  intros Hb. unfold all_pairs_loop, index_pairs.
  rewrite fold_left_flat_map.
  rewrite (for_each_pure (range 0 n) _
             (fun i s => fold_left (fun s j => step (i, j) s) (range (i + 1) n) s)).
  - f_equal. apply fold_left_ext_in. intros s i _.
    rewrite fold_left_map. reflexivity.
  - intros i s Hi. apply for_each_pure. intros j t Hj.
    apply Hb. apply in_range_iff in Hi. apply in_range_iff in Hj. lia.
Qed.

(* ================================================================= *)
(** ** Text extraction *)

Lemma try_except_empty (body : result string) :
  exists s, try_except body (fun _ => Ok "") = Ok s.
Proof. destruct body as [s|e]; simpl; eauto. Qed.

Lemma try_except_raise (body : result string) (e : exn) :
  body = Raise e -> try_except body (fun _ => Ok "") = Ok "".
Proof. intros ->. reflexivity. Qed.

Lemma extract_text_from_file_total (w : World) (p : string) :
  extract_text_from_file w p = Ok (text_of w p).
Proof.
  unfold text_of.
  assert (H : exists s, extract_text_from_file w p = Ok s).
  { unfold extract_text_from_file.
    destruct (path_exists w p); simpl; [apply try_except_empty | eauto]. }
  destruct H as [s ->]. reflexivity.
Qed.

(** With the file present, the dispatch returns what the selected reader
    returns and turns its failure into the empty text. *)
Lemma extract_text_from_file_selected (w : World) (p : string) :
  path_exists w p = true ->
  extract_text_from_file w p
  = try_except (selected_body w p) (fun _ => Ok "").
Proof.
  intros Hex. unfold extract_text_from_file, selected_body, file_body.
  rewrite Hex. simpl negb. cbv iota.
  set (ext := lower (suffix p)).
  destruct (String.eqb ext ".pdf").
  { unfold extract_text_from_pdf. destruct (pdf_body w p); reflexivity. }
  destruct (str_in ext [".docx"; ".doc"]).
  { unfold extract_text_from_docx. destruct (docx_body w p); reflexivity. }
  destruct (str_in ext [".xlsx"; ".xls"]).
  { unfold extract_text_from_xlsx. destruct (xlsx_body w p); reflexivity. }
  destruct (String.eqb ext ".txt" || String.eqb ext "")%bool; reflexivity.
Qed.

(** C8. [extract_text_from_file] returns a text for every path and never
    raises; when the file is missing, or when the reader selected by the
    extension fails (open, parse or read error), the text is empty. *)
Theorem extract_text_from_file_never_raises (w : World) (p : string) :
  (exists text, extract_text_from_file w p = Ok text)
  /\ (path_exists w p = false -> extract_text_from_file w p = Ok "")
  /\ (forall e, selected_body w p = Raise e ->
                extract_text_from_file w p = Ok "").
Proof.
  split; [|split].
  - exists (text_of w p). apply extract_text_from_file_total.
  - intros Hex. unfold extract_text_from_file. rewrite Hex. reflexivity.
  - intros e He. destruct (path_exists w p) eqn:Hex.
    + rewrite extract_text_from_file_selected by exact Hex.
      apply try_except_raise with (e := e). exact He.
    + unfold extract_text_from_file. rewrite Hex. reflexivity.
Qed.

Lemma extract_text_from_file_never_raises_witness :
  extract_text_from_file empty_world "up/s1/missing.txt" = Ok ""
  /\ extract_text_from_file bad_page_world "up/s1/report.pdf" = Ok "".
Proof.
  split.
  - apply (proj1 (proj2 (extract_text_from_file_never_raises
                           empty_world "up/s1/missing.txt"))).
    reflexivity.
  - apply (proj2 (proj2 (extract_text_from_file_never_raises
                           bad_page_world "up/s1/report.pdf"))
             (Exception "cannot decode page")).
    reflexivity.
Defined.

(* ================================================================= *)
(** ** The comparisons return a score *)

Lemma compare_submissions_score (w : World) (p1 p2 : string) :
  compare_submissions w p1 p2 = Ok (pair_score w p1 p2).
Proof.
  unfold compare_submissions, pair_score.
  rewrite !extract_text_from_file_total. simpl.
  destruct (_ || _)%bool; reflexivity.
Qed.

Lemma gtb_max (a m : Z) : (if a >? m then a else m) = Z.max m a.
Proof. destruct (Z.gtb_spec a m); lia. Qed.

Lemma compare_all_files_from (w : World) (fs1 fs2 : list file_ref) (m : Z) :
  for_each fs1
    (fun f1 max_similarity =>
       for_each fs2
         (fun f2 max_similarity =>
            similarity <- compare_submissions w (snd f1) (snd f2) ;;
            if similarity >? max_similarity then Ok similarity
            else Ok max_similarity)
         max_similarity)
    m
  = Ok (max_score_from w fs1 fs2 m).
Proof.
  unfold max_score_from.
  apply (for_each_pure fs1 _
           (fun f1 m => fold_left
                          (fun m f2 => Z.max m (pair_score w (snd f1) (snd f2)))
                          fs2 m)).
  intros f1 s _.
  apply (for_each_pure fs2 _
           (fun f2 m => Z.max m (pair_score w (snd f1) (snd f2)))).
  intros f2 t _. rewrite compare_submissions_score. simpl.
  rewrite <- gtb_max. destruct (_ >? _); reflexivity.
Qed.

Lemma compare_all_files_score (w : World) (fs1 fs2 : list file_ref) :
  compare_all_files_in_submissions w fs1 fs2 = Ok (files_score w fs1 fs2).
Proof. apply compare_all_files_from. Qed.

(* ================================================================= *)
(** ** The maximum of a list of scores *)

Lemma fold_max_ge (xs : list Z) :
  forall m, m <= fold_left Z.max xs m.
Proof.
  induction xs as [|x xs IH]; intros m; simpl; [lia|].
  specialize (IH (Z.max m x)). lia.
Qed.

Lemma fold_max_bound (xs : list Z) :
  forall m x, In x xs -> x <= fold_left Z.max xs m.
Proof.
  induction xs as [|y xs IH]; intros m x Hin; simpl in *; [contradiction|].
  destruct Hin as [->|Hin].
  - pose proof (fold_max_ge xs (Z.max m x)). lia.
  - apply IH. exact Hin.
Qed.

Lemma fold_max_attained (xs : list Z) :
  forall m, fold_left Z.max xs m = m \/ In (fold_left Z.max xs m) xs.
Proof.
  induction xs as [|x xs IH]; intros m; simpl; [left; reflexivity|].
  destruct (IH (Z.max m x)) as [H|H].
  - rewrite H. destruct (Z.max_spec m x) as [[_ E]|[_ E]]; rewrite E; auto.
  - right. right. exact H.
Qed.

Lemma max_score_from_prod (w : World) (fs1 fs2 : list file_ref) (m : Z) :
  max_score_from w fs1 fs2 m
  = fold_left Z.max (map (score_of_pair w) (list_prod fs1 fs2)) m.
Proof.
  unfold max_score_from. revert m.
  induction fs1 as [|f1 fs1 IH]; intros m; simpl; [reflexivity|].
  rewrite IH, map_app, fold_left_app, map_map. f_equal.
  rewrite fold_left_map. reflexivity.
Qed.

(* ================================================================= *)
(** ** Symmetry of the cosine score *)

Lemma zsum_perm (l l' : list Z) : Permutation l l' -> zsum l = zsum l'.
Proof.
  unfold zsum. induction 1; simpl; lia.
Qed.

Lemma dot_map (c1 c2 : string -> Z) (ws : list string) :
  dot (map c1 ws) (map c2 ws) = zsum (map (fun x => c1 x * c2 x) ws).
Proof.
  unfold dot. induction ws as [|x ws IH]; simpl in *; [reflexivity|].
  unfold zsum in *. simpl. rewrite IH. reflexivity.
Qed.

Lemma sumsq_map (c : string -> Z) (ws : list string) :
  sumsq (map c ws) = zsum (map (fun x => c x * c x) ws).
Proof. unfold sumsq. rewrite map_map. reflexivity. Qed.

Lemma set_union_perm (a b : list string) :
  Permutation (set_union a b) (set_union b a).
Proof.
  unfold set_union. apply NoDup_Permutation; try apply NoDup_nodup.
  intros x. rewrite !nodup_In, !in_app_iff. tauto.
Qed.

Lemma round_cosine_comm (d a b : Z) : round_cosine d a b = round_cosine d b a.
Proof. unfold round_cosine. rewrite (Z.mul_comm a b). reflexivity. Qed.

Lemma calculate_cosine_similarity_comm (t1 t2 : string) :
  calculate_cosine_similarity t1 t2 = calculate_cosine_similarity t2 t1.
Proof.
  unfold calculate_cosine_similarity.
  set (k1 := tokenize (preprocess_text t1)).
  set (k2 := tokenize (preprocess_text t2)).
  rewrite (orb_comm (is_nil k2)).
  destruct (is_nil k1 || is_nil k2)%bool; [reflexivity|].
  cbv zeta.
  pose proof (set_union_perm (keys k1) (keys k2)) as P.
  rewrite !dot_map, !sumsq_map.
  rewrite (zsum_perm _ _ (Permutation_map (fun x => Counter k1 x * Counter k1 x) P)).
  rewrite (zsum_perm _ _ (Permutation_map (fun x => Counter k2 x * Counter k2 x) P)).
  rewrite (zsum_perm _ _ (Permutation_map (fun x => Counter k1 x * Counter k2 x) P)).
  rewrite (orb_comm (_ =? 0)).
  rewrite round_cosine_comm.
  replace (map (fun x => Counter k2 x * Counter k1 x) (set_union (keys k2) (keys k1)))
    with (map (fun x => Counter k1 x * Counter k2 x) (set_union (keys k2) (keys k1))).
  - reflexivity.
  - apply map_ext. intros x. apply Z.mul_comm.
Qed.

Lemma pair_score_comm (w : World) (p1 p2 : string) :
  pair_score w p1 p2 = pair_score w p2 p1.
Proof.
  unfold pair_score. rewrite orb_comm.
  rewrite calculate_cosine_similarity_comm. reflexivity.
Qed.

Lemma files_score_le (w : World) (fs1 fs2 : list file_ref) :
  files_score w fs1 fs2 <= files_score w fs2 fs1.
Proof.
  unfold files_score. rewrite !max_score_from_prod.
  destruct (fold_max_attained (map (score_of_pair w) (list_prod fs1 fs2)) 0)
    as [E|Hin].
  - rewrite E. apply fold_max_ge.
  - apply in_map_iff in Hin. destruct Hin as ([f g] & Hs & Hp).
    rewrite <- Hs. apply fold_max_bound.
    apply in_map_iff. exists (g, f). split.
    + unfold score_of_pair. simpl. apply pair_score_comm.
    + apply in_prod_iff. apply in_prod_iff in Hp. tauto.
Qed.

(** C5. The score is symmetric: the cosine similarity of two texts does not
    depend on their order, and neither does the score of two file sets. *)
Theorem similarity_symmetric :
  (forall t1 t2 : string,
      calculate_cosine_similarity t1 t2 = calculate_cosine_similarity t2 t1)
  /\ (forall (w : World) (a b : list file_ref),
         compare_all_files_in_submissions w a b
         = compare_all_files_in_submissions w b a).
Proof.
  split.
  - apply calculate_cosine_similarity_comm.
  - intros w a b. rewrite !compare_all_files_score. f_equal.
    apply Z.le_antisymm; apply files_score_le.
Qed.

(* ================================================================= *)
(** ** The score of two file sets is the maximum over their product *)

Lemma round_cosine_nonneg (d a b : Z) : 0 <= round_cosine d a b.
Proof.
  unfold round_cosine. apply Z.div_pos; [|lia].
  pose proof (Z.sqrt_nonneg (4 * (10000 * d) ^ 2 / (a * b))). lia.
Qed.

Lemma calculate_cosine_similarity_nonneg (t1 t2 : string) :
  0 <= calculate_cosine_similarity t1 t2.
Proof.
  unfold calculate_cosine_similarity.
  destruct (_ || _)%bool; [lia|]. cbv zeta.
  destruct (_ || _)%bool; [lia|]. apply round_cosine_nonneg.
Qed.

Lemma pair_score_nonneg (w : World) (p1 p2 : string) : 0 <= pair_score w p1 p2.
Proof.
  unfold pair_score. destruct (_ || _)%bool; [lia|].
  apply calculate_cosine_similarity_nonneg.
Qed.

(** C6, as the code has it.  For non-empty file lists, the score of two
    submissions is the maximum, over the cartesian product of their files,
    of the score that [compare_submissions] gives the file pair: no pair
    scores more, and some pair scores exactly that.  The score of a pair is
    the cosine similarity of the two extracted texts when both have at least
    50 characters, and 0 otherwise. *)
Theorem compare_all_files_is_maximum
  (w : World) (A B : list file_ref) (HA : A <> []) (HB : B <> []) :
  exists m,
    compare_all_files_in_submissions w A B = Ok m
    /\ (forall f1 f2 s, In (f1, f2) (list_prod A B) ->
          compare_submissions w (snd f1) (snd f2) = Ok s -> s <= m)
    /\ (exists f1 f2, In (f1, f2) (list_prod A B)
          /\ compare_submissions w (snd f1) (snd f2) = Ok m)
    /\ (forall f1 f2 t1 t2, In (f1, f2) (list_prod A B) ->
          extract_text_from_file w (snd f1) = Ok t1 ->
          extract_text_from_file w (snd f2) = Ok t2 ->
          compare_submissions w (snd f1) (snd f2)
          = Ok (if ((len t1 <? 50) || (len t2 <? 50))%bool then 0
                else calculate_cosine_similarity t1 t2)).
Proof.
  exists (files_score w A B). split; [apply compare_all_files_score|].
  unfold files_score. rewrite max_score_from_prod. split; [|split].
  - intros f1 f2 s Hin Hs. rewrite compare_submissions_score in Hs.
    inversion Hs; subst. apply fold_max_bound.
    apply in_map_iff. exists (f1, f2). split; [reflexivity | exact Hin].
  - destruct (fold_max_attained (map (score_of_pair w) (list_prod A B)) 0)
      as [E|Hin].
    + destruct A as [|f1 A']; [contradiction|].
      destruct B as [|f2 B']; [contradiction|].
      exists f1, f2. split; [simpl; left; reflexivity|].
      rewrite compare_submissions_score. f_equal.
      rewrite E. apply Z.le_antisymm; [|apply pair_score_nonneg].
      rewrite <- E. apply fold_max_bound.
      apply in_map_iff. exists (f1, f2). split; [reflexivity|].
      simpl. left. reflexivity.
    + apply in_map_iff in Hin. destruct Hin as ([f g] & Hs & Hp).
      exists f, g. split; [exact Hp|].
      rewrite compare_submissions_score. f_equal. exact Hs.
  - intros f1 f2 t1 t2 _ H1 H2. unfold compare_submissions.
    rewrite H1, H2. simpl. destruct (_ || _)%bool; reflexivity.
Qed.

Lemma compare_all_files_is_maximum_witness :
  exists m,
    compare_all_files_in_submissions padded_world
      [("f1", "up/s1/a.txt"); ("f0", "up/s1/none.txt")] [("f2", "up/s2/b.txt")]
    = Ok m
    /\ (exists f1 f2,
          In (f1, f2)
             (list_prod [("f1", "up/s1/a.txt"); ("f0", "up/s1/none.txt")]
                        [("f2", "up/s2/b.txt")])
          /\ compare_submissions padded_world (snd f1) (snd f2) = Ok m).
Proof.
  destruct (compare_all_files_is_maximum padded_world
              [("f1", "up/s1/a.txt"); ("f0", "up/s1/none.txt")]
              [("f2", "up/s2/b.txt")])
    as (m & Hm & _ & Hmax & _).
  - discriminate.
  - discriminate.
  - exists m. split; [exact Hm | exact Hmax].
Defined.

(** C6, as stated, fails: it is not the cosine score of the extracted texts
    that is maximised.  Two files with the same sentence of 19 characters
    have cosine score 100.00, and the two submissions score 0. *)
Lemma short_files_score_below_cosine :
  ~ (forall (w : World) (A B : list file_ref), A <> [] -> B <> [] ->
       exists m,
         compare_all_files_in_submissions w A B = Ok m
         /\ (forall f1 f2 t1 t2, In (f1, f2) (list_prod A B) ->
               extract_text_from_file w (snd f1) = Ok t1 ->
               extract_text_from_file w (snd f2) = Ok t2 ->
               calculate_cosine_similarity t1 t2 <= m)
         /\ (exists f1 f2 t1 t2, In (f1, f2) (list_prod A B)
               /\ extract_text_from_file w (snd f1) = Ok t1
               /\ extract_text_from_file w (snd f2) = Ok t2
               /\ calculate_cosine_similarity t1 t2 = m)).
Proof.
  intros H.
  destruct (H fox_world [("f1", "up/s1/fox.txt")] [("f2", "up/s2/fox.txt")])
    as (m & Hm & Hbound & _); try discriminate.
  vm_compute in Hm. inversion Hm; subst m.
  specialize (Hbound ("f1", "up/s1/fox.txt") ("f2", "up/s2/fox.txt")
                "the quick brown fox" "the quick brown fox"
                (or_introl eq_refl) eq_refl eq_refl).
  vm_compute in Hbound. apply Hbound. reflexivity.
Qed.

Example short_files_demo :
  calculate_cosine_similarity "the quick brown fox" "the quick brown fox" = 10000
  /\ compare_all_files_in_submissions fox_world
       [("f1", "up/s1/fox.txt")] [("f2", "up/s2/fox.txt")] = Ok 0.
Proof. vm_compute. split; reflexivity. Qed.

Example compare_all_files_demo :
  compare_all_files_in_submissions padded_world
    [("f1", "up/s1/a.txt"); ("f0", "up/s1/none.txt")] [("f2", "up/s2/b.txt")]
  = Ok 10000.
Proof. vm_compute. reflexivity. Qed.

(* ================================================================= *)
(** ** The minimum-content guard *)

Lemma compare_all_submissions_pure (w : World) (sd : list submission_tuple) :
  compare_all_submissions w sd
  = Ok (flat_map (contribution w sd) (index_pairs (List.length sd))).
Proof.
  unfold compare_all_submissions.
  rewrite (all_pairs_loop_pure _ _
             (fun ij res => (res ++ contribution w sd ij)%list)).
  - f_equal.
    assert (G : forall l acc,
               fold_left (fun s ij => (s ++ contribution w sd ij)%list) l acc
               = (acc ++ flat_map (contribution w sd) l)%list).
    { induction l as [|x l IH]; intros acc; simpl.
      - rewrite app_nil_r. reflexivity.
      - rewrite IH, app_assoc. reflexivity. }
    apply (G _ []).
  - intros i j res Hij. unfold compare_pair, get_item, contribution, eligible,
      pair_tuple. simpl fst. simpl snd.
    destruct (nth_error sd i) as [[[id1 st1] f1]|] eqn:E1.
    2:{ apply nth_error_None in E1. lia. }
    destruct (nth_error sd j) as [[[id2 st2] f2]|] eqn:E2.
    2:{ apply nth_error_None in E2. lia. }
    simpl. unfold sub_student, sub_files, sub_id. simpl.
    destruct (String.eqb st1 st2); simpl.
    { rewrite app_nil_r. reflexivity. }
    destruct (is_nil f1 || is_nil f2)%bool; simpl.
    { rewrite app_nil_r. reflexivity. }
    rewrite compare_all_files_score. simpl.
    destruct (files_score w f1 f2 >? 0); [reflexivity|].
    rewrite app_nil_r. reflexivity.
Qed.

Lemma pair_score_short (w : World) (p1 p2 : string) :
  short_text w p1 \/ short_text w p2 -> pair_score w p1 p2 = 0.
Proof.
  unfold short_text, pair_score.
  intros [(t & Ht & Hl)|(t & Ht & Hl)];
    rewrite extract_text_from_file_total in Ht; inversion Ht; subst t.
  - apply Z.ltb_lt in Hl. rewrite Hl. reflexivity.
  - apply Z.ltb_lt in Hl. rewrite Hl, orb_true_r. reflexivity.
Qed.

Lemma files_score_short (w : World) (fs1 fs2 : list file_ref) :
  all_files_short w fs1 \/ all_files_short w fs2 -> files_score w fs1 fs2 = 0.
Proof.
  intros H. unfold files_score. rewrite max_score_from_prod.
  destruct (fold_max_attained (map (score_of_pair w) (list_prod fs1 fs2)) 0)
    as [E|Hin]; [exact E|].
  apply in_map_iff in Hin. destruct Hin as ([f g] & Hs & Hp).
  rewrite <- Hs. unfold score_of_pair. simpl.
  apply in_prod_iff in Hp. destruct Hp as [Hf Hg].
  apply pair_score_short. destruct H as [H|H]; [left|right]; apply H; assumption.
Qed.

(** C1, as the code has it.  The guard of [compare_submissions] reads the
    length of the extracted text, before normalisation: the score is [0]
    whenever the extracted text of either file has fewer than 50 characters,
    and two submissions of which one has only such files yield no result
    pair. *)
Theorem compare_submissions_short_extracted_text (w : World) :
  (forall p1 p2 t1 t2,
      extract_text_from_file w p1 = Ok t1 ->
      extract_text_from_file w p2 = Ok t2 ->
      len t1 < 50 \/ len t2 < 50 ->
      compare_submissions w p1 p2 = Ok 0)
  /\ (forall s1 s2 : submission_tuple,
         all_files_short w (sub_files s1) \/ all_files_short w (sub_files s2) ->
         compare_all_files_in_submissions w (sub_files s1) (sub_files s2) = Ok 0
         /\ compare_all_submissions w [s1; s2] = Ok []).
Proof.
  split.
  - intros p1 p2 t1 t2 H1 H2 Hs.
    rewrite compare_submissions_score. f_equal.
    apply pair_score_short. unfold short_text.
    destruct Hs; [left; exists t1 | right; exists t2]; auto.
  - intros s1 s2 Hs. split.
    + rewrite compare_all_files_score. f_equal. apply files_score_short, Hs.
    + rewrite compare_all_submissions_pure. f_equal.
      unfold index_pairs, range. simpl.
      unfold contribution, eligible, pair_tuple. simpl.
      rewrite (files_score_short _ _ _ Hs). simpl.
      destruct (_ && _)%bool; reflexivity.
Qed.

Lemma compare_submissions_short_extracted_text_witness :
  compare_submissions (text_world (fun _ => Some "too short")) "a.txt" "b.txt"
  = Ok 0.
Proof.
  apply (proj1 (compare_submissions_short_extracted_text
                  (text_world (fun _ => Some "too short")))
           "a.txt" "b.txt" "too short" "too short").
  - reflexivity.
  - reflexivity.
  - left. vm_compute. reflexivity.
Defined.

(** C1, as stated, fails: a text of 60 characters whose normalised form has
    11 passes the guard, and two such files score 100.00. *)
Lemma short_normalized_text_not_guarded :
  ~ (forall (w : World) (p1 p2 t1 t2 : string),
        extract_text_from_file w p1 = Ok t1 ->
        extract_text_from_file w p2 = Ok t2 ->
        len (preprocess_text t1) < 50 \/ len (preprocess_text t2) < 50 ->
        compare_submissions w p1 p2 = Ok 0).
Proof.
  intros H.
  specialize (H padded_world "up/s1/a.txt" "up/s2/b.txt" padded_text padded_text
                eq_refl eq_refl).
  assert (Hs : len (preprocess_text padded_text) < 50) by (vm_compute; reflexivity).
  specialize (H (or_introl Hs)).
  vm_compute in H. discriminate H.
Qed.

Example padded_texts_are_matched :
  len padded_text = 60
  /\ preprocess_text padded_text = "hello world"
  /\ compare_submissions padded_world "up/s1/a.txt" "up/s2/b.txt" = Ok 10000
  /\ compare_all_submissions padded_world
       [("s1", "alice", [("f1", "up/s1/a.txt")]);
        ("s2", "bob", [("f2", "up/s2/b.txt")])]
     = Ok [("s1", "s2", 10000)].
Proof. vm_compute. repeat split; reflexivity. Qed.

(* ================================================================= *)
(** ** PDF extraction *)

Lemma append_assoc (a b c : string) : ((a ++ b) ++ c = a ++ (b ++ c))%string.
Proof. induction a as [|x a IH]; simpl; [reflexivity | rewrite IH; reflexivity]. Qed.

Lemma append_empty_r (a : string) : (a ++ "")%string = a.
Proof. induction a as [|x a IH]; simpl; [reflexivity | rewrite IH; reflexivity]. Qed.

Lemma pdf_loop_all_ok (pages : list (result string)) :
  Forall page_ok pages ->
  forall acc,
    for_each pages (fun page text => t <- page ;; Ok (text ++ (t ++ newline))%string) acc
    = Ok (acc ++ newline_terminated (page_texts pages))%string.
Proof.
  induction 1 as [|page pages [t ->] _ IH]; intros acc; simpl.
  - rewrite append_empty_r. reflexivity.
  - rewrite IH, append_assoc. reflexivity.
Qed.

Lemma pdf_loop_some_failed (pages : list (result string)) :
  Exists (fun page => ~ page_ok page) pages ->
  forall acc, exists e,
    for_each pages (fun page text => t <- page ;; Ok (text ++ (t ++ newline))%string) acc
    = Raise e.
Proof.
  induction pages as [|page pages IH]; intros Hex acc.
  - inversion Hex.
  - destruct page as [t|e]; simpl.
    + apply IH. inversion Hex as [? ? Hbad|? ? Hrest]; subst; [|exact Hrest].
      exfalso. apply Hbad. exists t. reflexivity.
    + exists e. reflexivity.
Qed.

(** C9, as the code has it.  The text of a PDF is the text of each page
    followed by a newline, in page order, when every page extracts; as soon
    as the extraction of one page fails, the whole extraction yields the
    empty text. *)
Theorem extract_text_from_pdf_pages
  (w : World) (p : string) (pages : list (result string))
  (Hlib : has_PyPDF2 w = true) (Hopen : pdf_pages w p = Ok pages) :
  (Forall page_ok pages ->
   extract_text_from_pdf w p = Ok (newline_terminated (page_texts pages)))
  /\ (Exists (fun page => ~ page_ok page) pages ->
      extract_text_from_pdf w p = Ok "").
Proof.
  unfold extract_text_from_pdf, pdf_body. rewrite Hlib, Hopen. simpl. split.
  - intros Hall. rewrite (pdf_loop_all_ok pages Hall ""). reflexivity.
  - intros Hbad. destruct (pdf_loop_some_failed pages Hbad "") as [e ->].
    reflexivity.
Qed.

Lemma extract_text_from_pdf_pages_witness :
  extract_text_from_pdf good_pdf_world "up/report.pdf"
  = Ok ("first page" ++ newline ++ "last page" ++ newline)%string
  /\ extract_text_from_pdf bad_page_world "up/report.pdf" = Ok "".
Proof.
  split.
  - apply (proj1 (extract_text_from_pdf_pages good_pdf_world "up/report.pdf"
                    [Ok "first page"; Ok "last page"] eq_refl eq_refl)).
    repeat constructor; eexists; reflexivity.
  - apply (proj2 (extract_text_from_pdf_pages bad_page_world "up/report.pdf"
                    [Ok "first page"; Raise (Exception "cannot decode page");
                     Ok "last page"] eq_refl eq_refl)).
    apply Exists_cons_tl. apply Exists_cons_hd.
    intros [t Ht]. discriminate Ht.
Defined.

(** C9, as stated, fails: with one page that cannot be extracted, the text
    of the other pages is discarded as well. *)
Lemma failed_page_discards_all_pages :
  ~ (forall (w : World) (p : string) (pages : list (result string)),
        has_PyPDF2 w = true ->
        pdf_pages w p = Ok pages ->
        extract_text_from_pdf w p = Ok (pdf_text_skipping_failed_pages pages)).
Proof.
  intros H.
  specialize (H bad_page_world "up/report.pdf" _ eq_refl eq_refl).
  vm_compute in H. discriminate H.
Qed.

(* ================================================================= *)
(** ** Which pairs compare_all_submissions compares *)

Lemma NoDup_flat_map_disjoint {A B : Type} (g : A -> list B) (l : list A) :
  NoDup l ->
  (forall x, In x l -> NoDup (g x)) ->
  (forall x y z, In x l -> In y l -> In z (g x) -> In z (g y) -> x = y) ->
  NoDup (flat_map g l).
Proof.
  induction 1 as [|x l Hx Hl IH]; intros Hg Hd; simpl.
  - constructor.
  - apply NoDup_app.
    + apply Hg. left. reflexivity.
    + apply IH.
      * intros y Hy. apply Hg. right. exact Hy.
      * intros y z t Hy Hz. apply Hd; right; assumption.
    + intros z Hz Hin. apply in_flat_map in Hin. destruct Hin as (y & Hy & Hzy).
      apply Hx. rewrite (Hd x y z); auto.
      * left. reflexivity.
      * right. exact Hy.
Qed.

Lemma NoDup_map_pair (i : nat) (l : list nat) :
  NoDup l -> NoDup (map (pair i) l).
Proof.
  induction 1 as [|x l Hx Hl IH]; simpl; constructor; [|exact IH].
  intros Hin. apply in_map_iff in Hin. destruct Hin as (y & Heq & Hy).
  inversion Heq; subst. contradiction.
Qed.

Lemma NoDup_index_pairs (n : nat) : NoDup (index_pairs n).
Proof.
  unfold index_pairs. apply NoDup_flat_map_disjoint.
  - apply seq_NoDup.
  - intros i _. apply NoDup_map_pair. apply seq_NoDup.
  - intros x y z _ _ Hx Hy.
    apply in_map_iff in Hx. destruct Hx as (a & <- & _).
    apply in_map_iff in Hy. destruct Hy as (b & Heq & _).
    inversion Heq. reflexivity.
Qed.

Lemma is_nil_false {A : Type} (l : list A) : is_nil l = false <-> l <> [].
Proof. destruct l; simpl; split; intros H; congruence. Qed.

Lemma eligible_iff (sd : list submission_tuple) (i j : nat) :
  eligible sd (i, j) = true <->
  exists s1 s2,
    nth_error sd i = Some s1 /\ nth_error sd j = Some s2
    /\ sub_student s1 <> sub_student s2
    /\ sub_files s1 <> [] /\ sub_files s2 <> [].
Proof.
  unfold eligible. simpl. split.
  - destruct (nth_error sd i) as [s1|]; [|discriminate].
    destruct (nth_error sd j) as [s2|]; [|discriminate].
    intros H. apply andb_true_iff in H. destruct H as [Hst Hf].
    apply negb_true_iff in Hst, Hf. apply orb_false_iff in Hf.
    exists s1, s2. repeat split.
    + apply String.eqb_neq. exact Hst.
    + apply is_nil_false. apply Hf.
    + apply is_nil_false. apply Hf.
  - intros (s1 & s2 & -> & -> & Hst & H1 & H2).
    apply String.eqb_neq in Hst. apply is_nil_false in H1, H2.
    rewrite Hst, H1, H2. reflexivity.
Qed.

Lemma compare_all_submissions_logged_pure
  (w : World) (sd : list submission_tuple) :
  compare_all_submissions_logged w sd
  = Ok (flat_map (contribution w sd) (index_pairs (List.length sd)),
        filter (eligible sd) (index_pairs (List.length sd))).
Proof.
  unfold compare_all_submissions_logged.
  rewrite (all_pairs_loop_pure _ _
             (fun ij st =>
                ((fst st ++ contribution w sd ij)%list,
                 (snd st ++ (if eligible sd ij then [ij] else []))%list))).
  - f_equal.
    assert (G : forall l ar al,
               fold_left
                 (fun st ij =>
                    ((fst st ++ contribution w sd ij)%list,
                     (snd st ++ (if eligible sd ij then [ij] else []))%list))
                 l (ar, al)
               = ((ar ++ flat_map (contribution w sd) l)%list,
                  (al ++ filter (eligible sd) l)%list)).
    { induction l as [|x l IH]; intros ar al; simpl.
      - rewrite !app_nil_r. reflexivity.
      - rewrite IH, <- !app_assoc. destruct (eligible sd x); reflexivity. }
    apply (G _ [] []).
  - intros i j [res log] Hij.
    unfold compare_pair_logged, get_item, contribution, eligible, pair_tuple.
    simpl fst. simpl snd.
    destruct (nth_error sd i) as [[[id1 st1] f1]|] eqn:E1.
    2:{ apply nth_error_None in E1. lia. }
    destruct (nth_error sd j) as [[[id2 st2] f2]|] eqn:E2.
    2:{ apply nth_error_None in E2. lia. }
    simpl. unfold sub_student, sub_files, sub_id. simpl.
    destruct (String.eqb st1 st2); simpl.
    { rewrite !app_nil_r. reflexivity. }
    destruct (is_nil f1 || is_nil f2)%bool; simpl.
    { rewrite !app_nil_r. reflexivity. }
    rewrite compare_all_files_score. simpl.
    destruct (files_score w f1 f2 >? 0); [reflexivity|].
    rewrite app_nil_r. reflexivity.
Qed.

Lemma in_contribution (w : World) (sd : list submission_tuple)
  (ij : nat * nat) (r : result_tuple) :
  In r (contribution w sd ij) <->
  exists s1 s2,
    eligible sd ij = true
    /\ nth_error sd (fst ij) = Some s1 /\ nth_error sd (snd ij) = Some s2
    /\ files_score w (sub_files s1) (sub_files s2) > 0
    /\ r = (sub_id s1, sub_id s2, files_score w (sub_files s1) (sub_files s2)).
Proof.
  unfold contribution, pair_tuple. split.
  - destruct (eligible sd ij) eqn:He; [|intros []].
    destruct (nth_error sd (fst ij)) as [s1|]; [|intros []].
    destruct (nth_error sd (snd ij)) as [s2|]; [|intros []].
    destruct (Z.gtb_spec (files_score w (sub_files s1) (sub_files s2)) 0);
      [|intros []].
    intros [<-|[]]. exists s1, s2. repeat split; auto. lia.
  - intros (s1 & s2 & -> & -> & -> & Hpos & ->).
    destruct (Z.gtb_spec (files_score w (sub_files s1) (sub_files s2)) 0);
      [left; reflexivity | lia].
Qed.

(** C7. [compare_all_submissions] calls the file comparison exactly once for
    each index pair [i < j] whose submissions have different students and
    both have files, and for no other pair; every result pair comes from
    such a comparison with a positive score.  [log] lists the calls. *)
Theorem compare_all_submissions_pairs (w : World) (sd : list submission_tuple) :
  exists results log,
    compare_all_submissions w sd = Ok results
    /\ compare_all_submissions_logged w sd = Ok (results, log)
    /\ NoDup log
    /\ (forall i j,
           In (i, j) log <->
           exists s1 s2,
             (i < j)%nat
             /\ nth_error sd i = Some s1 /\ nth_error sd j = Some s2
             /\ sub_student s1 <> sub_student s2
             /\ sub_files s1 <> [] /\ sub_files s2 <> [])
    /\ (forall r,
           In r results <->
           exists i j s1 s2 sc,
             In (i, j) log
             /\ nth_error sd i = Some s1 /\ nth_error sd j = Some s2
             /\ compare_all_files_in_submissions w (sub_files s1) (sub_files s2)
                = Ok sc
             /\ sc > 0
             /\ r = (sub_id s1, sub_id s2, sc)).
Proof.
  exists (flat_map (contribution w sd) (index_pairs (List.length sd))).
  exists (filter (eligible sd) (index_pairs (List.length sd))).
  split; [apply compare_all_submissions_pure|].
  split; [apply compare_all_submissions_logged_pure|].
  split; [apply NoDup_filter, NoDup_index_pairs|].
  split.
  - intros i j. rewrite filter_In, in_index_pairs, eligible_iff. split.
    + intros (Hij & s1 & s2 & H1 & H2 & H). exists s1, s2.
      repeat split; try tauto; lia.
    + intros (s1 & s2 & Hij & H1 & H2 & H). split.
      * split; [exact Hij|]. apply nth_error_Some. congruence.
      * exists s1, s2. tauto.
  - intros r. rewrite in_flat_map. split.
    + intros ([i j] & Hp & Hr). apply in_contribution in Hr.
      destruct Hr as (s1 & s2 & He & H1 & H2 & Hpos & ->).
      exists i, j, s1, s2, (files_score w (sub_files s1) (sub_files s2)).
      repeat split; auto.
      * apply filter_In. split; assumption.
      * apply compare_all_files_score.
    + intros (i & j & s1 & s2 & sc & Hlog & H1 & H2 & Hsc & Hpos & ->).
      apply filter_In in Hlog. destruct Hlog as [Hp He].
      exists (i, j). split; [exact Hp|].
      rewrite compare_all_files_score in Hsc. inversion Hsc; subst sc.
      apply in_contribution. exists s1, s2. repeat split; auto.
Qed.

Example compare_all_submissions_demo :
  compare_all_submissions_logged padded_world
    [("s1", "alice", [("f1", "up/s1/a.txt")]);
     ("s2", "alice", [("f2", "up/s2/b.txt")]);
     ("s3", "bob", []);
     ("s4", "carol", [("f4", "up/s2/b.txt")])]
  = Ok ([("s1", "s4", 10000); ("s2", "s4", 10000)], [(0, 3); (1, 3)]%nat).
Proof. vm_compute. reflexivity. Qed.

(* ================================================================= *)
(** ** The range of the score *)

(** The quadratic form [sum (t * a_i - s * b_i)^2] is not negative. *)
Lemma quadratic_form_nonneg (c1 c2 : string -> Z) (ws : list string) (s t : Z) :
  0 <= t * t * zsum (map (fun x => c1 x * c1 x) ws)
       - 2 * t * s * zsum (map (fun x => c1 x * c2 x) ws)
       + s * s * zsum (map (fun x => c2 x * c2 x) ws).
Proof.
  induction ws as [|x ws IH]; unfold zsum in *; cbn [map fold_right]; [lia|].
  pose proof (Z.square_nonneg (t * c1 x - s * c2 x)) as Hsq.
  set (A := fold_right Z.add 0 (map (fun x => c1 x * c1 x) ws)) in *.
  set (B := fold_right Z.add 0 (map (fun x => c2 x * c2 x) ws)) in *.
  set (D := fold_right Z.add 0 (map (fun x => c1 x * c2 x) ws)) in *.
  replace (t * t * (c1 x * c1 x + A) - 2 * t * s * (c1 x * c2 x + D)
           + s * s * (c2 x * c2 x + B))
    with ((t * t * A - 2 * t * s * D + s * s * B)
          + (t * c1 x - s * c2 x) * (t * c1 x - s * c2 x)) by ring.
  lia.
Qed.

Lemma zsum_squares_nonneg (c : string -> Z) (ws : list string) :
  0 <= zsum (map (fun x => c x * c x) ws).
Proof.
  induction ws as [|x ws IH]; unfold zsum in *; cbn [map fold_right]; [lia|].
  pose proof (Z.square_nonneg (c x)). lia.
Qed.

(** Cauchy-Schwarz on the two frequency vectors. *)
Lemma cauchy_schwarz (c1 c2 : string -> Z) (ws : list string) :
  dot (map c1 ws) (map c2 ws) * dot (map c1 ws) (map c2 ws)
  <= sumsq (map c1 ws) * sumsq (map c2 ws).
Proof.
  rewrite dot_map, !sumsq_map.
  set (A := zsum (map (fun x => c1 x * c1 x) ws)).
  set (B := zsum (map (fun x => c2 x * c2 x) ws)).
  set (D := zsum (map (fun x => c1 x * c2 x) ws)).
  assert (HA : 0 <= A) by apply zsum_squares_nonneg.
  assert (HB : 0 <= B) by apply zsum_squares_nonneg.
  assert (Q : forall s t, 0 <= t * t * A - 2 * t * s * D + s * s * B)
    by (intros s t; apply quadratic_form_nonneg).
  destruct (Z.eq_dec A 0) as [E|NE].
  - assert (D = 0).
    { pose proof (Q 1 (B + 1)) as Q1. pose proof (Q 1 (- (B + 1))) as Q2.
      rewrite E in Q1, Q2. nia. }
    subst D. rewrite H. nia.
  - pose proof (Q A D) as Q1.
    assert (Q2 : 0 <= A * (A * B - D * D)) by nia.
    nia.
Qed.

Lemma round_cosine_le (d a b : Z) :
  0 < a * b -> d * d <= a * b -> round_cosine d a b <= 10000.
Proof.
  intros Hpos Hd. unfold round_cosine.
  assert (H1 : 4 * (10000 * d) ^ 2 / (a * b) <= 400000000).
  { apply Z.div_le_upper_bound; [exact Hpos|]. nia. }
  assert (H0 : 0 <= 4 * (10000 * d) ^ 2 / (a * b)).
  { apply Z.div_pos; [nia | exact Hpos]. }
  pose proof (Z.sqrt_le_mono _ _ H1) as H2.
  change (Z.sqrt 400000000) with 20000 in H2.
  apply Z.le_trans with ((20000 + 1) / 2).
  - apply Z.div_le_mono; lia.
  - discriminate.
Qed.

(** The idealised rounding is to the nearest hundredth: with
    [k = round_cosine d a b], the quotient [10000 * d / sqrt (a * b)] lies
    within half a unit of [k]. *)
Lemma round_cosine_nearest (d a b : Z) :
  0 <= d -> 0 < a * b ->
  let k := round_cosine d a b in
  (k = 0 \/ (2 * k - 1) ^ 2 * (a * b) <= 4 * (10000 * d) ^ 2)
  /\ 4 * (10000 * d) ^ 2 < (2 * k + 1) ^ 2 * (a * b).
Proof.
  intros Hd Hpos. unfold round_cosine.
  set (N := 4 * (10000 * d) ^ 2). set (q := N / (a * b)).
  assert (HN : 0 <= N) by (unfold N; nia).
  assert (Hq : 0 <= q) by (apply Z.div_pos; assumption).
  assert (Hq1 : (a * b) * q <= N) by (apply Z.mul_div_le; exact Hpos).
  assert (Hq2 : N < (a * b) * (q + 1)).
  { pose proof (Z.mul_succ_div_gt N (a * b) Hpos). unfold q. lia. }
  pose proof (Z.sqrt_spec q Hq) as [Hs1 Hs2].
  pose proof (Z.sqrt_nonneg q) as Hs0.
  set (y := Z.sqrt q) in *.
  assert (Hk1 : 2 * ((y + 1) / 2) <= y + 1) by (apply Z.mul_div_le; lia).
  assert (Hk2 : y + 1 < 2 * ((y + 1) / 2 + 1)).
  { pose proof (Z.mul_succ_div_gt (y + 1) 2). lia. }
  set (k := (y + 1) / 2) in *.
  split.
  - destruct (Z.eq_dec k 0) as [E|NE]; [left; exact E | right].
    assert (0 < k) by (assert (0 <= k) by (apply Z.div_pos; lia); lia).
    assert ((2 * k - 1) ^ 2 <= q) by nia.
    nia.
  - assert (q + 1 <= (2 * k + 1) ^ 2) by nia.
    nia.
Qed.

Lemma calculate_cosine_similarity_le (t1 t2 : string) :
  calculate_cosine_similarity t1 t2 <= 10000.
Proof.
  unfold calculate_cosine_similarity.
  destruct (_ || _)%bool; [lia|]. cbv zeta.
  set (k1 := tokenize (preprocess_text t1)).
  set (k2 := tokenize (preprocess_text t2)).
  set (W := set_union (keys k1) (keys k2)).
  destruct (Z.eqb_spec (sumsq (map (Counter k1) W)) 0) as [|N1]; [simpl; lia|].
  destruct (Z.eqb_spec (sumsq (map (Counter k2) W)) 0) as [|N2]; [simpl; lia|].
  simpl. apply round_cosine_le; [|apply cauchy_schwarz].
  pose proof (zsum_squares_nonneg (Counter k1) W) as P1.
  pose proof (zsum_squares_nonneg (Counter k2) W) as P2.
  rewrite <- sumsq_map in P1, P2.
  apply Z.mul_pos_pos; lia.
Qed.

Lemma pair_score_le (w : World) (p1 p2 : string) : pair_score w p1 p2 <= 10000.
Proof.
  unfold pair_score. destruct (_ || _)%bool; [lia|].
  apply calculate_cosine_similarity_le.
Qed.

Lemma files_score_le_100 (w : World) (fs1 fs2 : list file_ref) :
  files_score w fs1 fs2 <= 10000.
Proof.
  unfold files_score. rewrite max_score_from_prod.
  destruct (fold_max_attained (map (score_of_pair w) (list_prod fs1 fs2)) 0)
    as [E|Hin]; [lia|].
  apply in_map_iff in Hin. destruct Hin as ([f g] & Hs & _).
  rewrite <- Hs. apply pair_score_le.
Qed.

(* ================================================================= *)
(** ** The rows that a run inserts *)

Lemma ltb_other_way (x y : string) :
  x <> y -> String.ltb y x = false -> String.ltb x y = true.
Proof.
  unfold String.ltb. intros Hne H.
  rewrite String.compare_antisym.
  destruct (String.compare y x) eqn:E; simpl; try reflexivity; try discriminate.
  apply String.compare_eq_iff in E. congruence.
Qed.

Lemma match_row_spec (a : uuid) (x y : string) (sc : Z) :
  x <> y ->
  let m := match_row a (x, y, sc) in
  assignment_id m = a
  /\ String.ltb (submission1_id m) (submission2_id m) = true
  /\ similarity_score m = sc
  /\ (pair_key m = (x, y) \/ pair_key m = (y, x)).
Proof.
  intros Hne. unfold match_row, pair_key.
  destruct (String.ltb y x) eqn:E; simpl; repeat split; auto.
  apply ltb_other_way; assumption.
Qed.

Lemma submissions_of_ids (a : uuid) (db : Database) :
  NoDup (map submission_id (submissions db)) ->
  NoDup (map submission_id (submissions_of a db)).
Proof.
  unfold submissions_of.
  generalize (submissions db) as subs.
  induction subs as [|s subs IH]; simpl; intros Hnd; [constructor|].
  inversion Hnd as [|? ? Hs Hrest]; subst.
  destruct (String.eqb (submission_assignment_id s) a); simpl.
  - constructor; [|apply IH; exact Hrest].
    intros Hin. apply Hs. apply in_map_iff in Hin.
    destruct Hin as (z & Hz & Hf). apply filter_In in Hf.
    apply in_map_iff. exists z. tauto.
  - apply IH. exact Hrest.
Qed.

Lemma in_prepare_ids (U : string) (w : World) (subs : list Submission) (x : string) :
  In x (map sub_id (prepare_submission_data U w subs)) ->
  In x (map submission_id subs).
Proof.
  unfold prepare_submission_data.
  induction subs as [|s subs IH]; simpl; [tauto|].
  rewrite map_app, in_app_iff. intros [H|H]; [left | right; apply IH; exact H].
  destruct (negb (is_nil (files s))); simpl in H; [|contradiction].
  destruct (negb (is_nil (valid_files U w s))); simpl in H; [|contradiction].
  destruct H as [H|[]]. exact H.
Qed.

Lemma NoDup_prepare (U : string) (w : World) (subs : list Submission) :
  NoDup (map submission_id subs) ->
  NoDup (map sub_id (prepare_submission_data U w subs)).
Proof.
  induction subs as [|s subs IH]; intros H; [constructor|].
  inversion H as [|? ? Hs Hrest]; subst.
  pose proof (in_prepare_ids U w subs (submission_id s)) as Hin.
  specialize (IH Hrest).
  unfold prepare_submission_data in *. simpl. rewrite map_app.
  destruct (negb (is_nil (files s))); simpl; [|exact IH].
  destruct (negb (is_nil (valid_files U w s))); simpl; [|exact IH].
  constructor; [|exact IH]. intros Hc. apply Hs, Hin, Hc.
Qed.

Lemma nth_error_id_inj (sd : list submission_tuple) (i k : nat)
  (s s' : submission_tuple) :
  NoDup (map sub_id sd) ->
  nth_error sd i = Some s -> nth_error sd k = Some s' ->
  sub_id s = sub_id s' -> i = k.
Proof.
  intros Hnd Hi Hk Heq.
  apply (proj1 (NoDup_nth_error (map sub_id sd)) Hnd).
  - rewrite length_map. apply nth_error_Some. congruence.
  - rewrite !nth_error_map, Hi, Hk. simpl. congruence.
Qed.

Lemma map_flat_map {A B C : Type} (f : B -> C) (g : A -> list B) (l : list A) :
  map f (flat_map g l) = flat_map (fun x => map f (g x)) l.
Proof.
  induction l as [|x l IH]; simpl; [reflexivity|].
  rewrite map_app, IH. reflexivity.
Qed.

Lemma contribution_cases (w : World) (sd : list submission_tuple)
  (ij : nat * nat) :
  contribution w sd ij = [] \/ exists r, contribution w sd ij = [r].
Proof.
  unfold contribution, pair_tuple.
  destruct (eligible sd ij); [|left; reflexivity].
  destruct (nth_error sd (fst ij)); [|left; reflexivity].
  destruct (nth_error sd (snd ij)); [|left; reflexivity].
  destruct (_ >? 0); [right; eexists; reflexivity | left; reflexivity].
Qed.

(** C3. With submission ids a key of [submissions], every row that a run
    inserts belongs to the assignment, has [submission1_id < submission2_id]
    and a score above 0 and at most 100.00, and no two inserted rows have
    the same pair of submissions.  [added] lists the inserted rows: none
    when the run returns early, otherwise the rows that follow the kept rows
    of the other assignments. *)
Theorem inserted_matches_canonical
  (UPLOAD_DIR : string) (w : World) (a : uuid) (db : Database)
  (Hkey : NoDup (map submission_id (submissions db))) :
  exists added : list PlagiarismMatch,
    ((run_plagiarism_check UPLOAD_DIR w a db = Ok db /\ added = [])
     \/ run_plagiarism_check UPLOAD_DIR w a db
        = Ok (set_matches db
                (filter (fun m => negb (String.eqb (assignment_id m) a))
                        (plagiarism_matches db) ++ added)%list))
    /\ (forall m, In m added ->
          assignment_id m = a
          /\ String.ltb (submission1_id m) (submission2_id m) = true
          /\ 0 < similarity_score m <= 10000)
    /\ NoDup (map pair_key added).
Proof.
  unfold run_plagiarism_check.
  destruct (Z.of_nat (List.length (submissions_of a db)) <? 2).
  { exists []. split; [left; auto|]. split; [intros m []|constructor]. }
  set (sd := prepare_submission_data UPLOAD_DIR w (submissions_of a db)).
  destruct (Z.of_nat (List.length sd) <? 2).
  { exists []. split; [left; auto|]. split; [intros m []|constructor]. }
  rewrite compare_all_submissions_pure. simpl.
  set (pairs := index_pairs (List.length sd)).
  exists (map (match_row a) (flat_map (contribution w sd) pairs)).
  split; [right; reflexivity|].
  assert (Hsd : NoDup (map sub_id sd)).
  { apply NoDup_prepare. apply submissions_of_ids, Hkey. }
  assert (Hfrom : forall i j r,
             In (i, j) pairs -> In r (contribution w sd (i, j)) ->
             exists s1 s2,
               nth_error sd i = Some s1 /\ nth_error sd j = Some s2
               /\ sub_id s1 <> sub_id s2
               /\ 0 < files_score w (sub_files s1) (sub_files s2)
               /\ r = (sub_id s1, sub_id s2,
                       files_score w (sub_files s1) (sub_files s2))).
  { intros i j r Hp Hr. apply in_contribution in Hr.
    destruct Hr as (s1 & s2 & _ & H1 & H2 & Hpos & ->). simpl in H1, H2.
    exists s1, s2. repeat split; auto; [|lia].
    intros Heq. apply in_index_pairs in Hp.
    pose proof (nth_error_id_inj sd i j s1 s2 Hsd H1 H2 Heq). lia. }
  split.
  - intros m Hm. apply in_map_iff in Hm. destruct Hm as (r & <- & Hr).
    apply in_flat_map in Hr. destruct Hr as ([i j] & Hp & Hr).
    destruct (Hfrom i j r Hp Hr) as (s1 & s2 & _ & _ & Hne & Hpos & ->).
    destruct (match_row_spec a (sub_id s1) (sub_id s2)
                (files_score w (sub_files s1) (sub_files s2)) Hne)
      as (Ha & Hlt & Hsc & _).
    repeat split; auto; rewrite Hsc; [exact Hpos | apply files_score_le_100].
  - rewrite map_map, map_flat_map. apply NoDup_flat_map_disjoint.
    + apply NoDup_index_pairs.
    + intros ij _. destruct (contribution_cases w sd ij) as [->|[r ->]]; simpl.
      * constructor.
      * constructor; [intros []|constructor].
    + intros [i j] [i' j'] z Hp Hp' Hz Hz'.
      apply in_map_iff in Hz. destruct Hz as (r & Hkr & Hr).
      apply in_map_iff in Hz'. destruct Hz' as (r' & Hkr' & Hr').
      destruct (Hfrom i j r Hp Hr) as (s1 & s2 & H1 & H2 & Hne & _ & ->).
      destruct (Hfrom i' j' r' Hp' Hr') as (t1 & t2 & G1 & G2 & Gne & _ & ->).
      apply in_index_pairs in Hp, Hp'.
      destruct (match_row_spec a (sub_id s1) (sub_id s2)
                  (files_score w (sub_files s1) (sub_files s2)) Hne)
        as (_ & _ & _ & Hk).
      destruct (match_row_spec a (sub_id t1) (sub_id t2)
                  (files_score w (sub_files t1) (sub_files t2)) Gne)
        as (_ & _ & _ & Gk).
      cbv zeta in Hk, Gk. rewrite Hkr in Hk. rewrite Hkr' in Gk.
      assert (Hinj : forall u v su sv, nth_error sd u = Some su ->
                nth_error sd v = Some sv -> sub_id su = sub_id sv -> u = v)
        by (intros; eapply nth_error_id_inj; eauto).
      destruct Hk as [Hk|Hk], Gk as [Gk|Gk]; rewrite Hk in Gk;
        inversion Gk as [[Ea Eb]].
      * rewrite (Hinj i i' s1 t1), (Hinj j j' s2 t2); auto.
      * pose proof (Hinj i j' s1 t2 H1 G2 Ea).
        pose proof (Hinj j i' s2 t1 H2 G1 Eb). lia.
      * pose proof (Hinj j i' s2 t1 H2 G1 Ea).
        pose proof (Hinj i j' s1 t2 H1 G2 Eb). lia.
      * rewrite (Hinj i i' s1 t1), (Hinj j j' s2 t2); auto.
Qed.

Lemma demo_db_ids : NoDup (map submission_id (submissions demo_db)).
Proof.
  simpl. constructor.
  - simpl. intros [H|[]]. discriminate H.
  - constructor; [intros []|constructor].
Qed.

Lemma inserted_matches_canonical_witness :
  exists added : list PlagiarismMatch,
    ((run_plagiarism_check "up" padded_world id_a1 demo_db = Ok demo_db
      /\ added = [])
     \/ run_plagiarism_check "up" padded_world id_a1 demo_db
        = Ok (set_matches demo_db
                (filter (fun m => negb (String.eqb (assignment_id m) id_a1))
                        (plagiarism_matches demo_db) ++ added)%list))
    /\ (forall m, In m added ->
          assignment_id m = id_a1
          /\ String.ltb (submission1_id m) (submission2_id m) = true
          /\ 0 < similarity_score m <= 10000)
    /\ NoDup (map pair_key added).
Proof.
  apply (inserted_matches_canonical "up" padded_world id_a1 demo_db).
  exact demo_db_ids.
Defined.

Example run_demo :
  run_plagiarism_check "up" padded_world id_a1 demo_db
  = Ok (set_matches demo_db [other_row; new_row]).
Proof. vm_compute. reflexivity. Qed.

(* ================================================================= *)
(** ** What a run leaves in the store *)

Lemma match_row_assignment (a : uuid) (r : result_tuple) :
  assignment_id (match_row a r) = a.
Proof.
  destruct r as [[x y] sc]. unfold match_row.
  destruct (String.ltb y x); reflexivity.
Qed.

Lemma matches_of_app (a : uuid) (l l' : list PlagiarismMatch) :
  matches_of a (l ++ l') = (matches_of a l ++ matches_of a l')%list.
Proof. apply filter_app. Qed.

Lemma matches_of_kept (a a' : uuid) (l : list PlagiarismMatch) :
  matches_of a' (filter (fun m => negb (String.eqb (assignment_id m) a)) l)
  = if String.eqb a' a then [] else matches_of a' l.
Proof.
  unfold matches_of. induction l as [|m l IH]; simpl.
  - destruct (String.eqb a' a); reflexivity.
  - destruct (String.eqb_spec (assignment_id m) a) as [Ea|Na]; simpl.
    + rewrite IH. destruct (String.eqb_spec a' a) as [E|N]; [reflexivity|].
      destruct (String.eqb_spec (assignment_id m) a'); [congruence | reflexivity].
    + rewrite IH. destruct (String.eqb_spec a' a) as [E|N].
      * subst a'. destruct (String.eqb_spec (assignment_id m) a);
          [contradiction | reflexivity].
      * reflexivity.
Qed.

Lemma matches_of_added (a a' : uuid) (rs : list result_tuple) :
  matches_of a' (map (match_row a) rs)
  = if String.eqb a' a then map (match_row a) rs else [].
Proof.
  unfold matches_of. induction rs as [|r rs IH]; simpl.
  - destruct (String.eqb a' a); reflexivity.
  - rewrite match_row_assignment, IH, (String.eqb_sym a a').
    destruct (String.eqb a' a); reflexivity.
Qed.

Lemma prepare_length (U : string) (w : World) (subs : list Submission) :
  (List.length (prepare_submission_data U w subs) <= List.length subs)%nat.
Proof.
  unfold prepare_submission_data.
  induction subs as [|s subs IH]; cbn [flat_map List.length]; [lia|].
  rewrite length_app.
  destruct (negb (is_nil (files s))); [|apply le_S; exact IH].
  destruct (negb (is_nil (valid_files U w s))).
  - apply le_n_S. exact IH.
  - apply le_S. exact IH.
Qed.

(** C2, as the code has it.  A run always completes.  It leaves the rows of
    every other assignment as they were.  With at least two eligible
    submissions (submissions with a file that exists), the rows stored for
    the assignment after the run are exactly the rows computed by this run;
    with fewer, the run changes nothing and the rows of earlier runs stay. *)
Theorem run_replaces_matches
  (UPLOAD_DIR : string) (w : World) (a : uuid) (db : Database) :
  let sd := prepare_submission_data UPLOAD_DIR w (submissions_of a db) in
  exists db' results,
    run_plagiarism_check UPLOAD_DIR w a db = Ok db'
    /\ compare_all_submissions w sd = Ok results
    /\ (forall a', a' <> a ->
          matches_of a' (plagiarism_matches db')
          = matches_of a' (plagiarism_matches db))
    /\ ((2 <= List.length sd)%nat ->
        matches_of a (plagiarism_matches db') = map (match_row a) results)
    /\ ((List.length sd < 2)%nat -> db' = db).
Proof.
  intros sd.
  pose proof (prepare_length UPLOAD_DIR w (submissions_of a db)) as Hlen.
  fold sd in Hlen.
  exists (match run_plagiarism_check UPLOAD_DIR w a db with
          | Ok d => d
          | Raise _ => db
          end).
  exists (flat_map (contribution w sd) (index_pairs (List.length sd))).
  unfold run_plagiarism_check. fold sd.
  rewrite compare_all_submissions_pure.
  destruct (Z.ltb_spec (Z.of_nat (List.length (submissions_of a db))) 2) as [L1|L1].
  { repeat split; auto. intros. lia. }
  destruct (Z.ltb_spec (Z.of_nat (List.length sd)) 2) as [L2|L2].
  { repeat split; auto. intros. lia. }
  simpl. repeat split.
  - intros a' Hne. rewrite matches_of_app, matches_of_kept, matches_of_added.
    apply String.eqb_neq in Hne. rewrite Hne, app_nil_r. reflexivity.
  - intros _. rewrite matches_of_app, matches_of_kept, matches_of_added.
    rewrite String.eqb_refl. reflexivity.
  - intros. lia.
Qed.

Lemma run_replaces_matches_witness :
  exists db' results,
    run_plagiarism_check "up" padded_world id_a1 demo_db = Ok db'
    /\ compare_all_submissions padded_world
         (prepare_submission_data "up" padded_world (submissions_of id_a1 demo_db))
       = Ok results
    /\ matches_of id_a2 (plagiarism_matches db') = [other_row]
    /\ matches_of id_a1 (plagiarism_matches db') = map (match_row id_a1) results.
Proof.
  destruct (run_replaces_matches "up" padded_world id_a1 demo_db)
    as (db' & results & Hrun & Hres & Hother & Hsame & _).
  exists db', results. split; [exact Hrun|]. split; [exact Hres|]. split.
  - rewrite (Hother id_a2); [reflexivity | discriminate].
  - apply Hsame. vm_compute. apply le_n.
Defined.

(** C2, as stated, fails: with a single submission the run returns early
    and the row of an earlier run stays, though this run computes no row. *)
Lemma stale_matches_survive_small_run :
  ~ (forall (UPLOAD_DIR : string) (w : World) (a : uuid) (db db' : Database),
        run_plagiarism_check UPLOAD_DIR w a db = Ok db' ->
        exists results,
          compare_all_submissions w
            (prepare_submission_data UPLOAD_DIR w (submissions_of a db))
          = Ok results
          /\ matches_of a (plagiarism_matches db') = map (match_row a) results).
Proof.
  intros H.
  destruct (H "up" padded_world id_a1 single_db single_db eq_refl)
    as (results & Hres & Hstored).
  vm_compute in Hres. inversion Hres; subst results.
  vm_compute in Hstored. discriminate Hstored.
Qed.

Example run_single :
  run_plagiarism_check "up" padded_world id_a1 single_db = Ok single_db
  /\ matches_of id_a1 (plagiarism_matches single_db) = [old_row].
Proof. vm_compute. split; reflexivity. Qed.

(* ================================================================= *)
(** ** The report *)

Lemma insert_desc_perm (m : PlagiarismMatch) (l : list PlagiarismMatch) :
  Permutation (insert_desc m l) (m :: l).
Proof.
  induction l as [|x l IH]; simpl; [apply Permutation_refl|].
  destruct (similarity_score x <=? similarity_score m).
  - apply Permutation_refl.
  - apply Permutation_trans with (x :: m :: l).
    + apply perm_skip. exact IH.
    + apply perm_swap.
Qed.

Lemma order_by_score_desc_perm (l : list PlagiarismMatch) :
  Permutation (order_by_score_desc l) l.
Proof.
  unfold order_by_score_desc. induction l as [|x l IH]; simpl.
  - apply Permutation_refl.
  - apply Permutation_trans with (x :: fold_right insert_desc [] l).
    + apply insert_desc_perm.
    + apply perm_skip. exact IH.
Qed.

Lemma filter_perm {A : Type} (keep : A -> bool) (xs ys : list A) :
  Permutation xs ys -> Permutation (filter keep xs) (filter keep ys).
Proof.
  induction 1 as [|x xs ys _ IH|x y xs|xs ys zs _ IH1 _ IH2]; simpl.
  - constructor.
  - destruct (keep x); [apply perm_skip|]; exact IH.
  - destruct (keep x), (keep y);
      try apply perm_swap; apply Permutation_refl.
  - apply Permutation_trans with (filter keep ys); assumption.
Qed.

Lemma count_perm {A : Type} (keep : A -> bool) (xs ys : list A) :
  Permutation xs ys -> count keep xs = count keep ys.
Proof.
  intros P. unfold count. f_equal.
  apply Permutation_length, filter_perm, P.
Qed.

Lemma records_exist_response (db : Database) (m : PlagiarismMatch) :
  map response_match (option_list (match_response db m))
  = if records_exist db m then [m] else [].
Proof.
  unfold match_response, records_exist.
  destruct (find_submission db (submission1_id m)) as [sub1|]; [|reflexivity].
  destruct (find_submission db (submission2_id m)) as [sub2|]; [|reflexivity].
  destruct (find_user db (student_id sub1)); [|reflexivity].
  destruct (find_user db (student_id sub2)); reflexivity.
Qed.

Lemma responses_are_found_matches (db : Database) (l : list PlagiarismMatch) :
  map response_match (flat_map (fun m => option_list (match_response db m)) l)
  = filter (records_exist db) l.
Proof.
  induction l as [|m l IH]; simpl; [reflexivity|].
  rewrite map_app, IH, records_exist_response.
  destruct (records_exist db m); reflexivity.
Qed.

Lemma filter_twice {A : Type} (f g : A -> bool) (l : list A) :
  filter g (filter f l) = filter (fun x => f x && g x)%bool l.
Proof.
  induction l as [|x l IH]; simpl; [reflexivity|].
  destruct (f x); simpl; [destruct (g x)|]; rewrite IH; reflexivity.
Qed.

Lemma get_plagiarism_report_inr
  (db : Database) (u : User) (a : uuid) (t : Q) (r : PlagiarismReportResponse) :
  get_plagiarism_report db u a t = inr r -> r = build_report db a t.
Proof.
  unfold get_plagiarism_report.
  destruct (find _ (assignments db)) as [x|]; [|discriminate].
  destruct (is_admin u); [intros H; inversion H; reflexivity|].
  destruct (find _ (enrollments db)); [|discriminate].
  intros H. inversion H. reflexivity.
Qed.

(** The report is returned to an administrator, and to a teacher of the
    assignment's course. *)
Lemma get_plagiarism_report_allowed
  (db : Database) (u : User) (a : uuid) (t : Q) (x : Assignment) :
  find (fun y => String.eqb (assignment_pk y) a) (assignments db) = Some x ->
  is_admin u = true
  \/ (exists e, In e (enrollments db)
                /\ enrollment_course_id e = course_id x
                /\ enrollment_user_id e = user_id u
                /\ role_in_course e = "teacher") ->
  get_plagiarism_report db u a t = inr (build_report db a t).
Proof.
  intros Hx Hallowed. unfold get_plagiarism_report. rewrite Hx.
  destruct (is_admin u); [reflexivity|].
  destruct Hallowed as [H|(e & Hin & Hc & Hu & Hr)]; [discriminate|].
  destruct (find _ (enrollments db)) eqn:F; [reflexivity|].
  pose proof (find_none _ _ F e Hin) as Hnone. simpl in Hnone.
  rewrite Hc, Hu, Hr, !String.eqb_refl in Hnone. discriminate.
Qed.

(** C4, as the code has it.  In a returned report, [total_comparisons] is
    the number of rows stored for the assignment, whatever the threshold;
    the matches listed are exactly the stored rows with score at least the
    threshold (the float of the score against the float of the request)
    whose two submissions and their students are still found; the high and
    medium counts are taken over all the stored rows. *)
Theorem report_counts_and_matches
  (db : Database) (u : User) (a : uuid) (t : Q) (r : PlagiarismReportResponse)
  (Hr : get_plagiarism_report db u a t = inr r) :
  let stored := matches_of a (plagiarism_matches db) in
  total_comparisons r = Z.of_nat (List.length stored)
  /\ Permutation (map response_match (matches r))
       (filter (fun m => Qle_bool t (score_value m) && records_exist db m)%bool
               stored)
  /\ high_similarity_count r
     = count (fun m => 7000 <? similarity_score m) stored
  /\ medium_similarity_count r
     = count (fun m => (5000 <=? similarity_score m)
                       && (similarity_score m <=? 7000))%bool stored.
Proof.
  intros stored. apply get_plagiarism_report_inr in Hr. subst r.
  unfold build_report. fold stored. simpl.
  pose proof (order_by_score_desc_perm stored) as P.
  repeat split.
  - f_equal. apply Permutation_length, P.
  - rewrite responses_are_found_matches, filter_twice.
    apply filter_perm, P.
  - apply count_perm, P.
  - apply count_perm, P.
Qed.

Lemma report_counts_and_matches_witness :
  total_comparisons (build_report report_db id_a1 (50 # 1)) = 2
  /\ Permutation
       (map response_match (matches (build_report report_db id_a1 (50 # 1))))
       [new_row]
  /\ high_similarity_count (build_report report_db id_a1 (50 # 1)) = 1
  /\ medium_similarity_count (build_report report_db id_a1 (50 # 1)) = 1.
Proof.
  exact (report_counts_and_matches report_db teacher id_a1 (50 # 1)
           (build_report report_db id_a1 (50 # 1)) eq_refl).
Defined.

(** C4, as stated, fails on the list: a stored row above the threshold whose
    submission is gone is not listed. *)
Lemma report_omits_match_of_missing_submission :
  ~ (forall (db : Database) (u : User) (a : uuid) (t : Q)
            (r : PlagiarismReportResponse),
        get_plagiarism_report db u a t = inr r ->
        Permutation (map response_match (matches r))
          (filter (fun m => Qle_bool t (score_value m))
                  (matches_of a (plagiarism_matches db)))).
Proof.
  intros H.
  pose proof (Permutation_length
                (H report_db teacher id_a1 (50 # 1) _ eq_refl)) as L.
  vm_compute in L. discriminate L.
Qed.

Lemma filter_shorter {A : Type} (keep : A -> bool) (x : A) (l : list A) :
  In x l -> keep x = false ->
  (List.length (filter keep l) < List.length l)%nat.
Proof.
  induction l as [|y l IH]; simpl; [tauto|].
  pose proof (filter_length_le keep l) as Hle.
  intros [->|Hin] Hx.
  - rewrite Hx. lia.
  - specialize (IH Hin Hx). destruct (keep y); simpl; lia.
Qed.

(** C10. A stored row whose submission record or student record is missing
    does not appear in the matches of the report, yet it is one of the rows
    that [total_comparisons], [high_similarity_count] and
    [medium_similarity_count] count; when its score reaches the threshold,
    the list is shorter than [total_comparisons] tells. *)
Theorem orphan_match_omitted_but_counted
  (db : Database) (u : User) (a : uuid) (t : Q) (r : PlagiarismReportResponse)
  (m : PlagiarismMatch)
  (Hr : get_plagiarism_report db u a t = inr r)
  (Hm : In m (matches_of a (plagiarism_matches db)))
  (Hgone : records_exist db m = false) :
  let stored := matches_of a (plagiarism_matches db) in
  ~ In m (map response_match (matches r))
  /\ total_comparisons r = Z.of_nat (List.length stored)
  /\ high_similarity_count r
     = count (fun m => 7000 <? similarity_score m) stored
  /\ medium_similarity_count r
     = count (fun m => (5000 <=? similarity_score m)
                       && (similarity_score m <=? 7000))%bool stored
  /\ (Qle_bool t (score_value m) = true ->
      Z.of_nat (List.length (matches r)) < total_comparisons r).
Proof.
  intros stored. apply get_plagiarism_report_inr in Hr. subst r.
  unfold build_report. fold stored. simpl.
  pose proof (order_by_score_desc_perm stored) as P.
  split; [|split; [|split; [|split]]].
  - rewrite responses_are_found_matches. intros Hin.
    apply filter_In in Hin. destruct Hin as [_ Hin]. congruence.
  - f_equal. apply Permutation_length, P.
  - apply count_perm, P.
  - apply count_perm, P.
  - intros Ht.
    rewrite <- (length_map response_match), responses_are_found_matches.
    rewrite filter_twice. apply Nat2Z.inj_lt.
    apply filter_shorter with (x := m).
    + apply Permutation_in with (l := stored); [apply Permutation_sym, P | exact Hm].
    + rewrite Ht, Hgone. reflexivity.
Qed.

Lemma orphan_match_omitted_but_counted_witness :
  ~ In old_row
      (map response_match (matches (build_report report_db id_a1 (50 # 1))))
  /\ total_comparisons (build_report report_db id_a1 (50 # 1)) = 2
  /\ medium_similarity_count (build_report report_db id_a1 (50 # 1)) = 1
  /\ Z.of_nat (List.length (matches (build_report report_db id_a1 (50 # 1))))
     < total_comparisons (build_report report_db id_a1 (50 # 1)).
Proof.
  destruct (orphan_match_omitted_but_counted report_db teacher id_a1 (50 # 1)
              (build_report report_db id_a1 (50 # 1)) old_row eq_refl
              (or_introl eq_refl) eq_refl)
    as (Hout & Htotal & _ & Hmedium & Hshort).
  split; [exact Hout|]. split; [exact Htotal|]. split; [exact Hmedium|].
  apply Hshort. reflexivity.
Defined.

Example report_demo :
  get_plagiarism_report report_db teacher id_a1 (binary64 (1001 # 10))
  = inr {| report_assignment_id := id_a1;
           total_submissions := 2;
           total_comparisons := 2;
           matches := [];
           high_similarity_count := 1;
           medium_similarity_count := 1 |}
  /\ get_plagiarism_report report_db alice id_a1 (70 # 1)
     = inl (HTTP_403_FORBIDDEN
              "You don't have permission to view plagiarism report")
  /\ get_plagiarism_report report_db teacher id_a2 (70 # 1)
     = inl (HTTP_404_NOT_FOUND "Assignment not found").
Proof. vm_compute. repeat split; reflexivity. Qed.

(* ================================================================= *)
(** * Further properties *)

(** ** Normalisation *)

Lemma isspace_normal (c : ascii) :
  isspace c = true -> normal_char c = true -> c = " "%char.
Proof.
  destruct c as [[] [] [] [] [] [] [] []]; vm_compute; intros H1 H2;
    try reflexivity; discriminate.
Qed.

Lemma lower_char_kept (c : ascii) :
  alnum_or_space c = true -> lower_char c = c.
Proof.
  destruct c as [[] [] [] [] [] [] [] []]; vm_compute; intros H;
    try reflexivity; discriminate.
Qed.

Lemma normal_char_kept (c : ascii) :
  normal_char c = true -> alnum_or_space c = true.
Proof.
  destruct c as [[] [] [] [] [] [] [] []]; vm_compute; intros H;
    try reflexivity; discriminate.
Qed.

Lemma kept_char_normal (c : ascii) :
  alnum_or_space c = true -> (isspace c = true -> c = " "%char) ->
  normal_char c = true.
Proof.
  intros Hk Hs. destruct (isspace c) eqn:E.
  - rewrite (Hs eq_refl). reflexivity.
  - unfold alnum_or_space in Hk. rewrite E, orb_false_r in Hk.
    unfold normal_char. rewrite Hk. reflexivity.
Qed.

(** After [re.sub(r'\s+', ' ', _)] the only whitespace is the space. *)
Lemma sub_ws_runs_spaces (s : string) :
  forall b, all_chars (fun c => negb (isspace c) || Ascii.eqb c " ")%bool
                      (sub_ws_runs b s) = true.
Proof.
  induction s as [|c s IH]; intros b; simpl; [reflexivity|].
  destruct (isspace c) eqn:E.
  - destruct b; simpl; [apply IH | rewrite IH; reflexivity].
  - simpl. rewrite E, IH. reflexivity.
Qed.

Lemma sfilter_normal (s : string) :
  all_chars (fun c => negb (isspace c) || Ascii.eqb c " ")%bool s = true ->
  all_chars normal_char (sfilter alnum_or_space s) = true.
Proof.
  induction s as [|c s IH]; simpl; [reflexivity|].
  intros H. apply andb_true_iff in H. destruct H as [Hc Hs].
  destruct (alnum_or_space c) eqn:E; simpl; [|apply IH; exact Hs].
  rewrite (IH Hs), andb_true_r. apply kept_char_normal; [exact E|].
  intros Hsp. rewrite Hsp in Hc. simpl in Hc.
  apply Ascii.eqb_eq. exact Hc.
Qed.

Lemma lstrip_all_chars (p : ascii -> bool) (s : string) :
  all_chars p s = true -> all_chars p (lstrip s) = true.
Proof.
  induction s as [|c s IH]; simpl; [reflexivity|].
  intros H. destruct (isspace c); [|exact H].
  apply andb_true_iff in H. apply IH, H.
Qed.

Lemma rstrip_all_chars (p : ascii -> bool) (s : string) :
  all_chars p s = true -> all_chars p (rstrip s) = true.
Proof.
  induction s as [|c s IH]; simpl; [reflexivity|].
  intros H. apply andb_true_iff in H. destruct H as [Hc Hs].
  destruct (isspace c && is_empty (rstrip s))%bool; simpl; [reflexivity|].
  rewrite Hc, (IH Hs). reflexivity.
Qed.

Lemma lstrip_rstrip_fixed (s : string) :
  lstrip (rstrip (lstrip s)) = rstrip (lstrip s).
Proof.
  induction s as [|c s IH]; simpl; [reflexivity|].
  destruct (isspace c) eqn:E; [exact IH|].
  simpl. rewrite E. simpl. rewrite E. reflexivity.
Qed.

Lemma rstrip_rstrip (s : string) : rstrip (rstrip s) = rstrip s.
Proof.
  induction s as [|c s IH]; simpl; [reflexivity|].
  destruct (isspace c && is_empty (rstrip s))%bool eqn:E; [reflexivity|].
  simpl. rewrite IH, E. reflexivity.
Qed.

Lemma length_sub_ws_runs (s : string) :
  forall b, (String.length (sub_ws_runs b s) <= String.length s)%nat.
Proof.
  induction s as [|c s IH]; intros b; simpl; [lia|].
  destruct (isspace c); [destruct b|]; simpl.
  - specialize (IH true). lia.
  - specialize (IH true). lia.
  - specialize (IH false). lia.
Qed.

Lemma length_sfilter (f : ascii -> bool) (s : string) :
  (String.length (sfilter f s) <= String.length s)%nat.
Proof.
  induction s as [|c s IH]; simpl; [lia|]. destruct (f c); simpl; lia.
Qed.

Lemma length_lstrip (s : string) :
  (String.length (lstrip s) <= String.length s)%nat.
Proof.
  induction s as [|c s IH]; simpl; [lia|]. destruct (isspace c); simpl; lia.
Qed.

Lemma length_rstrip (s : string) :
  (String.length (rstrip s) <= String.length s)%nat.
Proof.
  induction s as [|c s IH]; simpl; [lia|].
  destruct (isspace c && is_empty (rstrip s))%bool; simpl; lia.
Qed.

Lemma length_smap (f : ascii -> ascii) (s : string) :
  String.length (smap f s) = String.length s.
Proof. induction s as [|c s IH]; simpl; [reflexivity | rewrite IH; reflexivity]. Qed.

Lemma preprocess_text_chars (text : string) :
  all_chars normal_char (preprocess_text text) = true.
Proof.
  unfold preprocess_text, strip.
  apply rstrip_all_chars, lstrip_all_chars, sfilter_normal, sub_ws_runs_spaces.
Qed.

(** X1. The normalised text consists of lower-case letters, digits and
    spaces only, neither starts nor ends with whitespace (stripping it
    again changes nothing), and is never longer than the text. *)
Theorem preprocess_text_normal (text : string) :
  all_chars normal_char (preprocess_text text) = true
  /\ strip (preprocess_text text) = preprocess_text text
  /\ len (preprocess_text text) <= len text.
Proof.
  split; [apply preprocess_text_chars|]. unfold preprocess_text, strip. split.
  - rewrite lstrip_rstrip_fixed, rstrip_rstrip. reflexivity.
  - unfold len, lower. apply Nat2Z.inj_le.
    set (a := smap lower_char text).
    set (b := sub_ws_runs false a).
    set (c := sfilter alnum_or_space b).
    pose proof (length_rstrip (lstrip c)). pose proof (length_lstrip c).
    pose proof (length_sfilter alnum_or_space b).
    pose proof (length_sub_ws_runs a false).
    pose proof (length_smap lower_char text).
    fold a in H3. fold b in H2. fold c in H1. lia.
Qed.

(** ** Tokens *)

Lemma push_token_app (x : string) (l l' : list string) :
  push_token x (l ++ l') = (push_token x l ++ l')%list.
Proof. unfold push_token. destruct (is_empty x); reflexivity. Qed.

Lemma tokenize_cons (c : ascii) (s : string) :
  tokenize (String c s)
  = if isspace c then tokenize s
    else String c (fst (split_aux s)) :: snd (split_aux s).
Proof.
  unfold tokenize. simpl. destruct (split_aux s) as [x l].
  destruct (isspace c); reflexivity.
Qed.

Lemma split_aux_append (a b : string) (c : ascii) :
  isspace c = true ->
  split_aux (a ++ String c b)
  = (fst (split_aux a), (snd (split_aux a) ++ tokenize b)%list).
Proof.
  intros Hc. induction a as [|x a IH]; simpl.
  - rewrite Hc. unfold tokenize. destruct (split_aux b); reflexivity.
  - rewrite IH. destruct (split_aux a) as [y l]. simpl.
    destruct (isspace x); [rewrite push_token_app|]; reflexivity.
Qed.

Lemma token_ok_split (s : string) :
  all_chars (fun c => negb (isspace c)) (fst (split_aux s)) = true
  /\ Forall (fun tok => tok <> "" /\ all_chars (fun c => negb (isspace c)) tok = true)
            (snd (split_aux s)).
Proof.
  induction s as [|c s [IH1 IH2]]; simpl; [split; [reflexivity|constructor]|].
  destruct (split_aux s) as [x l]. simpl in *.
  destruct (isspace c) eqn:E; simpl.
  - split; [reflexivity|]. unfold push_token.
    destruct x as [|y x]; simpl; [exact IH2|].
    constructor; [|exact IH2]. split; [discriminate | exact IH1].
  - rewrite E, IH1. split; [reflexivity | exact IH2].
Qed.

Lemma split_aux_word (word : string) :
  all_chars (fun x => negb (isspace x)) word = true ->
  split_aux word = (word, []).
Proof.
  induction word as [|c word IH]; simpl; [reflexivity|].
  intros H. apply andb_true_iff in H. destruct H as [Hc Hw].
  rewrite (IH Hw). apply negb_true_iff in Hc. rewrite Hc. reflexivity.
Qed.

Lemma tokenize_word (word : string) : is_token word -> tokenize word = [word].
Proof.
  intros [Hne Hw]. unfold tokenize. rewrite (split_aux_word word Hw).
  destruct word; [contradiction | reflexivity].
Qed.

Lemma tokenize_append (a b : string) (c : ascii) :
  isspace c = true ->
  tokenize (a ++ String c b) = (tokenize a ++ tokenize b)%list.
Proof.
  intros Hc. unfold tokenize at 1. rewrite (split_aux_append a b c Hc).
  rewrite push_token_app. unfold tokenize at 2.
  destruct (split_aux a); reflexivity.
Qed.

Lemma tokenize_join (toks : list string) :
  Forall is_token toks -> tokenize (join " " toks) = toks.
Proof.
  induction 1 as [|t rest Ht Hrest IH]; [reflexivity|].
  destruct rest as [|t' rest].
  - simpl. apply tokenize_word, Ht.
  - change (join " " (t :: t' :: rest))
      with (t ++ String " "%char (join " " (t' :: rest)))%string.
    rewrite tokenize_append by reflexivity.
    rewrite (tokenize_word t Ht), IH. reflexivity.
Qed.

(** X2. [tokenize] returns the maximal runs of non-whitespace characters
    of the text, in order.  Every token it returns is not empty and has no
    whitespace; the tokens of two texts put together with a whitespace
    character between them are the tokens of the first followed by those of
    the second; and the tokens of words joined with spaces are those words
    (so a word alone is its only token, and the empty text has none). *)
Theorem tokenize_tokens (a b : string) (c : ascii) (toks : list string)
  (Hc : isspace c = true) (Htoks : Forall is_token toks) :
  Forall is_token (tokenize a)
  /\ tokenize (a ++ String c b) = (tokenize a ++ tokenize b)%list
  /\ tokenize (join " " toks) = toks
  /\ tokenize "" = [].
Proof.
  split; [|split; [|split]].
  - pose proof (token_ok_split a) as [H1 H2]. unfold tokenize.
    destruct (split_aux a) as [x l]. simpl in *. unfold push_token.
    destruct x as [|y x]; simpl; [exact H2|].
    constructor; [|exact H2]. split; [discriminate | exact H1].
  - apply tokenize_append, Hc.
  - apply tokenize_join, Htoks.
  - reflexivity.
Qed.

Lemma tokenize_tokens_witness :
  tokenize ("the quick" ++ String " "%char "brown fox")
  = (tokenize "the quick" ++ tokenize "brown fox")%list
  /\ tokenize (join " " ["the"; "quick"; "fox"]) = ["the"; "quick"; "fox"].
Proof.
  assert (Htoks : Forall is_token ["the"; "quick"; "fox"]).
  { repeat constructor; discriminate. }
  destruct (tokenize_tokens "the quick" "brown fox" " "%char
              ["the"; "quick"; "fox"] eq_refl Htoks) as (_ & H1 & H2 & _).
  split; [exact H1 | exact H2].
Defined.

Lemma split_aux_sub_ws_runs (s : string) :
  split_aux (sub_ws_runs false s) = split_aux s
  /\ tokenize (sub_ws_runs true s) = tokenize s.
Proof.
  induction s as [|c s [IH1 IH2]]; [split; reflexivity|].
  split.
  - simpl. destruct (isspace c) eqn:E.
    + simpl. unfold tokenize in IH2.
      destruct (split_aux (sub_ws_runs true s)) as [x l].
      destruct (split_aux s) as [y k]. rewrite IH2. reflexivity.
    + simpl. rewrite E, IH1. reflexivity.
  - simpl sub_ws_runs. destruct (isspace c) eqn:E.
    + rewrite IH2, tokenize_cons, E. reflexivity.
    + rewrite !tokenize_cons, E, IH1. reflexivity.
Qed.

Lemma tokenize_lstrip (s : string) : tokenize (lstrip s) = tokenize s.
Proof.
  induction s as [|c s IH]; simpl; [reflexivity|].
  destruct (isspace c) eqn:E; [|reflexivity].
  rewrite IH, tokenize_cons, E. reflexivity.
Qed.

Lemma split_aux_rstrip (s : string) : split_aux (rstrip s) = split_aux s.
Proof.
  induction s as [|c s IH]; simpl; [reflexivity|].
  destruct (isspace c) eqn:E; simpl.
  - destruct (rstrip s) as [|y r] eqn:R; simpl.
    + rewrite <- IH. reflexivity.
    + rewrite E, <- IH. reflexivity.
  - rewrite E, IH. reflexivity.
Qed.

Lemma tokenize_strip (s : string) : tokenize (strip s) = tokenize s.
Proof.
  unfold strip, tokenize at 1. rewrite split_aux_rstrip.
  apply tokenize_lstrip.
Qed.

Lemma smap_lower_kept (s : string) :
  all_chars alnum_or_space s = true -> smap lower_char s = s.
Proof.
  induction s as [|c s IH]; simpl; [reflexivity|].
  intros H. apply andb_true_iff in H. destruct H as [Hc Hs].
  rewrite (lower_char_kept c Hc), (IH Hs). reflexivity.
Qed.

Lemma sfilter_kept (s : string) :
  all_chars alnum_or_space s = true -> sfilter alnum_or_space s = s.
Proof.
  induction s as [|c s IH]; simpl; [reflexivity|].
  intros H. apply andb_true_iff in H. destruct H as [Hc Hs].
  rewrite Hc, (IH Hs). reflexivity.
Qed.

Lemma sub_ws_runs_kept (s : string) :
  all_chars alnum_or_space s = true ->
  forall b, all_chars alnum_or_space (sub_ws_runs b s) = true.
Proof.
  induction s as [|c s IH]; simpl; [reflexivity|].
  intros H b. apply andb_true_iff in H. destruct H as [Hc Hs].
  destruct (isspace c); [destruct b|]; simpl.
  - apply IH, Hs.
  - apply IH, Hs.
  - rewrite Hc. apply IH, Hs.
Qed.

Lemma all_chars_weaken (p q : ascii -> bool) (s : string) :
  (forall c, p c = true -> q c = true) ->
  all_chars p s = true -> all_chars q s = true.
Proof.
  intros Hpq. induction s as [|c s IH]; simpl; [reflexivity|].
  intros H. apply andb_true_iff in H. destruct H as [Hc Hs].
  rewrite (Hpq c Hc), (IH Hs). reflexivity.
Qed.

Lemma tokenize_preprocess_twice (text : string) :
  tokenize (preprocess_text (preprocess_text text))
  = tokenize (preprocess_text text).
Proof.
  pose proof (preprocess_text_chars text) as Hn.
  apply (all_chars_weaken _ _ _ normal_char_kept) in Hn.
  set (r := preprocess_text text) in *.
  unfold preprocess_text at 1. unfold lower.
  rewrite (smap_lower_kept r Hn).
  rewrite (sfilter_kept _ (sub_ws_runs_kept r Hn false)).
  rewrite tokenize_strip. unfold tokenize at 1.
  rewrite (proj1 (split_aux_sub_ws_runs r)). reflexivity.
Qed.

(** X3. Normalising the texts beforehand changes neither similarity: the
    normalised text has the tokens of the text, although normalising twice
    can still change the text itself (it removes the doubled space that
    removing a punctuation mark leaves). *)
Theorem similarity_of_normalised_texts (t1 t2 : string) :
  calculate_cosine_similarity (preprocess_text t1) (preprocess_text t2)
  = calculate_cosine_similarity t1 t2
  /\ calculate_jaccard_similarity (preprocess_text t1) (preprocess_text t2)
     = calculate_jaccard_similarity t1 t2
  /\ (exists t, preprocess_text (preprocess_text t) <> preprocess_text t).
Proof.
  unfold calculate_cosine_similarity, calculate_jaccard_similarity.
  rewrite !tokenize_preprocess_twice.
  split; [reflexivity|]. split; [reflexivity|].
  exists "a - b". vm_compute. discriminate.
Qed.

(** ** The cosine score of particular pairs of texts *)

Lemma Counter_perm (k k' : list string) (x : string) :
  Permutation k k' -> Counter k x = Counter k' x.
Proof.
  intros P. unfold Counter. f_equal.
  induction P as [|y l l' _ IH|y z l|l l' l'' _ IH1 _ IH2]; simpl.
  - reflexivity.
  - rewrite IH. reflexivity.
  - destruct (string_dec z x), (string_dec y x); reflexivity.
  - congruence.
Qed.

Lemma set_union_perm_l (k k' k2 : list string) :
  Permutation k k' ->
  Permutation (set_union (keys k) (keys k2)) (set_union (keys k') (keys k2)).
Proof.
  intros P. unfold set_union, keys.
  apply NoDup_Permutation; try apply NoDup_nodup.
  intros x. rewrite !nodup_In, !in_app_iff, !nodup_In.
  split; intros [H|H]; auto; left.
  - apply (Permutation_in _ P H).
  - apply (Permutation_in _ (Permutation_sym P) H).
Qed.

Lemma is_nil_perm {A : Type} (l l' : list A) :
  Permutation l l' -> is_nil l = is_nil l'.
Proof.
  intros P. destruct l, l'; try reflexivity.
  - apply Permutation_nil in P. discriminate.
  - apply Permutation_sym, Permutation_nil in P. discriminate.
Qed.

Lemma cosine_perm_l (t1 t1' t2 : string)
  (Hp : Permutation (tokenize (preprocess_text t1))
                    (tokenize (preprocess_text t1'))) :
  calculate_cosine_similarity t1 t2 = calculate_cosine_similarity t1' t2.
Proof.
  unfold calculate_cosine_similarity.
  set (k1 := tokenize (preprocess_text t1)) in *.
  set (k1' := tokenize (preprocess_text t1')) in *.
  set (k2 := tokenize (preprocess_text t2)).
  rewrite (is_nil_perm k1 k1' Hp).
  destruct (is_nil k1' || is_nil k2)%bool; [reflexivity|]. cbv zeta.
  pose proof (set_union_perm_l k1 k1' k2 Hp) as P.
  rewrite !dot_map, !sumsq_map.
  rewrite (zsum_perm _ _ (Permutation_map (fun x => Counter k1 x * Counter k1 x) P)).
  rewrite (zsum_perm _ _ (Permutation_map (fun x => Counter k2 x * Counter k2 x) P)).
  rewrite (zsum_perm _ _ (Permutation_map (fun x => Counter k1 x * Counter k2 x) P)).
  rewrite (map_ext (fun x => Counter k1 x * Counter k1 x)
                   (fun x => Counter k1' x * Counter k1' x))
    by (intros x; rewrite (Counter_perm k1 k1' x Hp); reflexivity).
  rewrite (map_ext (fun x => Counter k1 x * Counter k2 x)
                   (fun x => Counter k1' x * Counter k2 x))
    by (intros x; rewrite (Counter_perm k1 k1' x Hp); reflexivity).
  reflexivity.
Qed.

(** X4. The cosine score sees a text as a bag of words: two texts whose
    tokens are the same up to order score the same against any text. *)
Theorem cosine_ignores_word_order (t1 t1' t2 : string)
  (Hp : Permutation (tokenize (preprocess_text t1))
                    (tokenize (preprocess_text t1'))) :
  calculate_cosine_similarity t1 t2 = calculate_cosine_similarity t1' t2.
Proof. exact (cosine_perm_l t1 t1' t2 Hp). Qed.

Lemma cosine_ignores_word_order_witness :
  calculate_cosine_similarity "the quick fox" "a quick brown fox"
  = calculate_cosine_similarity "Fox, the quick!" "a quick brown fox".
Proof.
  apply cosine_ignores_word_order.
  apply Permutation_trans with ["quick"; "fox"; "the"].
  - change (Permutation (["the"] ++ ["quick"; "fox"]) (["quick"; "fox"] ++ ["the"])).
    apply Permutation_app_comm.
  - change (Permutation (["quick"] ++ ["fox"; "the"]) (["fox"; "the"] ++ ["quick"])).
    apply Permutation_app_comm.
Defined.

Lemma zsum_all_zero (g : string -> Z) (ws : list string) :
  (forall x, g x = 0) -> zsum (map g ws) = 0.
Proof.
  intros H. unfold zsum. induction ws as [|x ws IH]; simpl; [reflexivity|].
  rewrite H, IH. reflexivity.
Qed.

Lemma Counter_zero (k : list string) (x : string) :
  ~ In x k -> Counter k x = 0.
Proof.
  intros H. unfold Counter.
  rewrite (proj1 (count_occ_not_In string_dec k x) H). reflexivity.
Qed.

Lemma Counter_pos (k : list string) (x : string) :
  In x k -> 0 < Counter k x.
Proof.
  intros H. unfold Counter.
  pose proof (proj1 (count_occ_In string_dec k x) H). lia.
Qed.

Lemma zsum_squares_term (c : string -> Z) (ws : list string) (x : string) :
  In x ws -> c x * c x <= zsum (map (fun y => c y * c y) ws).
Proof.
  induction ws as [|y ws IH]; [intros []|].
  intros Hin. unfold zsum in *. cbn [map fold_right].
  pose proof (zsum_squares_nonneg c ws) as Hn. unfold zsum in Hn.
  pose proof (Z.square_nonneg (c y)).
  destruct Hin as [->|Hin]; [lia|]. specialize (IH Hin). lia.
Qed.

Lemma round_cosine_diag (n : Z) : 0 < n -> round_cosine n n n = 10000.
Proof.
  intros Hn. unfold round_cosine.
  replace (4 * (10000 * n) ^ 2) with (400000000 * (n * n)) by ring.
  rewrite Z.div_mul by nia. reflexivity.
Qed.

Lemma cosine_equal_disjoint (t1 t2 : string) :
  (tokenize (preprocess_text t1) <> [] ->
   Permutation (tokenize (preprocess_text t1)) (tokenize (preprocess_text t2)) ->
   calculate_cosine_similarity t1 t2 = 10000)
  /\ ((forall x, In x (tokenize (preprocess_text t1)) ->
                 ~ In x (tokenize (preprocess_text t2))) ->
      calculate_cosine_similarity t1 t2 = 0).
Proof.
  split.
  - intros Hne Hp.
    rewrite <- (calculate_cosine_similarity_comm t2 t1).
    rewrite <- (cosine_perm_l t1 t2 t1 Hp).
    unfold calculate_cosine_similarity.
    set (k := tokenize (preprocess_text t1)) in *.
    destruct k as [|x k'] eqn:Ek; [contradiction|]. rewrite <- Ek. 
    replace (is_nil k) with false by (rewrite Ek; reflexivity).
    cbv zeta. simpl orb. cbv iota.
    rewrite dot_map, sumsq_map.
    set (n := zsum (map (fun y => Counter k y * Counter k y)
                        (set_union (keys k) (keys k)))).
    assert (Hn : 0 < n).
    { assert (Hin : In x (set_union (keys k) (keys k))).
      { unfold set_union, keys. rewrite nodup_In, in_app_iff, nodup_In.
        left. rewrite Ek. left. reflexivity. }
      pose proof (zsum_squares_term (Counter k) _ x Hin) as Hle. fold n in Hle.
      assert (0 < Counter k x) by (apply Counter_pos; rewrite Ek; left; reflexivity).
      nia. }
    replace (n =? 0) with false by (symmetry; apply Z.eqb_neq; lia).
    simpl. apply round_cosine_diag, Hn.
  - intros Hdis. unfold calculate_cosine_similarity.
    set (k1 := tokenize (preprocess_text t1)) in *.
    set (k2 := tokenize (preprocess_text t2)) in *.
    destruct (is_nil k1 || is_nil k2)%bool; [reflexivity|]. cbv zeta.
    destruct (_ || _)%bool; [reflexivity|].
    rewrite dot_map, zsum_all_zero; [reflexivity|].
    intros x. destruct (in_dec string_dec x k1) as [H|H].
    + rewrite (Counter_zero k2 x (Hdis x H)). lia.
    + rewrite (Counter_zero k1 x H). lia.
Qed.

(** X5. A text with at least one word scores 100.00 against itself and
    against every text with the same words in any order; two texts with no
    word in common score 0. *)
Theorem cosine_of_equal_and_disjoint_texts (t1 t2 : string) :
  (tokenize (preprocess_text t1) <> [] ->
   Permutation (tokenize (preprocess_text t1)) (tokenize (preprocess_text t2)) ->
   calculate_cosine_similarity t1 t2 = 10000)
  /\ ((forall x, In x (tokenize (preprocess_text t1)) ->
                 ~ In x (tokenize (preprocess_text t2))) ->
      calculate_cosine_similarity t1 t2 = 0).
Proof. exact (cosine_equal_disjoint t1 t2). Qed.

Lemma cosine_of_equal_and_disjoint_texts_witness :
  calculate_cosine_similarity "To be, or not to be" "or to be not to be" = 10000
  /\ calculate_cosine_similarity "to be" "or not" = 0.
Proof.
  split.
  - apply (proj1 (cosine_of_equal_and_disjoint_texts
                    "To be, or not to be" "or to be not to be")).
    + discriminate.
    + change (Permutation (["to"; "be"] ++ ["or"] ++ ["not"; "to"; "be"])
                          (["or"] ++ ["to"; "be"] ++ ["not"; "to"; "be"])).
      apply Permutation_app_swap_app.
  - apply (proj2 (cosine_of_equal_and_disjoint_texts "to be" "or not")).
    intros x [<-|[<-|[]]] [H|[H|[]]]; discriminate H.
Defined.

(** ** The Jaccard score *)

Lemma str_in_iff (x : string) (l : list string) : str_in x l = true <-> In x l.
Proof.
  unfold str_in. rewrite existsb_exists. split.
  - intros (y & Hy & E). apply String.eqb_eq in E. subst. exact Hy.
  - intros H. exists x. split; [exact H | apply String.eqb_refl].
Qed.

Lemma in_set_inter (a b : list string) (x : string) :
  In x (set_inter a b) <-> In x a /\ In x b.
Proof. unfold set_inter. rewrite filter_In, str_in_iff. reflexivity. Qed.

Lemma in_set_union (a b : list string) (x : string) :
  In x (set_union a b) <-> In x a \/ In x b.
Proof. unfold set_union. rewrite nodup_In, in_app_iff. reflexivity. Qed.

Lemma set_inter_perm (a b : list string) :
  NoDup a -> NoDup b -> Permutation (set_inter a b) (set_inter b a).
Proof.
  intros Ha Hb. apply NoDup_Permutation.
  - apply NoDup_filter, Ha.
  - apply NoDup_filter, Hb.
  - intros x. rewrite !in_set_inter. tauto.
Qed.

Lemma set_inter_le_union (a b : list string) :
  NoDup a ->
  (List.length (set_inter a b) <= List.length (set_union a b))%nat.
Proof.
  intros Ha. apply NoDup_incl_length.
  - apply NoDup_filter, Ha.
  - intros x Hx. apply in_set_inter in Hx. apply in_set_union. tauto.
Qed.

Lemma round_ratio_range (i u : Z) :
  0 <= i <= u -> 0 < u -> 0 <= round_ratio i u <= 10000.
Proof.
  intros Hi Hu. unfold round_ratio. split.
  - apply Z.div_pos; lia.
  - assert ((2 * (10000 * i) + u) / (2 * u) < 10001); [|lia].
    apply Z.div_lt_upper_bound; lia.
Qed.

Lemma round_ratio_whole (u : Z) : 0 < u -> round_ratio u u = 10000.
Proof.
  intros Hu. unfold round_ratio. symmetry.
  apply Z.div_unique with (r := u); lia.
Qed.

Lemma round_ratio_none (u : Z) : 0 < u -> round_ratio 0 u = 0.
Proof.
  intros Hu. unfold round_ratio. apply Z.div_small. lia.
Qed.

Lemma set_union_nonempty (a b : list string) :
  is_nil a = false -> (0 < List.length (set_union a b))%nat.
Proof.
  destruct a as [|x a]; [discriminate|]. intros _.
  assert (H : In x (set_union (x :: a) b))
    by (apply in_set_union; left; left; reflexivity).
  destruct (set_union (x :: a) b); [destruct H | simpl; lia].
Qed.

(** X6. The Jaccard score is symmetric and lies between 0 and 100.00. *)
Theorem jaccard_symmetric_bounded (t1 t2 : string) :
  calculate_jaccard_similarity t1 t2 = calculate_jaccard_similarity t2 t1
  /\ 0 <= calculate_jaccard_similarity t1 t2 <= 10000.
Proof.
  unfold calculate_jaccard_similarity.
  set (k1 := keys (tokenize (preprocess_text t1))).
  set (k2 := keys (tokenize (preprocess_text t2))).
  assert (N1 : NoDup k1) by apply NoDup_nodup.
  assert (N2 : NoDup k2) by apply NoDup_nodup.
  rewrite (orb_comm (is_nil k2)).
  destruct (is_nil k1) eqn:E1; [simpl; split; [reflexivity | lia]|].
  destruct (is_nil k2) eqn:E2; [simpl; split; [reflexivity | lia]|].
  simpl orb. cbv iota zeta.
  rewrite (Permutation_length (set_inter_perm k2 k1 N2 N1)).
  rewrite (Permutation_length (set_union_perm k2 k1)).
  rewrite (is_nil_perm _ _ (set_union_perm k2 k1)).
  pose proof (set_union_nonempty k1 k2 E1) as Hu.
  pose proof (set_inter_le_union k1 k2 N1) as Hi.
  destruct (set_union k1 k2) as [|x l] eqn:U; [simpl in Hu; lia|].
  simpl is_nil. cbv iota. split; [reflexivity|].
  apply round_ratio_range; lia.
Qed.

(** X7. Two texts with the same set of words, if they have a word, have
    Jaccard score 100.00 whatever the number of times each word occurs; two
    texts with no word in common have Jaccard score 0. *)
Theorem jaccard_of_equal_and_disjoint_texts (t1 t2 : string) :
  (tokenize (preprocess_text t1) <> [] ->
   (forall x, In x (tokenize (preprocess_text t1))
              <-> In x (tokenize (preprocess_text t2))) ->
   calculate_jaccard_similarity t1 t2 = 10000)
  /\ ((forall x, In x (tokenize (preprocess_text t1)) ->
                 ~ In x (tokenize (preprocess_text t2))) ->
      calculate_jaccard_similarity t1 t2 = 0).
Proof.
  unfold calculate_jaccard_similarity.
  set (w1 := tokenize (preprocess_text t1)).
  set (w2 := tokenize (preprocess_text t2)).
  set (k1 := keys w1). set (k2 := keys w2).
  assert (N1 : NoDup k1) by apply NoDup_nodup.
  assert (I1 : forall x, In x k1 <-> In x w1) by (intros; apply nodup_In).
  assert (I2 : forall x, In x k2 <-> In x w2) by (intros; apply nodup_In).
  split.
  - intros Hne Hsame.
    assert (E1 : is_nil k1 = false).
    { destruct w1 as [|x r] eqn:W; [contradiction|].
      destruct k1 eqn:K; [|reflexivity].
      exfalso. apply (proj2 (I1 x)). left. reflexivity. }
    assert (E2 : is_nil k2 = false).
    { destruct w1 as [|x r] eqn:W; [contradiction|].
      destruct k2 eqn:K; [|reflexivity].
      exfalso. apply (proj2 (I2 x)). apply Hsame. left. reflexivity. }
    rewrite E1, E2. simpl orb. cbv iota zeta.
    assert (Pi : Permutation (set_inter k1 k2) k1).
    { apply NoDup_Permutation; [apply NoDup_filter, N1 | exact N1|].
      intros x. rewrite in_set_inter, I1, I2, Hsame. tauto. }
    assert (Pu : Permutation (set_union k1 k2) k1).
    { apply NoDup_Permutation; [apply NoDup_nodup | exact N1|].
      intros x. rewrite in_set_union, I1, I2, Hsame. tauto. }
    rewrite (Permutation_length Pi), (Permutation_length Pu).
    pose proof (set_union_nonempty k1 k2 E1) as Hu.
    rewrite (Permutation_length Pu) in Hu.
    replace (is_nil (set_union k1 k2)) with false.
    + apply round_ratio_whole. lia.
    + destruct (set_union k1 k2); [|reflexivity].
      apply Permutation_length in Pu. simpl in Pu. lia.
  - intros Hdis.
    destruct (is_nil k1) eqn:E1; [reflexivity|].
    destruct (is_nil k2) eqn:E2; [reflexivity|].
    simpl orb. cbv iota zeta.
    destruct (is_nil (set_union k1 k2)) eqn:U; [reflexivity|].
    assert (E : set_inter k1 k2 = []).
    { destruct (set_inter k1 k2) as [|x l] eqn:S; [reflexivity|].
      exfalso. assert (Hx : In x (set_inter k1 k2)) by (rewrite S; left; reflexivity).
      apply in_set_inter in Hx. destruct Hx as [H1 H2].
      apply (Hdis x); [apply I1, H1 | apply I2, H2]. }
    rewrite E. simpl List.length. apply round_ratio_none.
    pose proof (set_union_nonempty k1 k2 E1). lia.
Qed.

Lemma jaccard_of_equal_and_disjoint_texts_witness :
  calculate_jaccard_similarity "to be to be" "be to" = 10000
  /\ calculate_jaccard_similarity "to be" "or not" = 0.
Proof.
  split.
  - apply (proj1 (jaccard_of_equal_and_disjoint_texts "to be to be" "be to")).
    + discriminate.
    + intros x. simpl. tauto.
  - apply (proj2 (jaccard_of_equal_and_disjoint_texts "to be" "or not")).
    intros x [<-|[<-|[]]] [H|[H|[]]]; discriminate H.
Defined.

(** ** Files that cannot be read, and the document readers *)

(** X8. A file that is missing, or whose reader raises, scores 0 against
    every file, on either side of the comparison. *)
Theorem unreadable_file_scores_zero (w : World) (p q : string)
  (Hbad : path_exists w p = false \/ exists e, selected_body w p = Raise e) :
  compare_submissions w p q = Ok 0 /\ compare_submissions w q p = Ok 0.
Proof.
  assert (Hs : short_text w p).
  { exists "". split; [|reflexivity].
    destruct (path_exists w p) eqn:Hex.
    - destruct Hbad as [H|[e He]]; [discriminate|].
      rewrite extract_text_from_file_selected by exact Hex.
      apply try_except_raise with (e := e). exact He.
    - unfold extract_text_from_file. rewrite Hex. reflexivity. }
  rewrite !compare_submissions_score. split; f_equal; apply pair_score_short; auto.
Qed.

Lemma unreadable_file_scores_zero_witness :
  compare_submissions padded_world "up/s1/gone.txt" "up/s2/b.txt" = Ok 0
  /\ compare_submissions padded_world "up/s2/b.txt" "up/s1/gone.txt" = Ok 0.
Proof.
  apply unreadable_file_scores_zero. left. reflexivity.
Defined.

Lemma xlsx_sheet_loop (rows : list (list (option string))) :
  forall acc,
    for_each rows
      (fun row text =>
         let row_text := join " " (map cell_text row) in
         if negb (is_empty (strip row_text))
         then Ok (text ++ (row_text ++ newline))%string
         else Ok text)
      acc
    = Ok (acc ++ newline_terminated (filter nonblank (map row_text rows)))%string.
Proof.
  induction rows as [|row rows IH]; intros acc; simpl.
  - rewrite append_empty_r. reflexivity.
  - fold (row_text row). unfold nonblank at 1.
    destruct (negb (is_empty (strip (row_text row)))); simpl; rewrite IH.
    + rewrite append_assoc. reflexivity.
    + reflexivity.
Qed.

Lemma newline_terminated_app (l l' : list string) :
  newline_terminated (l ++ l')
  = (newline_terminated l ++ newline_terminated l')%string.
Proof.
  induction l as [|x l IH]; simpl; [reflexivity|].
  rewrite IH, !append_assoc. reflexivity.
Qed.

Lemma xlsx_book_loop (wb : list (list (list (option string)))) :
  forall acc,
    for_each wb
      (fun sheet text =>
         for_each sheet
           (fun row text =>
              let row_text := join " " (map cell_text row) in
              if negb (is_empty (strip row_text))
              then Ok (text ++ (row_text ++ newline))%string
              else Ok text)
           text)
      acc
    = Ok (acc ++ newline_terminated
                   (filter nonblank (map row_text (List.concat wb))))%string.
Proof.
  induction wb as [|sheet wb IH]; intros acc; simpl.
  - rewrite append_empty_r. reflexivity.
  - rewrite xlsx_sheet_loop. simpl. rewrite IH.
    rewrite map_app, filter_app, newline_terminated_app, append_assoc.
    reflexivity.
Qed.

Lemma blank_row_text (row : list (option string)) :
  Forall (fun cell => cell = None) row ->
  all_chars isspace (row_text row) = true.
Proof.
  unfold row_text. induction 1 as [|cell row -> _ IH]; [reflexivity|].
  simpl. destruct (map cell_text row) as [|x l] eqn:E; [reflexivity|].
  simpl. exact IH.
Qed.

Lemma lstrip_blank (s : string) : all_chars isspace s = true -> lstrip s = "".
Proof.
  induction s as [|c s IH]; simpl; [reflexivity|].
  intros H. apply andb_true_iff in H. destruct H as [Hc Hs].
  rewrite Hc. apply IH, Hs.
Qed.

(** X9. The text of a spreadsheet is one line per row, over all sheets in
    order: the cells joined with spaces ([None] as the empty text), followed
    by a newline; rows without a non-whitespace character, among them the
    rows of empty cells, give no line.  The text of a Word document is its
    paragraphs joined with newlines.  Both are empty when the library is
    not installed or the reader raises. *)
Theorem document_readers (w : World) (p : string) :
  (forall wb, has_openpyxl w = true -> xlsx_rows w p = Ok wb ->
     extract_text_from_xlsx w p
     = Ok (newline_terminated (filter nonblank (map row_text (List.concat wb)))))
  /\ (forall row, Forall (fun cell => cell = None) row ->
        nonblank (row_text row) = false)
  /\ (forall ps, has_docx w = true -> docx_paragraphs w p = Ok ps ->
        extract_text_from_docx w p = Ok (join newline ps))
  /\ (has_openpyxl w = false \/ (exists e, xlsx_rows w p = Raise e) ->
      extract_text_from_xlsx w p = Ok "")
  /\ (has_docx w = false \/ (exists e, docx_paragraphs w p = Raise e) ->
      extract_text_from_docx w p = Ok "").
Proof.
  split; [|split; [|split; [|split]]].
  - intros wb Hlib Hwb. unfold extract_text_from_xlsx, xlsx_body.
    rewrite Hlib, Hwb. simpl. rewrite xlsx_book_loop. reflexivity.
  - intros row Hrow. unfold nonblank, strip.
    rewrite (lstrip_blank _ (blank_row_text row Hrow)). reflexivity.
  - intros ps Hlib Hps. unfold extract_text_from_docx, docx_body.
    rewrite Hlib, Hps. reflexivity.
  - unfold extract_text_from_xlsx, xlsx_body.
    intros [H|[e H]]; rewrite H; [reflexivity|].
    destruct (has_openpyxl w); reflexivity.
  - unfold extract_text_from_docx, docx_body.
    intros [H|[e H]]; rewrite H; [reflexivity|].
    destruct (has_docx w); reflexivity.
Qed.

Lemma document_readers_witness :
  extract_text_from_xlsx office_world "up/s1/marks.xlsx"
  = Ok ("name  mark" ++ newline ++ "ann" ++ newline ++ "total" ++ newline)%string
  /\ extract_text_from_docx office_world "up/s1/essay.docx"
     = Ok ("Title" ++ newline ++ "Body")%string
  /\ extract_text_from_docx bad_page_world "up/s1/essay.docx" = Ok "".
Proof.
  destruct (document_readers office_world "up/s1/marks.xlsx")
    as (Hx & _ & _ & _ & _).
  destruct (document_readers office_world "up/s1/essay.docx")
    as (_ & _ & Hd & _ & _).
  destruct (document_readers bad_page_world "up/s1/essay.docx")
    as (_ & _ & _ & _ & Hbad).
  split; [|split].
  - exact (Hx _ eq_refl eq_refl).
  - exact (Hd _ eq_refl eq_refl).
  - apply Hbad. right. eexists. reflexivity.
Defined.

(** ** The number of results, and the order of the submissions *)

Lemma index_pairs_from (n m : nat) :
  forall k, (k + m = n)%nat ->
    (2 * List.length
           (flat_map (fun i => map (pair i) (range (i + 1) n)) (seq k m))
     = m * (m - 1))%nat.
Proof.
  induction m as [|m IH]; intros k Hk; [reflexivity|].
  cbn [seq flat_map]. rewrite length_app, length_map.
  unfold range at 1. rewrite length_seq.
  specialize (IH (S k) ltac:(lia)).
  replace (n - (k + 1))%nat with m by lia.
  replace (S m - 1)%nat with m by lia. nia.
Qed.

Lemma length_index_pairs (n : nat) :
  (2 * List.length (index_pairs n) = n * (n - 1))%nat.
Proof.
  unfold index_pairs, range at 2. rewrite Nat.sub_0_r.
  apply index_pairs_from. reflexivity.
Qed.

Lemma length_contributions (w : World) (sd : list submission_tuple)
  (pairs : list (nat * nat)) :
  (List.length (flat_map (contribution w sd) pairs) <= List.length pairs)%nat.
Proof.
  induction pairs as [|ij pairs IH]; simpl; [lia|].
  rewrite length_app.
  destruct (contribution_cases w sd ij) as [->|[r ->]]; simpl; lia.
Qed.

(** X10. [compare_all_submissions] returns for every list of submissions,
    with at most one result for each of the [n * (n - 1) / 2] pairs; with
    fewer than two submissions, or with submissions of one student only, it
    returns no result. *)
Theorem compare_all_submissions_count (w : World) (sd : list submission_tuple) :
  exists results,
    compare_all_submissions w sd = Ok results
    /\ (2 * List.length results <= List.length sd * (List.length sd - 1))%nat
    /\ ((List.length sd < 2)%nat -> results = [])
    /\ ((forall s1 s2, In s1 sd -> In s2 sd -> sub_student s1 = sub_student s2) ->
        results = []).
Proof.
  exists (flat_map (contribution w sd) (index_pairs (List.length sd))).
  split; [apply compare_all_submissions_pure|]. split; [|split].
  - pose proof (length_contributions w sd (index_pairs (List.length sd))).
    pose proof (length_index_pairs (List.length sd)). lia.
  - intros Hn. destruct sd as [|s [|s' sd]]; try reflexivity. simpl in Hn. lia.
  - intros Hsame.
    assert (G : forall pairs, flat_map (contribution w sd) pairs = []).
    { induction pairs as [|[i j] pairs IH]; simpl; [reflexivity|].
      rewrite IH, app_nil_r. unfold contribution.
      destruct (eligible sd (i, j)) eqn:E; [|reflexivity].
      apply eligible_iff in E.
      destruct E as (s1 & s2 & H1 & H2 & Hne & _).
      exfalso. apply Hne. apply Hsame; eapply nth_error_In; eassumption. }
    apply G.
Qed.

Lemma match_row_swap (a : uuid) (x y : string) (sc : Z) :
  x <> y -> match_row a (x, y, sc) = match_row a (y, x, sc).
Proof.
  intros Hne. unfold match_row.
  destruct (String.ltb y x) eqn:E1, (String.ltb x y) eqn:E2; try reflexivity.
  - unfold String.ltb in E1, E2. rewrite String.compare_antisym in E2.
    destruct (String.compare y x); discriminate.
  - rewrite (ltb_other_way x y Hne E1) in E2. discriminate.
Qed.

Lemma files_score_comm (w : World) (fs1 fs2 : list file_ref) :
  files_score w fs1 fs2 = files_score w fs2 fs1.
Proof. apply Z.le_antisymm; apply files_score_le. Qed.

Lemma row_of_swap (w : World) (a : uuid) (s1 s2 : submission_tuple) :
  sub_id s1 <> sub_id s2 -> row_of w a s1 s2 = row_of w a s2 s1.
Proof.
  intros Hne. unfold row_of.
  rewrite (files_score_comm w (sub_files s2)). apply match_row_swap, Hne.
Qed.

(** The rows computed from a list of submissions with distinct ids: one for
    each two of them that are compared and score above 0. *)
Lemma in_computed_rows (w : World) (a : uuid) (sd : list submission_tuple)
  (m : PlagiarismMatch) :
  NoDup (map sub_id sd) ->
  (In m (map (match_row a)
             (flat_map (contribution w sd) (index_pairs (List.length sd))))
   <-> exists s1 s2,
         In s1 sd /\ In s2 sd
         /\ sub_id s1 <> sub_id s2
         /\ sub_student s1 <> sub_student s2
         /\ sub_files s1 <> [] /\ sub_files s2 <> []
         /\ 0 < files_score w (sub_files s1) (sub_files s2)
         /\ m = row_of w a s1 s2).
Proof.
  intros Hnd. rewrite in_map_iff. split.
  - intros (r & <- & Hr). apply in_flat_map in Hr.
    destruct Hr as ([i j] & Hp & Hr). apply in_contribution in Hr.
    destruct Hr as (s1 & s2 & He & H1 & H2 & Hpos & ->). simpl in H1, H2.
    apply eligible_iff in He.
    destruct He as (s1' & s2' & H1' & H2' & Hst & Hf1 & Hf2).
    rewrite H1 in H1'. rewrite H2 in H2'.
    inversion H1'; inversion H2'; subst s1' s2'.
    exists s1, s2. repeat split; auto.
    + eapply nth_error_In; eassumption.
    + eapply nth_error_In; eassumption.
    + intros Heq. apply in_index_pairs in Hp.
      pose proof (nth_error_id_inj sd i j s1 s2 Hnd H1 H2 Heq). lia.
    + lia.
  - intros (s1 & s2 & I1 & I2 & Hid & Hst & Hf1 & Hf2 & Hpos & ->).
    destruct (In_nth_error _ _ I1) as [i Hi].
    destruct (In_nth_error _ _ I2) as [j Hj].
    assert (Li : (i < List.length sd)%nat) by (apply nth_error_Some; congruence).
    assert (Lj : (j < List.length sd)%nat) by (apply nth_error_Some; congruence).
    assert (Hij : i <> j) by (intros ->; congruence).
    destruct (Nat.lt_ge_cases i j) as [Hlt|Hge].
    + exists (sub_id s1, sub_id s2, files_score w (sub_files s1) (sub_files s2)).
      split; [reflexivity|]. apply in_flat_map. exists (i, j).
      split; [apply in_index_pairs; lia|].
      apply in_contribution. exists s1, s2. repeat split; auto; [|lia].
      apply eligible_iff. exists s1, s2. repeat split; auto.
    + exists (sub_id s2, sub_id s1, files_score w (sub_files s2) (sub_files s1)).
      split; [symmetry; apply (row_of_swap w a s1 s2 Hid)|].
      apply in_flat_map. exists (j, i).
      split; [apply in_index_pairs; lia|].
      rewrite (files_score_comm w (sub_files s1)) in Hpos.
      apply in_contribution. exists s2, s1. repeat split; auto; [|lia].
      apply eligible_iff. exists s2, s1. repeat split; auto.
Qed.

Lemma computed_rows_NoDup (w : World) (a : uuid) (sd : list submission_tuple) :
  NoDup (map sub_id sd) ->
  NoDup (map (match_row a)
             (flat_map (contribution w sd) (index_pairs (List.length sd)))).
Proof.
  intros Hnd. rewrite map_flat_map. apply NoDup_flat_map_disjoint.
  - apply NoDup_index_pairs.
  - intros ij _. destruct (contribution_cases w sd ij) as [->|[r ->]]; simpl.
    + constructor.
    + constructor; [intros []|constructor].
  - intros [i j] [i' j'] z Hp Hp' Hz Hz'.
    apply in_map_iff in Hz. destruct Hz as (r & Hr & Hin).
    apply in_map_iff in Hz'. destruct Hz' as (r' & Hr' & Hin').
    apply in_contribution in Hin, Hin'.
    destruct Hin as (s1 & s2 & _ & H1 & H2 & _ & ->).
    destruct Hin' as (t1 & t2 & _ & G1 & G2 & _ & ->).
    simpl in H1, H2, G1, G2.
    apply in_index_pairs in Hp, Hp'.
    assert (Hinj : forall u v su sv, nth_error sd u = Some su ->
              nth_error sd v = Some sv -> sub_id su = sub_id sv -> u = v)
      by (intros; eapply nth_error_id_inj; eauto).
    assert (Hne : sub_id s1 <> sub_id s2)
      by (intros E; pose proof (Hinj i j s1 s2 H1 H2 E); lia).
    assert (Gne : sub_id t1 <> sub_id t2)
      by (intros E; pose proof (Hinj i' j' t1 t2 G1 G2 E); lia).
    destruct (match_row_spec a (sub_id s1) (sub_id s2)
                (files_score w (sub_files s1) (sub_files s2)) Hne)
      as (_ & _ & _ & Hk).
    destruct (match_row_spec a (sub_id t1) (sub_id t2)
                (files_score w (sub_files t1) (sub_files t2)) Gne)
      as (_ & _ & _ & Gk).
    cbv zeta in Hk, Gk. rewrite Hr in Hk. rewrite Hr' in Gk.
    destruct Hk as [Hk|Hk], Gk as [Gk|Gk]; rewrite Hk in Gk;
      inversion Gk as [[Ea Eb]].
    + rewrite (Hinj i i' s1 t1), (Hinj j j' s2 t2); auto.
    + pose proof (Hinj i j' s1 t2 H1 G2 Ea).
      pose proof (Hinj j i' s2 t1 H2 G1 Eb). lia.
    + pose proof (Hinj j i' s2 t1 H2 G1 Ea).
      pose proof (Hinj i j' s1 t2 H1 G2 Eb). lia.
    + rewrite (Hinj i i' s1 t1), (Hinj j j' s2 t2); auto.
Qed.

Lemma computed_rows_perm (w : World) (a : uuid) (sd sd' : list submission_tuple) :
  Permutation sd sd' -> NoDup (map sub_id sd) ->
  Permutation
    (map (match_row a)
         (flat_map (contribution w sd) (index_pairs (List.length sd))))
    (map (match_row a)
         (flat_map (contribution w sd') (index_pairs (List.length sd')))).
Proof.
  intros P Hnd.
  assert (Hnd' : NoDup (map sub_id sd'))
    by (apply (Permutation_NoDup (Permutation_map sub_id P) Hnd)).
  apply NoDup_Permutation; try (apply computed_rows_NoDup; assumption).
  intros m. rewrite !in_computed_rows by assumption.
  split; intros (s1 & s2 & I1 & I2 & H); exists s1, s2; split.
  - apply (Permutation_in _ P I1).
  - split; [apply (Permutation_in _ P I2) | exact H].
  - apply (Permutation_in _ (Permutation_sym P) I1).
  - split; [apply (Permutation_in _ (Permutation_sym P) I2) | exact H].
Qed.

(** X11. The rows that a run stores do not depend on the order in which the
    database returns the submissions: on two databases that differ only in
    the order of the rows of [submissions] (their ids being distinct), the
    run leaves the same rows, up to their order. *)
Theorem run_independent_of_submission_order
  (UPLOAD_DIR : string) (w : World) (a : uuid) (db db' : Database)
  (Hsubs : Permutation (submissions db) (submissions db'))
  (Hrows : plagiarism_matches db = plagiarism_matches db')
  (Hkey : NoDup (map submission_id (submissions db))) :
  exists r r',
    run_plagiarism_check UPLOAD_DIR w a db = Ok r
    /\ run_plagiarism_check UPLOAD_DIR w a db' = Ok r'
    /\ Permutation (plagiarism_matches r) (plagiarism_matches r').
Proof.
  assert (P1 : Permutation (submissions_of a db) (submissions_of a db'))
    by (unfold submissions_of; apply filter_perm, Hsubs).
  assert (P2 : Permutation
                 (prepare_submission_data UPLOAD_DIR w (submissions_of a db))
                 (prepare_submission_data UPLOAD_DIR w (submissions_of a db')))
    by (unfold prepare_submission_data; apply Permutation_flat_map, P1).
  assert (Hsd : NoDup (map sub_id
                         (prepare_submission_data UPLOAD_DIR w (submissions_of a db))))
    by (apply NoDup_prepare, submissions_of_ids, Hkey).
  unfold run_plagiarism_check.
  rewrite <- (Permutation_length P1), <- (Permutation_length P2), <- Hrows.
  destruct (Z.of_nat (List.length (submissions_of a db)) <? 2).
  { exists db, db'. repeat split. rewrite Hrows. apply Permutation_refl. }
  destruct (Z.of_nat (List.length _) <? 2).
  { exists db, db'. repeat split. rewrite Hrows. apply Permutation_refl. }
  rewrite !compare_all_submissions_pure. simpl.
  eexists. eexists. split; [reflexivity|]. split; [reflexivity|]. simpl.
  apply Permutation_app_head. apply computed_rows_perm; assumption.
Qed.

Lemma compare_all_submissions_count_witness :
  exists results,
    compare_all_submissions padded_world
      [("s1", "alice", [("f1", "up/s1/a.txt")])] = Ok results
    /\ results = [].
Proof.
  destruct (compare_all_submissions_count padded_world
              [("s1", "alice", [("f1", "up/s1/a.txt")])])
    as (results & Hr & _ & Hsmall & _).
  exists results. split; [exact Hr|]. apply Hsmall. simpl. lia.
Defined.

Lemma run_independent_of_submission_order_witness :
  exists r r',
    run_plagiarism_check "up" padded_world id_a1 demo_db = Ok r
    /\ run_plagiarism_check "up" padded_world id_a1 demo_db_reordered = Ok r'
    /\ Permutation (plagiarism_matches r) (plagiarism_matches r').
Proof.
  apply run_independent_of_submission_order.
  - apply perm_swap.
  - reflexivity.
  - exact demo_db_ids.
Defined.

(** ** What a run does to the database *)

Lemma set_matches_same (db : Database) :
  set_matches db (plagiarism_matches db) = db.
Proof. destruct db. reflexivity. Qed.

Lemma run_plagiarism_check_effect
  (UPLOAD_DIR : string) (w : World) (a : uuid) (db : Database) :
  run_plagiarism_check UPLOAD_DIR w a db
  = Ok (set_matches db
          match run_rows UPLOAD_DIR w a (submissions db) with
          | None => plagiarism_matches db
          | Some rows =>
              (filter (fun m => negb (String.eqb (assignment_id m) a))
                      (plagiarism_matches db) ++ rows)%list
          end).
Proof.
  unfold run_plagiarism_check, run_rows, submissions_of.
  destruct (Z.of_nat (List.length _) <? 2); simpl.
  { rewrite set_matches_same. reflexivity. }
  destruct (Z.of_nat (List.length _) <? 2); simpl.
  { rewrite set_matches_same. reflexivity. }
  rewrite compare_all_submissions_pure. reflexivity.
Qed.

Lemma matches_of_run_rows (UPLOAD_DIR : string) (w : World) (a c : uuid)
  (table : list Submission) (rows : list PlagiarismMatch) :
  run_rows UPLOAD_DIR w a table = Some rows ->
  matches_of c rows = if String.eqb c a then rows else [].
Proof.
  unfold run_rows. destruct (_ || _)%bool; [discriminate|].
  intros H. inversion H. apply matches_of_added.
Qed.

Lemma kept_run_rows (UPLOAD_DIR : string) (w : World) (a : uuid)
  (table : list Submission) (rows : list PlagiarismMatch) :
  run_rows UPLOAD_DIR w a table = Some rows ->
  filter (fun m => negb (String.eqb (assignment_id m) a)) rows = [].
Proof.
  unfold run_rows. destruct (_ || _)%bool; [discriminate|].
  intros H. inversion H. clear.
  induction (flat_map _ _) as [|r rs IH]; simpl; [reflexivity|].
  rewrite match_row_assignment, String.eqb_refl. exact IH.
Qed.

Lemma filter_idem {A : Type} (keep : A -> bool) (xs : list A) :
  filter keep (filter keep xs) = filter keep xs.
Proof.
  induction xs as [|x xs IH]; simpl; [reflexivity|].
  destruct (keep x) eqn:E; simpl; [rewrite E, IH|rewrite IH]; reflexivity.
Qed.

Lemma run_plagiarism_check_twice
  (UPLOAD_DIR : string) (w : World) (a : uuid) (db db1 : Database) :
  run_plagiarism_check UPLOAD_DIR w a db = Ok db1 ->
  run_plagiarism_check UPLOAD_DIR w a db1 = Ok db1.
Proof.
  intros Hrun.
  rewrite run_plagiarism_check_effect in Hrun. inversion Hrun as [E]. clear Hrun.
  rewrite run_plagiarism_check_effect. f_equal. simpl.
  destruct (run_rows UPLOAD_DIR w a (submissions db)) as [rows|] eqn:R.
  - unfold set_matches. simpl. f_equal.
    rewrite filter_app, filter_idem, (kept_run_rows _ _ _ _ _ R), app_nil_r.
    reflexivity.
  - reflexivity.
Qed.

(** X12. Running the check again on the database that a run has left, with
    the files unchanged, stores the same rows as far as a run computes them
    (assignment, the two submissions and the score; the rows themselves are
    inserted anew, with their generated [id] and [checked_at]); and a run
    changes no table other than [plagiarism_matches]. *)
Theorem run_idempotent
  (UPLOAD_DIR : string) (w : World) (a : uuid) (db db1 : Database)
  (Hrun : run_plagiarism_check UPLOAD_DIR w a db = Ok db1) :
  (exists db2,
      run_plagiarism_check UPLOAD_DIR w a db1 = Ok db2
      /\ Permutation (map computed_columns (plagiarism_matches db2))
                     (map computed_columns (plagiarism_matches db1)))
  /\ assignments db1 = assignments db
  /\ enrollments db1 = enrollments db
  /\ users db1 = users db
  /\ submissions db1 = submissions db.
Proof.
  split.
  - exists db1. split; [apply (run_plagiarism_check_twice _ _ _ _ _ Hrun)|].
    apply Permutation_refl.
  - rewrite run_plagiarism_check_effect in Hrun. inversion Hrun as [E].
    repeat split.
Qed.

Lemma run_idempotent_witness :
  exists db2,
    run_plagiarism_check "up" padded_world id_a1
      (set_matches demo_db [other_row; new_row]) = Ok db2
    /\ Permutation
         (map computed_columns (plagiarism_matches db2))
         (map computed_columns
              (plagiarism_matches (set_matches demo_db [other_row; new_row]))).
Proof.
  apply (proj1 (run_idempotent "up" padded_world id_a1 demo_db
                  (set_matches demo_db [other_row; new_row]) eq_refl)).
Defined.

Lemma matches_of_after_run
  (UPLOAD_DIR : string) (w : World) (a c : uuid) (db : Database) :
  matches_of c
    match run_rows UPLOAD_DIR w a (submissions db) with
    | None => plagiarism_matches db
    | Some rows =>
        (filter (fun m => negb (String.eqb (assignment_id m) a))
                (plagiarism_matches db) ++ rows)%list
    end
  = match run_rows UPLOAD_DIR w a (submissions db) with
    | Some rows => if String.eqb c a then rows
                   else matches_of c (plagiarism_matches db)
    | None => matches_of c (plagiarism_matches db)
    end.
Proof.
  destruct (run_rows UPLOAD_DIR w a (submissions db)) as [rows|] eqn:R;
    [|reflexivity].
  rewrite matches_of_app, matches_of_kept, (matches_of_run_rows _ _ _ _ _ _ R).
  destruct (String.eqb c a); [reflexivity | apply app_nil_r].
Qed.

(** X13. Checks of different assignments do not interfere: run one after
    the other in either order, they leave the same rows for every
    assignment. *)
Theorem runs_of_different_assignments_commute
  (UPLOAD_DIR : string) (w : World) (a b : uuid) (db : Database)
  (Hab : a <> b) :
  exists d1 d2,
    (d <- run_plagiarism_check UPLOAD_DIR w a db ;;
     run_plagiarism_check UPLOAD_DIR w b d) = Ok d1
    /\ (d <- run_plagiarism_check UPLOAD_DIR w b db ;;
        run_plagiarism_check UPLOAD_DIR w a d) = Ok d2
    /\ forall c, matches_of c (plagiarism_matches d1)
                 = matches_of c (plagiarism_matches d2).
Proof.
  rewrite !run_plagiarism_check_effect. simpl.
  rewrite !run_plagiarism_check_effect. simpl.
  eexists. eexists. split; [reflexivity|]. split; [reflexivity|].
  intros c. simpl.
  set (M := plagiarism_matches db).
  pose proof (matches_of_after_run UPLOAD_DIR w a c db) as Ea. fold M in Ea.
  pose proof (matches_of_after_run UPLOAD_DIR w b c db) as Eb. fold M in Eb.
  destruct (run_rows UPLOAD_DIR w a (submissions db)) as [ra|] eqn:Ra;
    destruct (run_rows UPLOAD_DIR w b (submissions db)) as [rb|] eqn:Rb.
  - clear Ea Eb.
    rewrite !matches_of_app, !matches_of_kept, !matches_of_app, !matches_of_kept.
    rewrite (matches_of_run_rows _ _ _ _ _ _ Ra),
            (matches_of_run_rows _ _ _ _ _ _ Rb).
    destruct (String.eqb_spec c a) as [Ha|Na];
      destruct (String.eqb_spec c b) as [Hb|Nb];
      try (exfalso; congruence); simpl; rewrite ?app_nil_r; reflexivity.
  - rewrite Ea. reflexivity.
  - rewrite Eb. reflexivity.
  - reflexivity.
Qed.

Lemma runs_of_different_assignments_commute_witness :
  exists d1 d2,
    (d <- run_plagiarism_check "up" padded_world id_a1 demo_db ;;
     run_plagiarism_check "up" padded_world id_a2 d) = Ok d1
    /\ (d <- run_plagiarism_check "up" padded_world id_a2 demo_db ;;
        run_plagiarism_check "up" padded_world id_a1 d) = Ok d2
    /\ forall c, matches_of c (plagiarism_matches d1)
                 = matches_of c (plagiarism_matches d2).
Proof.
  apply runs_of_different_assignments_commute. discriminate.
Defined.

(** ** The rows of a run and the submissions they pair *)

Lemma in_prepare (U : string) (w : World) (subs : list Submission)
  (t : submission_tuple) :
  In t (prepare_submission_data U w subs) ->
  exists s, In s subs
            /\ t = (submission_id s, student_id s, valid_files U w s)
            /\ valid_files U w s <> [].
Proof.
  unfold prepare_submission_data. rewrite in_flat_map.
  intros (s & Hs & Ht). exists s. split; [exact Hs|].
  destruct (negb (is_nil (files s))); [|destruct Ht].
  destruct (negb (is_nil (valid_files U w s))) eqn:E; [|destruct Ht].
  destruct Ht as [<-|[]]. split; [reflexivity|].
  apply is_nil_false. apply negb_true_iff. exact E.
Qed.

Lemma run_rows_some (U : string) (w : World) (a : uuid) (db : Database) :
  (2 <= List.length (prepare_submission_data U w (submissions_of a db)))%nat ->
  run_rows U w a (submissions db)
  = Some (map (match_row a)
              (flat_map
                 (contribution w (prepare_submission_data U w (submissions_of a db)))
                 (index_pairs
                    (List.length
                       (prepare_submission_data U w (submissions_of a db)))))).
Proof.
  intros H. pose proof (prepare_length U w (submissions_of a db)) as Hl.
  unfold run_rows. fold (submissions_of a db).
  destruct (Z.ltb_spec (Z.of_nat (List.length (submissions_of a db))) 2); [lia|].
  destruct (Z.ltb_spec
              (Z.of_nat (List.length
                           (prepare_submission_data U w (submissions_of a db)))) 2);
    [lia|].
  reflexivity.
Qed.

Lemma run_row_origin (U : string) (w : World) (a : uuid) (db : Database)
  (m : PlagiarismMatch) :
  In m (map (match_row a)
            (flat_map
               (contribution w (prepare_submission_data U w (submissions_of a db)))
               (index_pairs
                  (List.length
                     (prepare_submission_data U w (submissions_of a db)))))) ->
  exists s1 s2,
    In s1 (submissions_of a db) /\ In s2 (submissions_of a db)
    /\ student_id s1 <> student_id s2
    /\ valid_files U w s1 <> [] /\ valid_files U w s2 <> []
    /\ ((submission1_id m = submission_id s1
         /\ submission2_id m = submission_id s2)
        \/ (submission1_id m = submission_id s2
            /\ submission2_id m = submission_id s1))
    /\ 0 < similarity_score m
    /\ similarity_score m
       = files_score w (valid_files U w s1) (valid_files U w s2).
Proof.
  set (sd := prepare_submission_data U w (submissions_of a db)).
  intros Hm. apply in_map_iff in Hm. destruct Hm as (r & <- & Hr).
  apply in_flat_map in Hr. destruct Hr as ([i j] & _ & Hr).
  apply in_contribution in Hr.
  destruct Hr as (t1 & t2 & He & H1 & H2 & Hpos & ->). simpl in H1, H2.
  apply eligible_iff in He.
  destruct He as (t1' & t2' & H1' & H2' & Hst & _).
  rewrite H1 in H1'. rewrite H2 in H2'. inversion H1'; inversion H2'; subst t1' t2'.
  destruct (in_prepare U w _ t1 (nth_error_In _ _ H1)) as (s1 & I1 & -> & V1).
  destruct (in_prepare U w _ t2 (nth_error_In _ _ H2)) as (s2 & I2 & -> & V2).
  unfold sub_student, sub_id, sub_files in *. simpl in *.
  exists s1, s2. repeat split; auto.
  - unfold match_row.
    destruct (String.ltb (submission_id s2) (submission_id s1)); simpl; auto.
  - unfold match_row.
    destruct (String.ltb (submission_id s2) (submission_id s1)); simpl; lia.
  - unfold match_row.
    destruct (String.ltb (submission_id s2) (submission_id s1)); reflexivity.
Qed.

(** X14. After a run with at least two eligible submissions, every row
    stored for the assignment pairs two submissions of that assignment that
    exist, belong to different students and each have a file on disk, and
    its score is the positive score of their two sets of files. *)
Theorem stored_rows_pair_submissions
  (UPLOAD_DIR : string) (w : World) (a : uuid) (db db' : Database)
  (m : PlagiarismMatch)
  (Hrun : run_plagiarism_check UPLOAD_DIR w a db = Ok db')
  (Hsd : (2 <= List.length
                 (prepare_submission_data UPLOAD_DIR w (submissions_of a db)))%nat)
  (Hm : In m (matches_of a (plagiarism_matches db'))) :
  exists s1 s2,
    In s1 (submissions db') /\ In s2 (submissions db')
    /\ submission_assignment_id s1 = a /\ submission_assignment_id s2 = a
    /\ student_id s1 <> student_id s2
    /\ valid_files UPLOAD_DIR w s1 <> [] /\ valid_files UPLOAD_DIR w s2 <> []
    /\ ((submission1_id m = submission_id s1
         /\ submission2_id m = submission_id s2)
        \/ (submission1_id m = submission_id s2
            /\ submission2_id m = submission_id s1))
    /\ 0 < similarity_score m
    /\ compare_all_files_in_submissions w
         (valid_files UPLOAD_DIR w s1) (valid_files UPLOAD_DIR w s2)
       = Ok (similarity_score m).
Proof.
  rewrite run_plagiarism_check_effect in Hrun. inversion Hrun as [E]. clear Hrun.
  rewrite <- E in Hm. simpl in Hm. simpl.
  rewrite matches_of_after_run, (run_rows_some _ _ _ _ Hsd), String.eqb_refl in Hm.
  destruct (run_row_origin UPLOAD_DIR w a db m Hm)
    as (s1 & s2 & I1 & I2 & Hst & V1 & V2 & Hids & Hpos & Hsc).
  unfold submissions_of in I1, I2. apply filter_In in I1, I2.
  destruct I1 as [I1 A1], I2 as [I2 A2]. apply String.eqb_eq in A1, A2.
  exists s1, s2. repeat split; auto.
  rewrite compare_all_files_score, Hsc. reflexivity.
Qed.

Lemma stored_rows_pair_submissions_witness :
  exists s1 s2,
    In s1 (submissions (set_matches demo_db [other_row; new_row]))
    /\ In s2 (submissions (set_matches demo_db [other_row; new_row]))
    /\ submission_assignment_id s1 = id_a1 /\ submission_assignment_id s2 = id_a1
    /\ student_id s1 <> student_id s2
    /\ valid_files "up" padded_world s1 <> []
    /\ valid_files "up" padded_world s2 <> []
    /\ ((submission1_id new_row = submission_id s1
         /\ submission2_id new_row = submission_id s2)
        \/ (submission1_id new_row = submission_id s2
            /\ submission2_id new_row = submission_id s1))
    /\ 0 < similarity_score new_row
    /\ compare_all_files_in_submissions padded_world
         (valid_files "up" padded_world s1) (valid_files "up" padded_world s2)
       = Ok (similarity_score new_row).
Proof.
  apply (stored_rows_pair_submissions "up" padded_world id_a1 demo_db
           (set_matches demo_db [other_row; new_row]) new_row eq_refl).
  - vm_compute. apply le_n.
  - vm_compute. left. reflexivity.
Defined.

Lemma find_submission_student (db : Database) (s : Submission) :
  students_exist db -> In s (submissions db) ->
  exists s' u, find_submission db (submission_id s) = Some s'
               /\ find_user db (student_id s') = Some u.
Proof.
  intros Hfk Hs. unfold find_submission.
  destruct (find _ (submissions db)) as [s'|] eqn:F.
  - apply find_some in F. destruct F as [Hin _].
    destruct (Hfk s' Hin) as (u & Hu & Eu).
    destruct (find_user db (student_id s')) as [u'|] eqn:G;
      [exists s', u'; auto|].
    unfold find_user in G.
    pose proof (find_none _ _ G u Hu) as Hn. simpl in Hn.
    rewrite Eu, String.eqb_refl in Hn. discriminate.
  - pose proof (find_none _ _ F s Hs) as Hn. simpl in Hn.
    rewrite String.eqb_refl in Hn. discriminate.
Qed.

(** X15. Run, then report.  When every submission refers to an existing
    user, the report read after a run with at least two eligible submissions
    omits nothing: it lists exactly the stored rows that reach the
    threshold, and [total_comparisons] is the number of rows of the run. *)
Theorem report_after_run
  (UPLOAD_DIR : string) (w : World) (a : uuid) (db db' : Database)
  (u : User) (t : Q) (r : PlagiarismReportResponse)
  (Hrun : run_plagiarism_check UPLOAD_DIR w a db = Ok db')
  (Hsd : (2 <= List.length
                 (prepare_submission_data UPLOAD_DIR w (submissions_of a db)))%nat)
  (Hfk : students_exist db)
  (Hr : get_plagiarism_report db' u a t = inr r) :
  Permutation (map response_match (matches r))
    (filter (fun m => Qle_bool t (score_value m))
            (matches_of a (plagiarism_matches db')))
  /\ exists results,
       compare_all_submissions w
         (prepare_submission_data UPLOAD_DIR w (submissions_of a db)) = Ok results
       /\ total_comparisons r = Z.of_nat (List.length results).
Proof.
  apply get_plagiarism_report_inr in Hr. subst r.
  rewrite run_plagiarism_check_effect in Hrun. injection Hrun as E.
  set (sd := prepare_submission_data UPLOAD_DIR w (submissions_of a db)) in *.
  set (rows := map (match_row a)
                   (flat_map (contribution w sd) (index_pairs (List.length sd)))).
  assert (Hstored : matches_of a (plagiarism_matches db') = rows).
  { rewrite <- E. simpl.
    rewrite matches_of_after_run, (run_rows_some _ _ _ _ Hsd), String.eqb_refl.
    reflexivity. }
  assert (Hsubs : submissions db' = submissions db) by (rewrite <- E; reflexivity).
  assert (Husers : users db' = users db) by (rewrite <- E; reflexivity).
  assert (Hfound : forall m, In m rows -> records_exist db' m = true).
  { intros m Hm.
    destruct (run_row_origin UPLOAD_DIR w a db m Hm)
      as (s1 & s2 & I1 & I2 & _ & _ & _ & Hids & _).
    unfold submissions_of in I1, I2. apply filter_In in I1, I2.
    destruct (find_submission_student db s1 Hfk (proj1 I1)) as (x1 & u1 & F1 & U1).
    destruct (find_submission_student db s2 Hfk (proj1 I2)) as (x2 & u2 & F2 & U2).
    unfold records_exist, find_submission, find_user.
    rewrite Hsubs, Husers. fold (find_submission db (submission1_id m)).
    fold (find_submission db (submission2_id m)).
    destruct Hids as [[-> ->]|[-> ->]]; rewrite F1, F2;
      fold (find_user db (student_id x1)); fold (find_user db (student_id x2));
      rewrite U1, U2; reflexivity. }
  unfold build_report. cbn [matches total_comparisons]. rewrite Hstored. split.
  - rewrite responses_are_found_matches, filter_twice.
    pose proof (order_by_score_desc_perm rows) as P.
    apply Permutation_trans
      with (filter (fun m => Qle_bool t (score_value m) && records_exist db' m)%bool
                   rows); [apply filter_perm, P|].
    rewrite (filter_ext_in
               (fun m => Qle_bool t (score_value m) && records_exist db' m)%bool
               (fun m => Qle_bool t (score_value m))); [apply Permutation_refl|].
    intros m Hm. rewrite (Hfound m Hm), andb_true_r. reflexivity.
  - exists (flat_map (contribution w sd) (index_pairs (List.length sd))).
    split; [apply compare_all_submissions_pure|].
    f_equal. rewrite (Permutation_length (order_by_score_desc_perm rows)).
    unfold rows. apply length_map.
Qed.

Lemma demo_students_exist : students_exist demo_db.
Proof.
  intros s [<-|[<-|[]]].
  - exists bob. split; [right; left; reflexivity | reflexivity].
  - exists alice. split; [left; reflexivity | reflexivity].
Qed.

Lemma report_after_run_witness :
  Permutation
    (map response_match
         (matches (build_report (set_matches demo_db [other_row; new_row])
                                id_a1 (50 # 1))))
    (filter (fun m => Qle_bool (50 # 1) (score_value m))
            (matches_of id_a1
               (plagiarism_matches (set_matches demo_db [other_row; new_row]))))
  /\ exists results,
       compare_all_submissions padded_world
         (prepare_submission_data "up" padded_world (submissions_of id_a1 demo_db))
       = Ok results
       /\ total_comparisons (build_report (set_matches demo_db [other_row; new_row])
                                          id_a1 (50 # 1))
          = Z.of_nat (List.length results).
Proof.
  apply (report_after_run "up" padded_world id_a1 demo_db
           (set_matches demo_db [other_row; new_row]) teacher (50 # 1)).
  - reflexivity.
  - vm_compute. apply le_n.
  - exact demo_students_exist.
  - reflexivity.
Defined.

(** ** The order and the classes of the report *)

Lemma insert_desc_in (m x : PlagiarismMatch) (l : list PlagiarismMatch) :
  In x (insert_desc m l) -> x = m \/ In x l.
Proof.
  intros H. apply (Permutation_in _ (insert_desc_perm m l)) in H.
  destruct H as [<-|H]; auto.
Qed.

Lemma insert_desc_descending (m : PlagiarismMatch) (l : list PlagiarismMatch) :
  descending (map similarity_score l) ->
  descending (map similarity_score (insert_desc m l)).
Proof.
  induction l as [|x l IH]; simpl; [intros _; split; [intros y []|exact I]|].
  intros [Hx Hl]. destruct (Z.leb_spec (similarity_score x) (similarity_score m)).
  - simpl. split; [|split; assumption].
    intros y [<-|Hy]; [lia|]. specialize (Hx y Hy). lia.
  - simpl. split; [|apply IH, Hl].
    intros y Hy. apply in_map_iff in Hy. destruct Hy as (z & <- & Hz).
    apply insert_desc_in in Hz. destruct Hz as [->|Hz]; [lia|].
    apply Hx. apply in_map. exact Hz.
Qed.

Lemma order_by_score_desc_descending (l : list PlagiarismMatch) :
  descending (map similarity_score (order_by_score_desc l)).
Proof.
  unfold order_by_score_desc. induction l as [|x l IH]; simpl; [exact I|].
  apply insert_desc_descending, IH.
Qed.

Lemma filter_descending (keep : PlagiarismMatch -> bool) (l : list PlagiarismMatch) :
  descending (map similarity_score l) ->
  descending (map similarity_score (filter keep l)).
Proof.
  induction l as [|x l IH]; simpl; [auto|].
  intros [Hx Hl]. destruct (keep x); simpl; [|apply IH, Hl].
  split; [|apply IH, Hl].
  intros y Hy. apply Hx. apply in_map_iff in Hy.
  destruct Hy as (z & <- & Hz). apply filter_In in Hz. apply in_map, Hz.
Qed.

Lemma Qle_bool_weaken (t1 t2 x : Q) :
  Qle t1 t2 -> Qle_bool t2 x = true -> Qle_bool t1 x = true.
Proof.
  intros H12 H. apply Qle_bool_iff. apply Qle_bool_iff in H.
  apply Qle_trans with t2; assumption.
Qed.

(** X16. The matches of a report are in descending order of score, and
    raising the threshold only removes entries from the list: the entries of
    the report at a higher threshold are entries of the report at a lower
    one, and the three counts are the same. *)
Theorem report_order_and_threshold
  (db : Database) (u : User) (a : uuid) (t1 t2 : Q)
  (r1 r2 : PlagiarismReportResponse)
  (Ht : Qle t1 t2)
  (H1 : get_plagiarism_report db u a t1 = inr r1)
  (H2 : get_plagiarism_report db u a t2 = inr r2) :
  descending (map (fun x => similarity_score (response_match x)) (matches r1))
  /\ incl (matches r2) (matches r1)
  /\ total_comparisons r2 = total_comparisons r1
  /\ high_similarity_count r2 = high_similarity_count r1
  /\ medium_similarity_count r2 = medium_similarity_count r1.
Proof.
  apply get_plagiarism_report_inr in H1, H2. subst r1 r2.
  unfold build_report. cbn [matches total_comparisons high_similarity_count
                            medium_similarity_count].
  split; [|split; [|repeat split]].
  - rewrite <- map_map, responses_are_found_matches.
    apply filter_descending, filter_descending, order_by_score_desc_descending.
  - intros x Hx. apply in_flat_map in Hx. destruct Hx as (m & Hm & Hx).
    apply in_flat_map. exists m. split; [|exact Hx].
    apply filter_In in Hm. apply filter_In. split; [apply Hm|].
    apply (Qle_bool_weaken t1 t2 _ Ht), Hm.
Qed.

Lemma report_order_and_threshold_witness :
  incl (matches (build_report report_db id_a1 (90 # 1)))
       (matches (build_report report_db id_a1 (50 # 1))).
Proof.
  apply (report_order_and_threshold report_db teacher id_a1 (50 # 1) (90 # 1)
           (build_report report_db id_a1 (50 # 1))
           (build_report report_db id_a1 (90 # 1))).
  - vm_compute. discriminate.
  - reflexivity.
  - reflexivity.
Defined.

Lemma count_cons {A : Type} (f : A -> bool) (x : A) (l : list A) :
  count f (x :: l) = (if f x then 1 else 0) + count f l.
Proof.
  unfold count. simpl. destruct (f x); simpl List.length; lia.
Qed.

Lemma score_classes (l : list PlagiarismMatch) :
  count (fun m => 7000 <? similarity_score m) l
  + count (fun m => (5000 <=? similarity_score m)
                    && (similarity_score m <=? 7000))%bool l
  + count (fun m => similarity_score m <? 5000) l
  = Z.of_nat (List.length l).
Proof.
  induction l as [|x l IH]; [reflexivity|].
  rewrite !count_cons. cbn [List.length]. rewrite Nat2Z.inj_succ, <- IH.
  destruct (Z.ltb_spec 7000 (similarity_score x)),
           (Z.leb_spec 5000 (similarity_score x)),
           (Z.leb_spec (similarity_score x) 7000),
           (Z.ltb_spec (similarity_score x) 5000); cbn [andb]; lia.
Qed.

(** X17. In a report the stored rows fall into three classes, high (above
    70.00), medium (50.00 to 70.00, both included) and the rest (below
    50.00), that add up to [total_comparisons]; and the list of matches is
    never longer than [total_comparisons]. *)
Theorem report_classes
  (db : Database) (u : User) (a : uuid) (t : Q) (r : PlagiarismReportResponse)
  (Hr : get_plagiarism_report db u a t = inr r) :
  high_similarity_count r + medium_similarity_count r
  + count (fun m => similarity_score m <? 5000)
          (matches_of a (plagiarism_matches db))
  = total_comparisons r
  /\ Z.of_nat (List.length (matches r)) <= total_comparisons r.
Proof.
  apply get_plagiarism_report_inr in Hr. subst r.
  unfold build_report. cbn [matches total_comparisons high_similarity_count
                            medium_similarity_count].
  set (stored := matches_of a (plagiarism_matches db)).
  pose proof (order_by_score_desc_perm stored) as P. split.
  - rewrite (count_perm (fun m => similarity_score m <? 5000) _ _
               (Permutation_sym P)).
    apply score_classes.
  - rewrite <- (length_map response_match), responses_are_found_matches.
    apply Nat2Z.inj_le.
    eapply Nat.le_trans; [apply filter_length_le|]. apply filter_length_le.
Qed.

Lemma report_classes_witness :
  high_similarity_count (build_report report_db id_a1 (50 # 1))
  + medium_similarity_count (build_report report_db id_a1 (50 # 1))
  + count (fun m => similarity_score m <? 5000)
          (matches_of id_a1 (plagiarism_matches report_db))
  = total_comparisons (build_report report_db id_a1 (50 # 1)).
Proof.
  apply (proj1 (report_classes report_db teacher id_a1 (50 # 1)
                  (build_report report_db id_a1 (50 # 1)) eq_refl)).
Defined.

(** ** The matches of one submission *)

Lemma submission_match_entry_spec (db : Database) (sid : uuid)
  (m : PlagiarismMatch) (acc : list SubmissionMatch) :
  submission_match_entry db sid m acc
  = match entry_of db sid m with
    | Some e => Ok (acc ++ [e])%list
    | None => Raise (Exception "AttributeError")
    end.
Proof.
  unfold submission_match_entry, entry_of, other_side.
  destruct (find_submission db _) as [s|]; [|reflexivity]. simpl.
  destruct (find_user db (student_id s)); reflexivity.
Qed.

Lemma submission_matches_loop (db : Database) (sid : uuid)
  (l : list PlagiarismMatch) :
  forall acc,
    for_each l (submission_match_entry db sid) acc
    = if forallb (fun m => is_some (entry_of db sid m)) l
      then Ok (acc ++ flat_map (fun m => option_list (entry_of db sid m)) l)%list
      else Raise (Exception "AttributeError").
Proof.
  induction l as [|m l IH]; intros acc; simpl.
  - rewrite app_nil_r. reflexivity.
  - rewrite submission_match_entry_spec.
    destruct (entry_of db sid m) as [e|]; simpl; [|reflexivity].
    rewrite IH. destruct (forallb _ l); [|reflexivity].
    rewrite <- app_assoc. reflexivity.
Qed.

Lemma entries_of_all (db : Database) (sid : uuid) (l : list PlagiarismMatch) :
  forallb (fun m => is_some (entry_of db sid m)) l = true ->
  map entry_match (flat_map (fun m => option_list (entry_of db sid m)) l) = l.
Proof.
  induction l as [|m l IH]; simpl; [reflexivity|].
  intros H. apply andb_true_iff in H. destruct H as [Hm Hl].
  rewrite map_app, (IH Hl). unfold entry_of in *.
  destruct (find_submission db (other_side sid m)) as [s|]; [|discriminate].
  destruct (find_user db (student_id s)); [reflexivity | discriminate].
Qed.

(** X18. When [get_submission_plagiarism_matches] returns its response, the
    response lists every stored match that has the submission on either
    side, of whatever assignment, once, and the scores do not increase
    along the list (the order of entries of equal score is left open);
    each entry names the submission on the other side, which is found
    together with its student, and which differs from the submission
    whenever the two sides of the row differ. *)
Theorem submission_matches_listed
  (db : Database) (u : User) (sid : uuid) (r : SubmissionMatchesResponse)
  (Hr : get_submission_plagiarism_matches db u sid = Ok (inr r)) :
  response_submission_id r = sid
  /\ Permutation (map entry_match (submission_matches r))
                 (matches_involving sid (plagiarism_matches db))
  /\ descending (map (fun e => similarity_score (entry_match e))
                     (submission_matches r))
  /\ forall e, In e (submission_matches r) ->
       In (entry_match e) (plagiarism_matches db)
       /\ (submission1_id (entry_match e) = sid
           \/ submission2_id (entry_match e) = sid)
       /\ other_submission_id e = other_side sid (entry_match e)
       /\ (submission1_id (entry_match e) <> submission2_id (entry_match e) ->
           other_submission_id e <> sid)
       /\ exists s student,
            find_submission db (other_submission_id e) = Some s
            /\ find_user db (student_id s) = Some student
            /\ other_student e = info_of student.
Proof.
  unfold get_submission_plagiarism_matches in Hr.
  destruct (find_submission db sid) as [submission|]; [|discriminate].
  destruct (is_admin u);
    [|destruct (find _ (assignments db)) as [x|]; [|discriminate]];
    simpl in Hr;
    try (destruct (is_some (teacher_enrollment db u x)); [|discriminate]);
    simpl in Hr;
    rewrite submission_matches_loop in Hr;
    (destruct (forallb _ _) eqn:Hall; [|discriminate]);
    simpl in Hr; inversion Hr as [E]; clear Hr; simpl;
    (split; [reflexivity|]);
    (split;
     [rewrite (entries_of_all _ _ _ Hall); apply order_by_score_desc_perm|]);
    (split;
     [rewrite <- map_map, (entries_of_all _ _ _ Hall);
      apply order_by_score_desc_descending|]);
    intros e He; apply in_flat_map in He; destruct He as (m & Hm & He);
    apply (Permutation_in _ (order_by_score_desc_perm _)) in Hm;
    apply filter_In in Hm; destruct Hm as [Hin Hinv];
    unfold entry_of in He;
    (destruct (find_submission db (other_side sid m)) as [s|] eqn:F;
     [|destruct He]);
    (destruct (find_user db (student_id s)) as [st|] eqn:G; [|destruct He]);
    destruct He as [<-|[]]; simpl;
    (split; [exact Hin|]);
    (split;
     [apply orb_true_iff in Hinv;
      destruct Hinv as [H|H]; apply String.eqb_eq in H; auto|]);
    (split; [reflexivity|]);
    (split;
     [unfold other_side;
      destruct (String.eqb_spec (submission1_id m) sid); congruence|]);
    exists s, st; auto.
Qed.

Lemma submission_matches_listed_witness :
  exists r,
    get_submission_plagiarism_matches report_db teacher id_s2 = Ok (inr r)
    /\ Permutation (map entry_match (submission_matches r))
                   [other_row; new_row]
    /\ map other_submission_id (submission_matches r) = [id_s1; id_s1].
Proof.
  eexists. split; [reflexivity|].
  destruct (submission_matches_listed report_db teacher id_s2 _ eq_refl)
    as (_ & Hlist & _).
  split; [exact Hlist | reflexivity].
Defined.

Lemma forallb_perm {A : Type} (f : A -> bool) (xs ys : list A) :
  Permutation xs ys -> forallb f xs = forallb f ys.
Proof.
  induction 1 as [|x xs ys _ IH|x y xs|xs ys zs _ IH1 _ IH2]; simpl.
  - reflexivity.
  - rewrite IH. reflexivity.
  - destruct (f x), (f y); reflexivity.
  - congruence.
Qed.

Lemma forallb_false_iff {A : Type} (f : A -> bool) (l : list A) :
  forallb f l = false <-> exists x, In x l /\ f x = false.
Proof.
  induction l as [|y l IH]; simpl.
  - split; [discriminate | intros (x & [] & _)].
  - rewrite andb_false_iff, IH. split.
    + intros [H|(x & Hx & Hf)]; [exists y; auto | exists x; auto].
    + intros (x & [->|Hx] & Hf); [left; exact Hf | right; exists x; auto].
Qed.

(** X19. The failures of [get_submission_plagiarism_matches].  An unknown
    submission gives 404.  For an administrator and a known submission, the
    handler does not skip a match whose other submission, or the student of
    it, is missing, as the report does: it raises [AttributeError] exactly
    when there is such a match, and returns its response otherwise.  For
    another user it raises as well when the assignment of the submission is
    missing. *)
Theorem submission_matches_failures (db : Database) (u : User) (sid : uuid) :
  (find_submission db sid = None ->
   get_submission_plagiarism_matches db u sid
   = Ok (inl (HTTP_404_NOT_FOUND "Submission not found")))
  /\ (forall s, find_submission db sid = Some s -> is_admin u = true ->
        (get_submission_plagiarism_matches db u sid
         = Raise (Exception "AttributeError")
         <-> exists m, In m (matches_involving sid (plagiarism_matches db))
                       /\ entry_of db sid m = None)
        /\ ((exists r, get_submission_plagiarism_matches db u sid = Ok (inr r))
            <-> forall m, In m (matches_involving sid (plagiarism_matches db)) ->
                          entry_of db sid m <> None))
  /\ (forall s, find_submission db sid = Some s -> is_admin u = false ->
        find (fun x => String.eqb (assignment_pk x) (submission_assignment_id s))
             (assignments db) = None ->
        get_submission_plagiarism_matches db u sid
        = Raise (Exception "AttributeError")).
Proof.
  split; [|split].
  - intros H. unfold get_submission_plagiarism_matches. rewrite H. reflexivity.
  - intros s Hs Ha. unfold get_submission_plagiarism_matches.
    rewrite Hs, Ha. simpl. rewrite submission_matches_loop.
    rewrite (forallb_perm _ _ _
               (order_by_score_desc_perm
                  (matches_involving sid (plagiarism_matches db)))).
    destruct (forallb _ (matches_involving sid (plagiarism_matches db))) eqn:F.
    + rewrite forallb_forall in F. simpl. split; split.
      * discriminate.
      * intros (m & Hm & Hnone). specialize (F m Hm).
        rewrite Hnone in F. discriminate.
      * intros _ m Hm Hnone. specialize (F m Hm).
        rewrite Hnone in F. discriminate.
      * intros _. eexists. reflexivity.
    + apply forallb_false_iff in F. destruct F as (m & Hm & Hf). simpl.
      assert (Hnone : entry_of db sid m = None)
        by (destruct (entry_of db sid m); [discriminate | reflexivity]).
      split; split.
      * intros _. exists m. auto.
      * reflexivity.
      * intros [r Hr]. discriminate.
      * intros Hall. exfalso. apply (Hall m Hm Hnone).
  - intros s Hs Ha Hx. unfold get_submission_plagiarism_matches.
    rewrite Hs, Ha, Hx. reflexivity.
Qed.

Lemma submission_matches_failures_witness :
  get_submission_plagiarism_matches report_db admin id_s9
  = Ok (inl (HTTP_404_NOT_FOUND "Submission not found"))
  /\ get_submission_plagiarism_matches report_db admin id_s1
     = Raise (Exception "AttributeError").
Proof.
  split.
  - apply (proj1 (submission_matches_failures report_db admin id_s9)).
    reflexivity.
  - apply (proj1 (proj2 (submission_matches_failures report_db admin id_s1))
             submission_s1 eq_refl eq_refl).
    exists old_row. split; [left; reflexivity | reflexivity].
Defined.

(** ** Triggering the check *)

(** X20. The teacher endpoint that triggers the check admits exactly the
    users that may read the report of the assignment (administrators, and
    teachers enrolled in its course, when the assignment exists); the
    internal endpoint admits every caller when the assignment exists.  An
    admitted call adds the check of the assignment at the end of the
    background tasks of the request; a rejected call adds nothing. *)
Theorem trigger_permissions
  (db : Database) (u : User) (a : uuid) (t : Q) (queue : list uuid) :
  accepted (fst (trigger_plagiarism_check db u a queue))
  = accepted (get_plagiarism_report db u a t)
  /\ accepted (fst (trigger_plagiarism_check_internal db a queue))
     = is_some (find (fun x => String.eqb (assignment_pk x) a) (assignments db))
  /\ (accepted (fst (trigger_plagiarism_check db u a queue)) = true ->
      accepted (fst (trigger_plagiarism_check_internal db a queue)) = true)
  /\ snd (trigger_plagiarism_check db u a queue)
     = (if accepted (fst (trigger_plagiarism_check db u a queue))
        then queue ++ [a] else queue)%list
  /\ snd (trigger_plagiarism_check_internal db a queue)
     = (if accepted (fst (trigger_plagiarism_check_internal db a queue))
        then queue ++ [a] else queue)%list.
Proof.
  unfold trigger_plagiarism_check, trigger_plagiarism_check_internal,
    get_plagiarism_report, teacher_enrollment.
  destruct (find _ (assignments db)) as [x|]; simpl.
  - destruct (is_admin u); simpl; [repeat split|].
    destruct (find _ (enrollments db)); simpl; repeat split; auto.
  - repeat split. discriminate.
Qed.

Lemma trigger_permissions_witness :
  accepted (fst (trigger_plagiarism_check_internal report_db id_a1 [])) = true.
Proof.
  apply (proj1 (proj2 (proj2 (trigger_permissions report_db teacher id_a1
                                (70 # 1) [])))).
  reflexivity.
Defined.

(** ** Who may read the report *)

(** X21. [get_plagiarism_report] answers 404 exactly when the assignment
    does not exist, and otherwise admits the administrators and the users
    that have an enrollment in the course of the assignment with the role
    ["teacher"]; every other user gets 403, whatever the role of the user
    outside the course. *)
Theorem report_access (db : Database) (u : User) (a : uuid) (t : Q) :
  (get_plagiarism_report db u a t = inl (HTTP_404_NOT_FOUND "Assignment not found")
   <-> forall x, In x (assignments db) -> assignment_pk x <> a)
  /\ (accepted (get_plagiarism_report db u a t) = true
      <-> exists x,
            find (fun y => String.eqb (assignment_pk y) a) (assignments db)
            = Some x
            /\ (role u = ADMIN
                \/ exists e, In e (enrollments db)
                             /\ enrollment_course_id e = course_id x
                             /\ enrollment_user_id e = user_id u
                             /\ role_in_course e = "teacher")).
Proof.
  unfold get_plagiarism_report. split.
  - destruct (find _ (assignments db)) as [x|] eqn:F.
    + split.
      * destruct (is_admin u); [discriminate|].
        destruct (find _ (enrollments db)); discriminate.
      * intros Hno. apply find_some in F. destruct F as [Hin E].
        apply String.eqb_eq in E. exfalso. apply (Hno x Hin E).
    + split; [|reflexivity]. intros _ x Hx E.
      pose proof (find_none _ _ F x Hx) as Hn. simpl in Hn.
      rewrite E, String.eqb_refl in Hn. discriminate.
  - destruct (find _ (assignments db)) as [x|] eqn:F.
    + destruct (is_admin u) eqn:A.
      * split; [|reflexivity]. intros _. exists x. split; [reflexivity|].
        left. unfold is_admin in A. destruct (role u); try discriminate. reflexivity.
      * destruct (find _ (enrollments db)) as [e|] eqn:G; simpl.
        -- split; [|reflexivity]. intros _. exists x. split; [reflexivity|].
           right. exists e. apply find_some in G. destruct G as [Hin He].
           apply andb_true_iff in He. destruct He as [He Hr].
           apply andb_true_iff in He. destruct He as [Hc Hu].
           apply String.eqb_eq in Hc, Hu, Hr. auto.
        -- split; [discriminate|]. intros (y & Hy & [Hadm|(e & Hin & Hc & Hu & Hr)]).
           ++ unfold is_admin in A. rewrite Hadm in A. discriminate.
           ++ inversion Hy; subst y.
              pose proof (find_none _ _ G e Hin) as Hn. simpl in Hn.
              rewrite Hc, Hu, Hr, !String.eqb_refl in Hn. discriminate.
    + simpl. split; [discriminate|]. intros (y & Hy & _). discriminate.
Qed.

Lemma report_access_witness :
  accepted (get_plagiarism_report report_db teacher id_a1 (70 # 1)) = true.
Proof.
  apply (proj2 (proj2 (report_access report_db teacher id_a1 (70 # 1)))).
  eexists. split; [reflexivity|]. right. eexists. split; [left; reflexivity|].
  repeat split.
Defined.

(** ** More files, and copied files *)

Lemma files_score_bound (w : World) (A B : list file_ref) (f g : file_ref) :
  In f A -> In g B -> pair_score w (snd f) (snd g) <= files_score w A B.
Proof.
  intros Hf Hg. unfold files_score. rewrite max_score_from_prod.
  apply fold_max_bound. apply in_map_iff. exists (f, g).
  split; [reflexivity|]. apply in_prod; assumption.
Qed.

Lemma files_score_nonneg (w : World) (A B : list file_ref) :
  0 <= files_score w A B.
Proof. unfold files_score. rewrite max_score_from_prod. apply fold_max_ge. Qed.

Lemma files_score_incl (w : World) (A A' B B' : list file_ref) :
  incl A A' -> incl B B' -> files_score w A B <= files_score w A' B'.
Proof.
  intros HA HB. unfold files_score at 1. rewrite max_score_from_prod.
  destruct (fold_max_attained (map (score_of_pair w) (list_prod A B)) 0)
    as [E|Hin].
  - rewrite E. apply files_score_nonneg.
  - apply in_map_iff in Hin. destruct Hin as ([f g] & Hs & Hp).
    rewrite <- Hs. apply in_prod_iff in Hp.
    apply files_score_bound; [apply HA | apply HB]; tauto.
Qed.

(** X22. Adding files to a submission never lowers its score against
    another submission, whatever the files contain and wherever they are put
    in the list; the score of two file sets lies between 0 and 100.00, and
    is 0 when one of them is empty. *)
Theorem more_files_score_more (w : World) (A A' B B' : list file_ref)
  (HA : incl A A') (HB : incl B B') :
  exists m m',
    compare_all_files_in_submissions w A B = Ok m
    /\ compare_all_files_in_submissions w A' B' = Ok m'
    /\ m <= m' /\ 0 <= m /\ m' <= 10000
    /\ compare_all_files_in_submissions w [] B = Ok 0
    /\ compare_all_files_in_submissions w A [] = Ok 0.
Proof.
  exists (files_score w A B), (files_score w A' B').
  rewrite !compare_all_files_score. repeat split.
  - apply files_score_incl; assumption.
  - apply files_score_nonneg.
  - apply files_score_le_100.
  - f_equal. unfold files_score. rewrite max_score_from_prod.
    replace (list_prod A []) with (@nil (file_ref * file_ref)); [reflexivity|].
    clear. induction A as [|x A IH]; simpl; [reflexivity | exact IH].
Qed.

Lemma more_files_score_more_witness :
  exists m m',
    compare_all_files_in_submissions padded_world
      [("f0", "up/s1/none.txt")] [("f2", "up/s2/b.txt")] = Ok m
    /\ compare_all_files_in_submissions padded_world
         [("f1", "up/s1/a.txt"); ("f0", "up/s1/none.txt")] [("f2", "up/s2/b.txt")]
       = Ok m'
    /\ m <= m'.
Proof.
  destruct (more_files_score_more padded_world
              [("f0", "up/s1/none.txt")]
              [("f1", "up/s1/a.txt"); ("f0", "up/s1/none.txt")]
              [("f2", "up/s2/b.txt")] [("f2", "up/s2/b.txt")])
    as (m & m' & H1 & H2 & Hle & _).
  - intros x [<-|[]]. right. left. reflexivity.
  - intros x Hx. exact Hx.
  - exists m, m'. auto.
Defined.

(** X23. A copied file shows: when a file of one submission and a file of
    the other have the same extracted text, of at least 50 characters and
    with at least one word, the two submissions score 100.00, whatever their
    other files are. *)
Theorem copied_file_scores_100 (w : World) (A B : list file_ref)
  (f g : file_ref) (text : string)
  (Hf : In f A) (Hg : In g B)
  (Htf : extract_text_from_file w (snd f) = Ok text)
  (Htg : extract_text_from_file w (snd g) = Ok text)
  (Hlen : 50 <= len text)
  (Hword : tokenize (preprocess_text text) <> []) :
  compare_submissions w (snd f) (snd g) = Ok 10000
  /\ compare_all_files_in_submissions w A B = Ok 10000.
Proof.
  assert (Hp : pair_score w (snd f) (snd g) = 10000).
  { unfold pair_score.
    rewrite extract_text_from_file_total in Htf, Htg.
    inversion Htf as [E1]. inversion Htg as [E2]. rewrite E1, E2.
    destruct (Z.ltb_spec (len text) 50); [lia|]. simpl.
    apply (proj1 (cosine_equal_disjoint text text) Hword).
    apply Permutation_refl. }
  split.
  - rewrite compare_submissions_score, Hp. reflexivity.
  - rewrite compare_all_files_score. f_equal.
    apply Z.le_antisymm; [apply files_score_le_100|].
    rewrite <- Hp. apply files_score_bound; assumption.
Qed.

Lemma copied_file_scores_100_witness :
  compare_all_files_in_submissions padded_world
    [("f0", "up/s1/none.txt"); ("f1", "up/s1/a.txt")]
    [("f2", "up/s2/b.txt"); ("f3", "up/s2/none.txt")]
  = Ok 10000.
Proof.
  assert (Hlen : 50 <= len padded_text) by (vm_compute; discriminate).
  assert (Hword : tokenize (preprocess_text padded_text) <> [])
    by (vm_compute; discriminate).
  apply (proj2 (copied_file_scores_100 padded_world
                  [("f0", "up/s1/none.txt"); ("f1", "up/s1/a.txt")]
                  [("f2", "up/s2/b.txt"); ("f3", "up/s2/none.txt")]
                  ("f1", "up/s1/a.txt") ("f2", "up/s2/b.txt") padded_text
                  (or_intror (or_introl eq_refl)) (or_introl eq_refl)
                  eq_refl eq_refl Hlen Hword)).
Defined.

(** ** Binary64 values of scores and thresholds *)

(** The values that [float] gives these decimals. *)
Example binary64_values :
  map (fun x => Qred (binary64 x))
      [6667 # 100; 1 # 100; 100 # 1; 3333 # 100; 1234 # 100; 99999 # 100;
       1001 # 10; (-6667) # 100]
  = [4691484174324859 # 70368744177664;
     5764607523034235 # 576460752303423488;
     100 # 1;
     2345390243441541 # 70368744177664;
     3473401212609495 # 281474976710656;
     4398002530638889 # 4398046511104;
     3521955646092083 # 35184372088832;
     (-4691484174324859) # 70368744177664]%Q.
Proof. vm_compute. reflexivity. Qed.

(** A threshold written as the decimal of a stored score admits that score,
    though the float of 66.67 lies above 66.67. *)
Example threshold_at_stored_score :
  Qle_bool (binary64 (6667 # 100))
           (score_value {| assignment_id := id_a1; submission1_id := id_s1;
                           submission2_id := id_s2; similarity_score := 6667 |})
  = true
  /\ Qle_bool (binary64 (6667 # 100)) (6667 # 100) = false.
Proof. vm_compute. split; reflexivity. Qed.
